(** * The cellular info API (cell/src/u_cell_info.c)

    A shallow embedding of the radio-parameter refresh, the per-field
    getters, the IMEI reader and the UTC-time reader, together with the
    properties of them that the specification states.

    Integers are [Z]; the only places where the C code can leave the
    range of [int32_t] are written with [int32].  The AT client, the
    instance registry and the C library are collaborators of this file:
    they appear as type classes whose operations carry the names the
    source uses. *)

From Stdlib Require Import ZArith QArith String Ascii List Lia.
From stdpp Require Import gmap strings.
Import ListNotations.

Local Open Scope string_scope.
Local Open Scope Z_scope.

(** ** Machine integers *)

(** Conversion of an integer to [int32_t] (two's complement wrap-around). *)
Definition int32 (z : Z) : Z := (z + 2 ^ 31) mod 2 ^ 32 - 2 ^ 31.

Definition INT_MAX : Z := 2 ^ 31 - 1.

(** ** Error codes

    [u_error_common.h] and [u_cell.h] are not part of the sources at hand:
    the codes are taken as parameters.  What the code relies on is that
    success is zero (it tests [errorCode == 0]) and that the error codes are
    negative members of an enumeration. *)
Class ErrorCodes := {
  U_ERROR_COMMON_UNKNOWN : Z;
  U_ERROR_COMMON_NOT_INITIALISED : Z;
  U_ERROR_COMMON_INVALID_PARAMETER : Z;
  U_CELL_ERROR_AT : Z;
  U_CELL_ERROR_NOT_REGISTERED : Z;
  U_CELL_ERROR_VALUE_OUT_OF_RANGE : Z;
  U_ERROR_COMMON_UNKNOWN_neg : U_ERROR_COMMON_UNKNOWN < 0;
  U_ERROR_COMMON_NOT_INITIALISED_neg : U_ERROR_COMMON_NOT_INITIALISED < 0;
  U_ERROR_COMMON_INVALID_PARAMETER_neg : U_ERROR_COMMON_INVALID_PARAMETER < 0;
  U_CELL_ERROR_AT_neg : U_CELL_ERROR_AT < 0;
  U_CELL_ERROR_NOT_REGISTERED_neg : U_CELL_ERROR_NOT_REGISTERED < 0;
  U_CELL_ERROR_VALUE_OUT_OF_RANGE_neg : U_CELL_ERROR_VALUE_OUT_OF_RANGE < 0
}.

Definition U_ERROR_COMMON_SUCCESS : Z := 0.

(** ** Static data and static functions *)

(** Array to convert the LTE RSSI number from AT+CSQ into a dBm value. *)
Definition gRssiConvertLte : list Z :=
  [-118; -115; -113; -110; -108; -105; -103; -100;
   -98;  -95;  -93;  -90;  -88;  -85;  -83;  -80;
   -78;  -76;  -74;  -73;  -71;  -69;  -68;  -65;
   -63;  -61;  -60;  -59;  -58;  -55;  -53;  -48].

(** Convert RSRP in 36.133 format to dBm; 0 if the number is not known. *)
Definition rsrpToDbm (rsrp : Z) : Z :=
  let rsrpDbm := 0 in
  if (rsrp >=? 0) && (rsrp <=? 97) then
    let rsrpDbm := rsrp - (97 + 44) in
    if rsrpDbm <? -141 then -141 else rsrpDbm
  else rsrpDbm.

(** Convert RSRQ in 36.133 format to dB; 0 if the number is not known.
    The division of C truncates toward zero: [Z.quot]. *)
Definition rsrqToDb (rsrq : Z) : Z :=
  let rsrqDb := 0 in
  if (rsrq >=? 0) && (rsrq <=? 34) then
    let rsrqDb := Z.quot (rsrq - (34 + 6)) 2 in
    if rsrqDb <? -19 then -19 else rsrqDb
  else rsrqDb.

(** ** The collaborators *)

(** A computation over a state [S] that returns an [A]: the code calls its
    collaborators for their effects on the AT client and on the instance
    list. *)
Definition M (S A : Type) : Type := S -> A * S.

#[global] Instance M_ret {S} : MRet (M S) := fun A (a : A) s => (a, s).
#[global] Instance M_bind {S} : MBind (M S) :=
  fun A B (f : A -> M S B) (m : M S A) s => let (a, s') := m s in f a s'.

(** The AT client ([u_at_client.h]).  The handle of the source designates the
    client and the module behind it; here it is their state.  A read of a
    string or of bytes gives what was read, or nothing when the client
    reports an error. *)
Class AtClient (uAtClientHandle_t : Type) := {
  uAtClientLock : M uAtClientHandle_t unit;
  uAtClientUnlock : M uAtClientHandle_t Z;
  uAtClientCommandStart : string -> M uAtClientHandle_t unit;
  uAtClientCommandStop : M uAtClientHandle_t unit;
  uAtClientResponseStart : option string -> M uAtClientHandle_t unit;
  uAtClientResponseStop : M uAtClientHandle_t unit;
  uAtClientReadInt : M uAtClientHandle_t Z;
  uAtClientReadString : Z -> M uAtClientHandle_t (option string);
  uAtClientReadBytes : Z -> M uAtClientHandle_t (option string);
  uAtClientSkipParameters : Z -> M uAtClientHandle_t unit
}.

(** The count a read returns: the number of characters, or a negative error
    code. *)
Definition bytesReadOf (r : option string) : Z :=
  match r with
  | Some s => Z.of_nat (String.length s)
  | None => -1
  end.

(** What [u_cell_module_type.h], [u_cell_net.h] and [u_cell_private.h]
    declare and the sources at hand do not show: the module types with the
    test of the SARA-R4 family, the radio access technologies with the test
    for EUTRAN, and the values that stand for an unknown cell ID and an
    unknown EARFCN. *)
Class CellPrivate := {
  uCellModuleType_t : Type;
  uCellModuleType_eq_dec :: EqDecision uCellModuleType_t;
  U_CELL_MODULE_TYPE_SARA_R5 : uCellModuleType_t;
  U_CELL_PRIVATE_MODULE_IS_SARA_R4 : uCellModuleType_t -> bool;
  uCellNetRat_t : Type;
  U_CELL_PRIVATE_RAT_IS_EUTRAN : uCellNetRat_t -> bool;
  cellIdUnknown : Z;
  earfcnUnknown : Z
}.

(** A value of the types [float] and [double]: a finite binary fraction,
    taken as the rational number it is, an infinity or a NaN. *)
Inductive floatValue :=
| Finite (q : Q)
| Infinite (negative : bool)
| NotANumber.

(** The part of the C implementation that gives and converts floating-point
    numbers.  [strtof] gives the [float] of a string.  The conversion to
    [int32_t] of a value that is not finite, or whose integer part an
    [int32_t] cannot hold, is undefined in C: [int32_of_undefined] is what the
    platform stores then, some [int32_t]. *)
Class CLibrary := {
  strtof : string -> floatValue;
  int32_of_undefined : floatValue -> Z;
  int32_of_undefined_range : forall v, - 2 ^ 31 <= int32_of_undefined v < 2 ^ 31
}.

(** The type [double] with the operations that [uCellInfoGetSnrDb] applies
    to it.  [pow] and [log10] give their result and say whether they set
    [errno]; nothing more is assumed about them. *)
Class LibM := {
  double : Type;
  double_of_int : Z -> double;
  double_sub : double -> double -> double;
  double_mul : double -> double -> double;
  double_div : double -> double -> double;
  pow : double -> double -> double * bool;
  log10 : double -> double * bool;
  int32_of_double : double -> Z
}.

(** ** The data of an instance *)

Record uCellPrivateRadioParameters_t := {
  rssiDbm : Z;
  rsrpDbm : Z;
  rsrqDb : Z;
  rxQual : Z;
  cellId : Z;
  earfcn : Z
}.

Definition set_rssiDbm (v : Z) (p : uCellPrivateRadioParameters_t) :=
  {| rssiDbm := v; rsrpDbm := rsrpDbm p; rsrqDb := rsrqDb p;
     rxQual := rxQual p; cellId := cellId p; earfcn := earfcn p |}.
Definition set_rsrpDbm (v : Z) (p : uCellPrivateRadioParameters_t) :=
  {| rssiDbm := rssiDbm p; rsrpDbm := v; rsrqDb := rsrqDb p;
     rxQual := rxQual p; cellId := cellId p; earfcn := earfcn p |}.
Definition set_rsrqDb (v : Z) (p : uCellPrivateRadioParameters_t) :=
  {| rssiDbm := rssiDbm p; rsrpDbm := rsrpDbm p; rsrqDb := v;
     rxQual := rxQual p; cellId := cellId p; earfcn := earfcn p |}.
Definition set_rxQual (v : Z) (p : uCellPrivateRadioParameters_t) :=
  {| rssiDbm := rssiDbm p; rsrpDbm := rsrpDbm p; rsrqDb := rsrqDb p;
     rxQual := v; cellId := cellId p; earfcn := earfcn p |}.
Definition set_cellId (v : Z) (p : uCellPrivateRadioParameters_t) :=
  {| rssiDbm := rssiDbm p; rsrpDbm := rsrpDbm p; rsrqDb := rsrqDb p;
     rxQual := rxQual p; cellId := v; earfcn := earfcn p |}.
Definition set_earfcn (v : Z) (p : uCellPrivateRadioParameters_t) :=
  {| rssiDbm := rssiDbm p; rsrpDbm := rsrpDbm p; rsrqDb := rsrqDb p;
     rxQual := rxQual p; cellId := cellId p; earfcn := v |}.

(** Modelled from the spec: [uCellPrivateClearRadioParameters] is defined in
    [u_cell_private.c].  The spec has every field reset to its unknown
    sentinel: 0 for RSSI, RSRP and RSRQ, -1 for RxQual; it gives no number for
    the cell ID and the EARFCN, which stay parameters. *)
Definition uCellPrivateClearRadioParameters `{CellPrivate}
    (p : uCellPrivateRadioParameters_t) : uCellPrivateRadioParameters_t :=
  {| rssiDbm := 0; rsrpDbm := 0; rsrqDb := 0; rxQual := -1;
     cellId := cellIdUnknown; earfcn := earfcnUnknown |}.

(** ** The exact part of the C library *)

Definition NUL : ascii := Ascii.zero.

Definition isdigit (c : ascii) : bool :=
  (48 <=? Z.of_nat (nat_of_ascii c)) && (Z.of_nat (nat_of_ascii c) <=? 57).

Definition isspace (c : ascii) : bool :=
  let n := Z.of_nat (nat_of_ascii c) in (n =? 32) || ((9 <=? n) && (n <=? 13)).

(** The C string that starts at [offset] of a buffer: the characters up to
    the first NUL. *)
Fixpoint untilNul (l : list ascii) : list ascii :=
  match l with
  | [] => []
  | c :: l' => if Ascii.eqb c NUL then [] else c :: untilNul l'
  end.

Definition cString (buffer : list ascii) (offset : nat) : list ascii :=
  untilNul (drop offset buffer).

Fixpoint atoiDigits (acc : Z) (l : list ascii) : Z :=
  match l with
  | c :: l' =>
      if isdigit c
      then atoiDigits (acc * 10 + (Z.of_nat (nat_of_ascii c) - 48)) l'
      else acc
  | [] => acc
  end.

Fixpoint skipSpace (l : list ascii) : list ascii :=
  match l with
  | c :: l' => if isspace c then skipSpace l' else l
  | [] => []
  end.

(** [atoi]: white space, an optional sign, then the decimal digits. *)
Definition atoi (l : list ascii) : Z :=
  match skipSpace l with
  | c :: l' =>
      if Ascii.eqb c "-" then - atoiDigits 0 l'
      else if Ascii.eqb c "+" then atoiDigits 0 l'
      else atoiDigits 0 (c :: l')
  | [] => 0
  end.

(** The fields of [struct tm] that the code sets. *)
Record tm := {
  tm_sec : Z;
  tm_min : Z;
  tm_hour : Z;
  tm_mday : Z;
  tm_mon : Z;
  tm_year : Z
}.

(** Days from 1970-01-01 to the given day of the proleptic Gregorian
    calendar, [m] in 1..12. *)
Definition daysFromCivil (y m d : Z) : Z :=
  let y := if m <=? 2 then y - 1 else y in
  let era := y / 400 in
  let yoe := y - era * 400 in
  let doy := (153 * (if m <=? 2 then m + 9 else m - 3) + 2) / 5 + d - 1 in
  let doe := yoe * 365 + yoe / 4 - yoe / 100 + doy in
  era * 146097 + doe - 719468.

(** [mktime] with the time zone of the platform at UTC and no daylight
    saving, as the spec has it: calendar arithmetic on the fields, a month
    out of 0..11 carried into the year.  The code leaves [tm_isdst] of its
    [struct tm] without a value; it is taken as 0 here, and a platform that
    reads another value there may return a time one hour away. *)
Definition mktime (t : tm) : Z :=
  let y := tm_year t + 1900 + tm_mon t / 12 in
  let m := tm_mon t mod 12 + 1 in
  daysFromCivil y m (tm_mday t) * 86400
  + tm_hour t * 3600 + tm_min t * 60 + tm_sec t.

(** Truncation of a rational toward zero: the conversion of a [double] that
    holds it to an integer. *)
Definition Qtruncate (q : Q) : Z := Z.quot (Qnum q) (Zpos (Qden q)).

(** [(int32_t) (rsrx + 0.5)] or [(int32_t) (rsrx - 0.5)] by the sign of
    [rsrx], as [getRadioParamsUcged5] writes it for RSRP and for RSRQ.  The
    sum is exact in a [double] for every [float] whose rounding fits an
    [int32_t]; where it does not fit, and for an infinity or a NaN, the
    conversion is undefined. *)
Definition roundRsrx `{CLibrary} (rsrx : floatValue) : Z :=
  match rsrx with
  | Finite q =>
      let n :=
        if Qle_bool 0 q then Qtruncate (q + (1 # 2)) else Qtruncate (q - (1 # 2)) in
      if (- 2 ^ 31 <=? n) && (n <? 2 ^ 31) then n else int32_of_undefined rsrx
  | _ => int32_of_undefined rsrx
  end.

(** Modelled from the spec: [uCellPrivateIsNumeric] is defined in
    [u_cell_private.c]; it holds when every one of the first [bufferSize]
    characters is a decimal digit. *)
Definition uCellPrivateIsNumeric (pBuffer : string) (bufferSize : nat) : bool :=
  forallb isdigit (take bufferSize (list_ascii_of_string pBuffer)).

(** The length of an IMEI ([u_cell_info.h]). *)
Definition U_CELL_INFO_IMEI_SIZE : Z := 15.

(** What a buffer holds once [data] was read into its start. *)
Definition readInto (data : option string) (buffer : string) : string :=
  match data with
  | Some s => s ++ string_of_list_ascii
                     (drop (String.length s) (list_ascii_of_string buffer))
  | None => buffer
  end.

(** A buffer of [size] characters that holds the string [s] and its
    terminator. *)
Definition stringBuffer (size : nat) (s : string) : list ascii :=
  list_ascii_of_string s ++ replicate (size - String.length s) NUL.

(** ** The functions of u_cell_info.c *)

Section Info.

Context `{ErrorCodes} `{CellPrivate} `{CLibrary} `{LibM}.
Context {uAtClientHandle_t : Type} `{AtClient uAtClientHandle_t}.

(** An instance ([u_cell_private.h]): its AT client, the type of its module
    ([pModule->moduleType]), what the network side of the driver knows of
    the registration and of the active RAT, and the radio parameters. *)
Record uCellPrivateInstance_t := {
  atHandle : uAtClientHandle_t;
  moduleType : uCellModuleType_t;
  netRegistered : bool;
  netActiveRat : uCellNetRat_t;
  radioParameters : uCellPrivateRadioParameters_t
}.

(** What [pInstance->atHandle] and [pInstance->radioParameters] are left at
    when a function returns. *)
Definition updateInstance (pInstance : uCellPrivateInstance_t)
    (at' : uAtClientHandle_t) (p : uCellPrivateRadioParameters_t) :=
  {| atHandle := at'; moduleType := moduleType pInstance;
     netRegistered := netRegistered pInstance;
     netActiveRat := netActiveRat pInstance;
     radioParameters := p |}.

(** Modelled from the spec: [uCellPrivateIsRegistered] and
    [uCellPrivateGetActiveRat] are defined in [u_cell_private.c]; they report
    the registration and the RAT that the network component keeps for the
    instance. *)
Definition uCellPrivateIsRegistered (pInstance : uCellPrivateInstance_t) : bool :=
  netRegistered pInstance.

Definition uCellPrivateGetActiveRat (pInstance : uCellPrivateInstance_t) : uCellNetRat_t :=
  netActiveRat pInstance.

(** The state shared by the cellular API: whether the mutex exists
    ([gUCellPrivateMutex != NULL]) and the instances by handle. *)
Record uCellPrivate_t := {
  gUCellPrivateMutex : bool;
  gpUCellPrivateInstanceList : gmap Z uCellPrivateInstance_t
}.

(** Modelled from the spec: [pUCellPrivateGetInstance] is defined in
    [u_cell_private.c]; it finds the instance of a handle, if any. *)
Definition pUCellPrivateGetInstance (cellHandle : Z) (g : uCellPrivate_t)
  : option uCellPrivateInstance_t :=
  gpUCellPrivateInstanceList g !! cellHandle.

(** The shared state once the instance of [cellHandle] was written through
    its pointer. *)
Definition storeInstance (cellHandle : Z) (pInstance : uCellPrivateInstance_t)
    (g : uCellPrivate_t) : uCellPrivate_t :=
  {| gUCellPrivateMutex := gUCellPrivateMutex g;
     gpUCellPrivateInstanceList := <[cellHandle := pInstance]> (gpUCellPrivateInstanceList g) |}.

(** Fill in the radio parameters the AT+CSQ way. *)
Definition getRadioParamsCsq (pRadioParameters : uCellPrivateRadioParameters_t)
  : M uAtClientHandle_t (Z * uCellPrivateRadioParameters_t) :=
  uAtClientLock;;
  uAtClientCommandStart "AT+CSQ";;
  uAtClientCommandStop;;
  uAtClientResponseStart (Some "+CSQ:");;
  x ← uAtClientReadInt;
  y ← uAtClientReadInt;
  let y := if y =? 99 then -1 else y in
  uAtClientResponseStop;;
  errorCode ← uAtClientUnlock;
  mret (errorCode,
        if errorCode =? 0 then
          let p :=
            if (x >=? 0) && (x <? Z.of_nat (length gRssiConvertLte))
            then set_rssiDbm (nth (Z.to_nat x) gRssiConvertLte 0) pRadioParameters
            else pRadioParameters in
          set_rxQual y p
        else pRadioParameters).

(** Fill in the radio parameters the AT+UCGED=2 way. *)
Definition getRadioParamsUcged2 (pRadioParameters : uCellPrivateRadioParameters_t)
  : M uAtClientHandle_t (Z * uCellPrivateRadioParameters_t) :=
  uAtClientLock;;
  uAtClientCommandStart "AT+UCGED?";;
  uAtClientCommandStop;;
  uAtClientResponseStart (Some "+UCGED:");;
  uAtClientSkipParameters 1;;
  uAtClientResponseStart None;;
  uAtClientSkipParameters 4;;
  uAtClientResponseStart None;;
  v ← uAtClientReadInt;
  let p := set_earfcn v pRadioParameters in
  uAtClientSkipParameters 5;;
  v ← uAtClientReadInt;
  let p := set_cellId v p in
  uAtClientSkipParameters 3;;
  v ← uAtClientReadInt;
  let p := set_rsrpDbm (rsrpToDbm v) p in
  v ← uAtClientReadInt;
  let p := set_rsrqDb (rsrqToDb v) p in
  uAtClientResponseStop;;
  errorCode ← uAtClientUnlock;
  mret (errorCode, p).

(** Fill in the radio parameters the AT+UCGED=5 way. *)
Definition getRadioParamsUcged5 (pRadioParameters : uCellPrivateRadioParameters_t)
  : M uAtClientHandle_t (Z * uCellPrivateRadioParameters_t) :=
  uAtClientLock;;
  uAtClientCommandStart "AT+UCGED?";;
  uAtClientCommandStop;;
  uAtClientResponseStart (Some "+RSRP:");;
  v ← uAtClientReadInt;
  let p := set_cellId v pRadioParameters in
  v ← uAtClientReadInt;
  let p := set_earfcn v p in
  buffer ← uAtClientReadString 16;
  let p :=
    match buffer with
    | Some b => if 0 <? bytesReadOf buffer then set_rsrpDbm (roundRsrx (strtof b)) p else p
    | None => p
    end in
  uAtClientResponseStart (Some "+RSRQ:");;
  uAtClientSkipParameters 2;;
  buffer ← uAtClientReadString 16;
  let p :=
    match buffer with
    | Some b => if 0 <? bytesReadOf buffer then set_rsrqDb (roundRsrx (strtof b)) p else p
    | None => p
    end in
  uAtClientResponseStop;;
  errorCode ← uAtClientUnlock;
  mret (errorCode, p).

(** Refresh the RF status values.  [uPortTaskBlock] and [uPortLog] leave the
    state as it is and are not shown. *)
Definition uCellInfoRefreshRadioParameters (cellHandle : Z) : M uCellPrivate_t Z :=
  fun g =>
  let errorCode := U_ERROR_COMMON_NOT_INITIALISED in
  if gUCellPrivateMutex g then
    match pUCellPrivateGetInstance cellHandle g with
    | Some pInstance =>
        let p := uCellPrivateClearRadioParameters (radioParameters pInstance) in
        let '((errorCode, p), at') :=
          if uCellPrivateIsRegistered pInstance then
            let '((errorCode, p), at') := getRadioParamsCsq p (atHandle pInstance) in
            if bool_decide (moduleType pInstance = U_CELL_MODULE_TYPE_SARA_R5) then
              getRadioParamsUcged2 p at'
            else if U_CELL_PRIVATE_MODULE_IS_SARA_R4 (moduleType pInstance) then
              let rat := uCellPrivateGetActiveRat pInstance in
              if U_CELL_PRIVATE_RAT_IS_EUTRAN rat then
                getRadioParamsUcged5 p at'
              else
                ((U_ERROR_COMMON_SUCCESS, p), at')
            else ((errorCode, p), at')
          else ((U_CELL_ERROR_NOT_REGISTERED, p), atHandle pInstance) in
        (errorCode, storeInstance cellHandle (updateInstance pInstance at' p) g)
    | None => (U_ERROR_COMMON_INVALID_PARAMETER, g)
    end
  else (errorCode, g).

(** Get the RSSI.  Zero is the error code here as negative values are valid. *)
Definition uCellInfoGetRssiDbm (cellHandle : Z) (g : uCellPrivate_t) : Z :=
  let errorCodeOrValue := 0 in
  if gUCellPrivateMutex g then
    match pUCellPrivateGetInstance cellHandle g with
    | Some pInstance => rssiDbm (radioParameters pInstance)
    | None => errorCodeOrValue
    end
  else errorCodeOrValue.

(** Get the RSRP. *)
Definition uCellInfoGetRsrpDbm (cellHandle : Z) (g : uCellPrivate_t) : Z :=
  let errorCodeOrValue := 0 in
  if gUCellPrivateMutex g then
    match pUCellPrivateGetInstance cellHandle g with
    | Some pInstance => rsrpDbm (radioParameters pInstance)
    | None => errorCodeOrValue
    end
  else errorCodeOrValue.

(** Get the RSRQ. *)
Definition uCellInfoGetRsrqDb (cellHandle : Z) (g : uCellPrivate_t) : Z :=
  let errorCodeOrValue := 0 in
  if gUCellPrivateMutex g then
    match pUCellPrivateGetInstance cellHandle g with
    | Some pInstance => rsrqDb (radioParameters pInstance)
    | None => errorCodeOrValue
    end
  else errorCodeOrValue.

(** Get the RxQual. *)
Definition uCellInfoGetRxQual (cellHandle : Z) (g : uCellPrivate_t) : Z :=
  let errorCodeOrValue := U_ERROR_COMMON_NOT_INITIALISED in
  if gUCellPrivateMutex g then
    match pUCellPrivateGetInstance cellHandle g with
    | Some pInstance => rxQual (radioParameters pInstance)
    | None => U_ERROR_COMMON_INVALID_PARAMETER
    end
  else errorCodeOrValue.

(** Get the cell ID. *)
Definition uCellInfoGetCellId (cellHandle : Z) (g : uCellPrivate_t) : Z :=
  let errorCodeOrValue := U_ERROR_COMMON_NOT_INITIALISED in
  if gUCellPrivateMutex g then
    match pUCellPrivateGetInstance cellHandle g with
    | Some pInstance => cellId (radioParameters pInstance)
    | None => U_ERROR_COMMON_INVALID_PARAMETER
    end
  else errorCodeOrValue.

(** Get the EARFCN. *)
Definition uCellInfoGetEarfcn (cellHandle : Z) (g : uCellPrivate_t) : Z :=
  let errorCodeOrValue := U_ERROR_COMMON_NOT_INITIALISED in
  if gUCellPrivateMutex g then
    match pUCellPrivateGetInstance cellHandle g with
    | Some pInstance => earfcn (radioParameters pInstance)
    | None => U_ERROR_COMMON_INVALID_PARAMETER
    end
  else errorCodeOrValue.

(** Get the SNR.  [pSnrDb] is [None] for a NULL pointer and otherwise what
    the pointed integer holds; the second result is what it holds on
    return. *)
Definition uCellInfoGetSnrDb (cellHandle : Z) (pSnrDb : option Z) (g : uCellPrivate_t)
  : Z * option Z :=
  let errorCode := U_ERROR_COMMON_NOT_INITIALISED in
  if gUCellPrivateMutex g then
    match pUCellPrivateGetInstance cellHandle g, pSnrDb with
    | Some pInstance, Some _ =>
        let pRadioParameters := radioParameters pInstance in
        let errorCode := U_CELL_ERROR_VALUE_OUT_OF_RANGE in
        if negb (rssiDbm pRadioParameters =? 0) &&
           (rssiDbm pRadioParameters =? rsrpDbm pRadioParameters) then
          (U_ERROR_COMMON_SUCCESS, Some INT_MAX)
        else if negb (rssiDbm pRadioParameters =? 0) &&
                negb (rsrpDbm pRadioParameters =? 0) then
          let ten := double_of_int 10 in
          let '(rssi, errno1) :=
            pow ten (double_div (double_of_int (rssiDbm pRadioParameters)) ten) in
          let '(rsrp, errno2) :=
            pow ten (double_div (double_of_int (rsrpDbm pRadioParameters)) ten) in
          if negb (errno1 || errno2) then
            let '(l, errno3) := log10 (double_div rsrp (double_sub rssi rsrp)) in
            let snrDb := double_mul ten l in
            if negb errno3 then
              (U_ERROR_COMMON_SUCCESS, Some (int32_of_double snrDb))
            else (errorCode, pSnrDb)
          else (errorCode, pSnrDb)
        else (errorCode, pSnrDb)
    | _, _ => (U_ERROR_COMMON_INVALID_PARAMETER, pSnrDb)
    end
  else (errorCode, pSnrDb).

(** The loop of [uCellInfoGetImei]:
    [for (size_t x = 10; (x > 0) && (errorCode != 0); x--)]. *)
Fixpoint imeiLoop (x : nat) (errorCode : Z) (pImei : string)
  : M uAtClientHandle_t (Z * string) :=
  match x with
  | O => mret (errorCode, pImei)
  | S x' =>
      if errorCode =? 0 then mret (errorCode, pImei)
      else
        uAtClientLock;;
        uAtClientCommandStart "AT+CGSN";;
        uAtClientCommandStop;;
        uAtClientResponseStart None;;
        r ← uAtClientReadBytes U_CELL_INFO_IMEI_SIZE;
        let bytesRead := bytesReadOf r in
        let pImei := readInto r pImei in
        uAtClientResponseStop;;
        status ← uAtClientUnlock;
        let errorCode :=
          if (status =? 0) && (bytesRead =? U_CELL_INFO_IMEI_SIZE) &&
             uCellPrivateIsNumeric pImei (Z.to_nat U_CELL_INFO_IMEI_SIZE)
          then U_ERROR_COMMON_SUCCESS else errorCode in
        imeiLoop x' errorCode pImei
  end.

(** Get the IMEI of the cellular module.  [pImei] is [None] for a NULL
    pointer and otherwise what the buffer holds; the second result is what
    it holds on return. *)
Definition uCellInfoGetImei (cellHandle : Z) (pImei : option string)
  : M uCellPrivate_t (Z * option string) :=
  fun g =>
  let errorCode := U_ERROR_COMMON_NOT_INITIALISED in
  if gUCellPrivateMutex g then
    match pUCellPrivateGetInstance cellHandle g, pImei with
    | Some pInstance, Some buffer =>
        let '((errorCode, buffer), at') :=
          imeiLoop 10 U_CELL_ERROR_AT buffer (atHandle pInstance) in
        ((errorCode, Some buffer),
         storeInstance cellHandle
           (updateInstance pInstance at' (radioParameters pInstance)) g)
    | _, _ => ((U_ERROR_COMMON_INVALID_PARAMETER, pImei), g)
    end
  else ((errorCode, pImei), g).

(** The value of [timeUtc] when [uCellInfoGetTimeUtc] tests it for the last
    time: the fields on two characters at offsets 0, 3, 6, 9, 12 and 15, each
    closed by a NUL written after it, given to [mktime], then the time zone
    read at offset 18 when there are at least 20 characters. *)
Definition decodeTimeUtc (buffer : list ascii) (bytesRead : Z) : Z :=
  let buffer := <[2%nat := NUL]> buffer in
  let year := atoi (cString buffer 0) + 2000 - 1900 in
  let buffer := <[5%nat := NUL]> buffer in
  let mon := atoi (cString buffer 3) - 1 in
  let buffer := <[8%nat := NUL]> buffer in
  let mday := atoi (cString buffer 6) in
  let buffer := <[11%nat := NUL]> buffer in
  let hour := atoi (cString buffer 9) in
  let buffer := <[14%nat := NUL]> buffer in
  let min := atoi (cString buffer 12) in
  let buffer := <[17%nat := NUL]> buffer in
  let sec := atoi (cString buffer 15) in
  let timeInfo := {| tm_sec := sec; tm_min := min; tm_hour := hour;
                     tm_mday := mday; tm_mon := mon; tm_year := year |} in
  let timeUtc := int32 (mktime timeInfo) in
  if (timeUtc >=? 0) && (bytesRead >=? 20) then
    let buffer := <[20%nat := NUL]> buffer in
    int32 (timeUtc - atoi (cString buffer 18) * 15 * 60)
  else timeUtc.

(** Get the UTC time according to cellular. *)
Definition uCellInfoGetTimeUtc (cellHandle : Z) : M uCellPrivate_t Z :=
  fun g =>
  let errorCodeOrValue := U_ERROR_COMMON_NOT_INITIALISED in
  if gUCellPrivateMutex g then
    match pUCellPrivateGetInstance cellHandle g with
    | Some pInstance =>
        let '((r, errorCodeOrValue), at') :=
          (uAtClientLock;;
           uAtClientCommandStart "AT+CCLK?";;
           uAtClientCommandStop;;
           uAtClientResponseStart (Some "+CCLK:");;
           r ← uAtClientReadString 32;
           uAtClientResponseStop;;
           status ← uAtClientUnlock;
           mret (r, status)) (atHandle pInstance) in
        let bytesRead := bytesReadOf r in
        let errorCodeOrValue :=
          match r with
          | Some s =>
              if (bytesRead >=? 17) && (errorCodeOrValue =? 0) then
                let errorCodeOrValue := U_ERROR_COMMON_UNKNOWN in
                let timeUtc := decodeTimeUtc (stringBuffer 32 s) bytesRead in
                if timeUtc >=? 0 then U_ERROR_COMMON_SUCCESS else errorCodeOrValue
              else U_CELL_ERROR_AT
          | None => U_CELL_ERROR_AT
          end in
        (errorCodeOrValue,
         storeInstance cellHandle
           (updateInstance pInstance at' (radioParameters pInstance)) g)
    | None => (U_ERROR_COMMON_INVALID_PARAMETER, g)
    end
  else (errorCodeOrValue, g).

End Info.

(** ** The identification strings of u_cell_info.c *)

(** The delimiter of the AT client ([u_at_client.h]), which [getString]
    saves, sets to NUL and restores. *)
Class AtClientDelimiter (uAtClientHandle_t : Type) := {
  uAtClientDelimiterGet : M uAtClientHandle_t ascii;
  uAtClientDelimiterSet : ascii -> M uAtClientHandle_t unit
}.

Section InfoStrings.

Context `{ErrorCodes} `{CellPrivate}.
Context {uAtClientHandle_t : Type} `{AtClient uAtClientHandle_t}
        `{AtClientDelimiter uAtClientHandle_t}.

(** Get an ID string from the cellular module.  The second result is the
    string that the AT client read into [pBuffer], if it read one. *)
Definition getString (pCmd : string) (bufferSize : Z)
  : M uAtClientHandle_t (Z * option string) :=
  uAtClientLock;;
  uAtClientCommandStart pCmd;;
  uAtClientCommandStop;;
  delimiter ← uAtClientDelimiterGet;
  uAtClientDelimiterSet NUL;;
  uAtClientResponseStart None;;
  r ← uAtClientReadString bufferSize;
  let bytesRead := bytesReadOf r in
  uAtClientResponseStop;;
  uAtClientDelimiterSet delimiter;;
  errorCodeOrSize ← uAtClientUnlock;
  mret (if (bytesRead >=? 0) && (errorCodeOrSize =? 0) then bytesRead
        else U_CELL_ERROR_AT,
        r).

(** The body shared by [uCellInfoGetManufacturerStr], [uCellInfoGetModelStr]
    and [uCellInfoGetFirmwareVersionStr], which differ by the command.
    [pStr] tells whether the pointer is not NULL. *)
Definition getStringOfInstance (pCmd : string) (cellHandle : Z) (pStr : bool) (size : Z)
  : M (uCellPrivate_t (uAtClientHandle_t := uAtClientHandle_t)) (Z * option string) :=
  fun g =>
  let errorCodeOrSize := U_ERROR_COMMON_NOT_INITIALISED in
  if gUCellPrivateMutex g then
    match pUCellPrivateGetInstance cellHandle g with
    | Some pInstance =>
        if pStr && (size >? 0) then
          let '((errorCodeOrSize, r), at') := getString pCmd size (atHandle pInstance) in
          ((errorCodeOrSize, r),
           storeInstance cellHandle
             (updateInstance pInstance at' (radioParameters pInstance)) g)
        else ((U_ERROR_COMMON_INVALID_PARAMETER, None), g)
    | None => ((U_ERROR_COMMON_INVALID_PARAMETER, None), g)
    end
  else ((errorCodeOrSize, None), g).

(** Get the manufacturer ID string from the cellular module. *)
Definition uCellInfoGetManufacturerStr := getStringOfInstance "AT+CGMI".

(** Get the model identification string from the cellular module. *)
Definition uCellInfoGetModelStr := getStringOfInstance "AT+CGMM".

(** Get the firmware version string from the cellular module. *)
Definition uCellInfoGetFirmwareVersionStr := getStringOfInstance "AT+CGMR".

(** Get the ICCID string of the SIM in the cellular module. *)
Definition uCellInfoGetIccidStr (cellHandle : Z) (pStr : bool) (size : Z)
  : M (uCellPrivate_t (uAtClientHandle_t := uAtClientHandle_t)) (Z * option string) :=
  fun g =>
  let errorCodeOrSize := U_ERROR_COMMON_NOT_INITIALISED in
  if gUCellPrivateMutex g then
    match pUCellPrivateGetInstance cellHandle g with
    | Some pInstance =>
        if pStr && (size >? 0) then
          let '((errorCodeOrSize, r), at') :=
            (uAtClientLock;;
             uAtClientCommandStart "AT+CCID";;
             uAtClientCommandStop;;
             uAtClientResponseStart (Some "+CCID:");;
             r ← uAtClientReadString size;
             uAtClientResponseStop;;
             errorCodeOrSize ← uAtClientUnlock;
             mret (if (bytesReadOf r >=? 0) && (errorCodeOrSize =? 0)
                   then bytesReadOf r else U_CELL_ERROR_AT,
                   r)) (atHandle pInstance) in
          ((errorCodeOrSize, r),
           storeInstance cellHandle
             (updateInstance pInstance at' (radioParameters pInstance)) g)
        else ((U_ERROR_COMMON_INVALID_PARAMETER, None), g)
    | None => ((U_ERROR_COMMON_INVALID_PARAMETER, None), g)
    end
  else ((errorCodeOrSize, None), g).

End InfoStrings.

(** ** The advertising data of the BLE GAP API (ble/src/gen2/u_ble_gap_extmod.c) *)

(** Conversion of an integer to [uint8_t]. *)
Definition uint8 (z : Z) : Z := z mod 2 ^ 8.

Section BleGap.

Context `{ErrorCodes}.

(** The tags of a complete name and of manufacturer data, which [u_ble_gap.h]
    defines. *)
Variables (U_BT_DATA_NAME_COMPLETE U_BT_DATA_MANUFACTURER_DATA : Z).

(** [uBleGapSetAdvData].  [pName] is [None] for a NULL pointer and otherwise
    the characters of the string before its terminator; [pManufData] is
    [None] for a NULL pointer and otherwise the bytes it points to.  The
    second result is the bytes stored from [pAdvData] on, in order: the
    buffer there has [advDataSize] bytes. *)
Definition uBleGapSetAdvData (pName : option (list Z)) (pManufData : option (list Z))
    (manufDataSize : Z) (advDataSize : Z) : Z * list Z :=
  match pName, pManufData with
  | None, None => (U_ERROR_COMMON_INVALID_PARAMETER, [])
  | _, _ =>
      let nameSize :=
        match pName with
        | Some name => uint8 (Z.of_nat (length name) + 2)
        | None => 0
        end in
      let manufDataSize :=
        match pManufData with
        | Some _ => uint8 (manufDataSize + 2)
        | None => 0
        end in
      let totSize := nameSize + manufDataSize in
      if totSize >? advDataSize then (U_ERROR_COMMON_INVALID_PARAMETER, [])
      else
        let name :=
          match pName with
          | Some name =>
              let nameSize := uint8 (nameSize - 1) in
              let stored := nameSize in
              let nameSize := uint8 (nameSize - 1) in
              ([stored; U_BT_DATA_NAME_COMPLETE] ++ take (Z.to_nat nameSize) name)%list
          | None => []
          end in
        let manuf :=
          match pManufData with
          | Some data =>
              let manufDataSize := uint8 (manufDataSize - 1) in
              let stored := manufDataSize in
              let manufDataSize := uint8 (manufDataSize - 1) in
              ([stored; U_BT_DATA_MANUFACTURER_DATA] ++ take (Z.to_nat manufDataSize) data)%list
          | None => []
          end in
        (totSize, (name ++ manuf)%list)
  end.

End BleGap.

(** ** A simulated session

    A module that answers from a script: the instance of the collaborators
    at which the functions are run on concrete inputs. *)

Module Sim.

(** A parameter of a response. *)
Inductive token :=
| TInt (z : Z)
| TStr (s : string).

(** The answer to one command: its parameters in order and what
    [uAtClientUnlock] returns once they were read. *)
Record exchange := {
  tokens : list token;
  status : Z
}.

(** The answers to come and the commands sent so far. *)
Record session := {
  pending : list exchange;
  sent : list string
}.

Definition popToken (s : session) : option token * session :=
  match pending s with
  | e :: rest =>
      match tokens e with
      | t :: ts =>
          (Some t, {| pending := {| tokens := ts; status := status e |} :: rest;
                      sent := sent s |})
      | [] => (None, s)
      end
  | [] => (None, s)
  end.

Definition readInt : M session Z :=
  fun s => match popToken s with
           | (Some (TInt z), s') => (z, s')
           | (_, s') => (-1, s')
           end.

Definition readString (size : Z) : M session (option string) :=
  fun s => match popToken s with
           | (Some (TStr b), s') => (Some b, s')
           | (_, s') => (None, s')
           end.

Definition skipParameters (n : Z) : M session unit :=
  fun s => match pending s with
           | e :: rest =>
               (tt, {| pending := {| tokens := drop (Z.to_nat n) (tokens e);
                                     status := status e |} :: rest;
                       sent := sent s |})
           | [] => (tt, s)
           end.

Definition commandStart (cmd : string) : M session unit :=
  fun s => (tt, {| pending := pending s; sent := sent s ++ [cmd] |}).

Definition unlock : M session Z :=
  fun s => match pending s with
           | e :: rest => (status e, {| pending := rest; sent := sent s |})
           | [] => (-1, s)
           end.

#[global] Instance simAtClient : AtClient session := {|
  uAtClientLock := mret tt;
  uAtClientUnlock := unlock;
  uAtClientCommandStart := commandStart;
  uAtClientCommandStop := mret tt;
  uAtClientResponseStart := fun _ => mret tt;
  uAtClientResponseStop := mret tt;
  uAtClientReadInt := readInt;
  uAtClientReadString := readString;
  uAtClientReadBytes := readString;
  uAtClientSkipParameters := skipParameters
|}.

#[global] Program Instance simErrorCodes : ErrorCodes := {|
  U_ERROR_COMMON_UNKNOWN := -1;
  U_ERROR_COMMON_NOT_INITIALISED := -2;
  U_ERROR_COMMON_INVALID_PARAMETER := -5;
  U_CELL_ERROR_AT := -256;
  U_CELL_ERROR_NOT_REGISTERED := -259;
  U_CELL_ERROR_VALUE_OUT_OF_RANGE := -265
|}.
Solve All Obligations with reflexivity.

Inductive moduleKind := SARA_U201 | SARA_R410M_02B | SARA_R412M_02B | SARA_R5.

Inductive rat := GSM_GPRS_EGPRS | UTRAN | CATM1 | NB1.

#[global] Instance moduleKind_eq_dec : EqDecision moduleKind.
Proof. solve_decision. Defined.

#[global] Instance simCellPrivate : CellPrivate := {|
  uCellModuleType_t := moduleKind;
  U_CELL_MODULE_TYPE_SARA_R5 := SARA_R5;
  U_CELL_PRIVATE_MODULE_IS_SARA_R4 :=
    fun m => match m with SARA_R410M_02B | SARA_R412M_02B => true | _ => false end;
  uCellNetRat_t := rat;
  U_CELL_PRIVATE_RAT_IS_EUTRAN :=
    fun r => match r with CATM1 | NB1 => true | _ => false end;
  cellIdUnknown := -1;
  earfcnUnknown := -1
|}.

(** Decimal notation, sign and fraction, read as a rational. *)
Fixpoint decimal (num : Z) (den : positive) (frac : bool) (l : list ascii) : Q :=
  match l with
  | c :: l' =>
      if isdigit c then
        decimal (num * 10 + (Z.of_nat (nat_of_ascii c) - 48))
                (if frac then den * 10 else den)%positive frac l'
      else if Ascii.eqb c "." && negb frac then decimal num den true l'
      else num # den
  | [] => num # den
  end.

(** The number that a string writes in decimal notation. *)
Definition decimalValue (s : string) : Q :=
  match skipSpace (list_ascii_of_string s) with
  | c :: l' =>
      if Ascii.eqb c "-" then Qopp (decimal 0 1 false l')
      else if Ascii.eqb c "+" then decimal 0 1 false l'
      else decimal 0 1 false (c :: l')
  | [] => 0%Q
  end.

(** The integer nearest to [n / d], the even one of two as near, [n] not
    negative. *)
Definition roundHalfEven (n d : Z) : Z :=
  let below := n / d in
  let twice := 2 * (n mod d) in
  if twice <? d then below
  else if d <? twice then below + 1
  else if Z.even below then below else below + 1.

(** The [float] (IEEE 754 binary32) nearest to a rational: 24 bits of
    significand, exponents down to that of the subnormal numbers, an infinity
    past the largest number. *)
Definition float32Nearest (q : Q) : floatValue :=
  let n := Z.abs (Qnum q) in
  let d := Zpos (Qden q) in
  if n =? 0 then Finite 0
  else
    let e0 := Z.log2 n - Z.log2 d in
    let e :=
      if 0 <=? e0 then (if d * 2 ^ e0 <=? n then e0 else e0 - 1)
      else (if d <=? n * 2 ^ (- e0) then e0 else e0 - 1) in
    let scale := Z.max (e - 23) (-149) in
    let m :=
      if 0 <=? scale then roundHalfEven n (d * 2 ^ scale)
      else roundHalfEven (n * 2 ^ (- scale)) d in
    let signed := if Qnum q <? 0 then - m else m in
    if 0 <=? scale then
      if 2 ^ 128 <=? m * 2 ^ scale then Infinite (Qnum q <? 0)
      else Finite (inject_Z (signed * 2 ^ scale))
    else Finite (Qred (signed # Z.to_pos (2 ^ (- scale)))).

(** [strtof] on decimal notation. *)
Definition simStrtof (s : string) : floatValue := float32Nearest (decimalValue s).

(** The C implementation of the simulated session: a conversion out of range
    stores the least [int32_t], as x86-64 does. *)
#[global] Program Instance simCLibrary : CLibrary := {|
  strtof := simStrtof;
  int32_of_undefined := fun _ => - 2 ^ 31
|}.
Next Obligation. intros; lia. Qed.

(** An instance on a module of the given type, registered or not, with the
    given RAT, whose radio parameters hold [old] and whose module will give
    the answers [script]. *)
Definition instance (m : moduleKind) (registered : bool) (r : rat)
    (old : uCellPrivateRadioParameters_t) (script : list exchange)
  : uCellPrivateInstance_t :=
  {| atHandle := {| pending := script; sent := [] |};
     moduleType := m; netRegistered := registered; netActiveRat := r;
     radioParameters := old |}.

(** The shared state with the mutex created and one instance, of handle 0. *)
Definition world (i : uCellPrivateInstance_t (uAtClientHandle_t := session))
  : uCellPrivate_t :=
  {| gUCellPrivateMutex := true;
     gpUCellPrivateInstanceList := {[ 0 := i ]} |}.

(** Radio parameters left by an earlier refresh. *)
Definition stale : uCellPrivateRadioParameters_t :=
  {| rssiDbm := -80; rsrpDbm := -100; rsrqDb := -10; rxQual := 2;
     cellId := 77; earfcn := 6300 |}.

(** A status of the AT client that is not success. *)
Definition atFailure : Z := -8.

(** Answers to AT+CSQ: one with a reading, one that fails. *)
Definition csqOk : exchange := {| tokens := [TInt 10; TInt 3]; status := 0 |}.
Definition csqFails : exchange := {| tokens := []; status := atFailure |}.

(** Answers to AT+UCGED? on a SARA-R5: the three lines in full, and the
    lines cut after the EARFCN with a failure to follow. *)
Definition ucged2Ok : exchange :=
  {| tokens := [TInt 2;
                TInt 6; TInt 4; TInt 1; TInt 1;
                TInt 2525; TInt 5; TInt 50; TInt 50; TStr "e8fe"; TStr "1a2d001";
                TInt 1; TStr "d60814d1"; TInt 8001; TInt 1; TInt 28; TInt 31];
     status := 0 |}.
Definition ucged2Cut : exchange :=
  {| tokens := [TInt 2; TInt 6; TInt 4; TInt 1; TInt 1; TInt 2525];
     status := atFailure |}.

(** An answer to AT+UCGED? on a SARA-R4. *)
Definition ucged5Ok : exchange :=
  {| tokens := [TInt 5; TInt 2525; TStr "-90.5"; TInt 5; TInt 2525; TStr "-10.49"];
     status := 0 |}.

(** Answers to AT+CGSN: an IMEI, an unsolicited line in its place, and an
    IMEI on which the AT client then reports a failure. *)
Definition imeiOk : exchange :=
  {| tokens := [TStr "490154203237518"]; status := 0 |}.
Definition imeiUrc : exchange :=
  {| tokens := [TStr "+CREG: 1"]; status := 0 |}.
Definition imeiThenFailure : exchange :=
  {| tokens := [TStr "123456789012345"]; status := atFailure |}.

(** Answers to AT+CCLK?. *)
Definition cclk (s : string) : exchange := {| tokens := [TStr s]; status := 0 |}.

(** The shared state before [uCellInit]: no mutex, no instance. *)
Definition uninitialised : uCellPrivate_t (uAtClientHandle_t := session) :=
  {| gUCellPrivateMutex := false; gpUCellPrivateInstanceList := ∅ |}.

(** The delimiter of the simulated session: a comma that stays. *)
#[global] Instance simAtClientDelimiter : AtClientDelimiter session := {|
  uAtClientDelimiterGet := mret ","%char;
  uAtClientDelimiterSet := fun _ => mret tt
|}.

(** A C library without [pow] and [log10]: each call reports an error. *)
#[global] Instance simLibM : LibM := {|
  double := Q;
  double_of_int := inject_Z;
  double_sub := Qminus;
  double_mul := Qmult;
  double_div := Qdiv;
  pow := fun _ _ => (0%Q, true);
  log10 := fun _ => (0%Q, true);
  int32_of_double := Qtruncate
|}.

(** Radio parameters with given RSSI and RSRP. *)
Definition measured (rssi rsrp : Z) : uCellPrivateRadioParameters_t :=
  {| rssiDbm := rssi; rsrpDbm := rsrp; rsrqDb := -10; rxQual := 2;
     cellId := 77; earfcn := 6300 |}.

(** An answer to AT+CGMI, and to AT+CCID. *)
Definition cgmiOk : exchange := {| tokens := [TStr "u-blox"]; status := 0 |}.
Definition ccidOk : exchange :=
  {| tokens := [TStr "8944501104169548380"]; status := 0 |}.

(** The tags of the Bluetooth assigned numbers. *)
Definition nameComplete : Z := 9.
Definition manufacturerData : Z := 255.

(** An answer to AT+UCGED? on a SARA-R4 whose RSRP is written just above
    -90.5. *)
Definition ucged5Close : exchange :=
  {| tokens := [TInt 5; TInt 2525; TStr "-90.49999999";
                TInt 5; TInt 2525; TStr "-10.49"];
     status := 0 |}.

(** An answer to AT+CGMI on which the AT client then reports a failure. *)
Definition cgmiThenFailure : exchange :=
  {| tokens := [TStr "u-blox AG 012345"]; status := atFailure |}.

(** The shared state with the mutex created and two instances, of handles 0
    and 1. *)
Definition world2 (i j : uCellPrivateInstance_t (uAtClientHandle_t := session))
  : uCellPrivate_t :=
  {| gUCellPrivateMutex := true;
     gpUCellPrivateInstanceList := {[ 0 := i; 1 := j ]} |}.





End Sim.

(** ** The vocabulary of the properties *)

(** [n] is the integer nearest to [q], the one away from zero when [q] is
    half way between two integers. *)
Definition roundsHalfAwayFromZero (q : Q) (n : Z) : Prop :=
  (0 <= q -> inject_Z n - (1 # 2) <= q /\ q < inject_Z n + (1 # 2))%Q /\
  (q < 0 -> inject_Z n - (1 # 2) < q /\ q <= inject_Z n + (1 # 2))%Q.

Section Vocabulary.

Context `{ErrorCodes} `{CellPrivate} `{CLibrary} `{LibM}.
Context {uAtClientHandle_t : Type} `{AtClient uAtClientHandle_t}.

(** The radio parameters that the instance of a handle holds. *)
Definition snapshot (cellHandle : Z)
    (g : uCellPrivate_t (uAtClientHandle_t := uAtClientHandle_t))
  : option uCellPrivateRadioParameters_t :=
  radioParameters <$> pUCellPrivateGetInstance cellHandle g.

(** The strings that the AT+UCGED=5 exchange reads for RSRP and for RSRQ:
    the third parameter of the line +RSRP: and of the line +RSRQ:. *)
Definition ucged5Strings : M uAtClientHandle_t (option string * option string) :=
  uAtClientLock;;
  uAtClientCommandStart "AT+UCGED?";;
  uAtClientCommandStop;;
  uAtClientResponseStart (Some "+RSRP:");;
  uAtClientReadInt;;
  uAtClientReadInt;;
  rsrp ← uAtClientReadString 16;
  uAtClientResponseStart (Some "+RSRQ:");;
  uAtClientSkipParameters 2;;
  rsrq ← uAtClientReadString 16;
  mret (rsrp, rsrq).

(** A refresh of [cellHandle] that fails leaves the radio parameters
    cleared. *)
Definition failureLeavesCleared (cellHandle : Z)
    (g : uCellPrivate_t (uAtClientHandle_t := uAtClientHandle_t)) : Prop :=
  let (errorCode, g') := uCellInfoRefreshRadioParameters cellHandle g in
  errorCode <> 0 ->
  forall pInstance, pUCellPrivateGetInstance cellHandle g = Some pInstance ->
  snapshot cellHandle g'
  = Some (uCellPrivateClearRadioParameters (radioParameters pInstance)).

(** A failure of the baseline query of [pInstance] is the result of the
    refresh, and the AT client is left as that query left it. *)
Definition csqFailureShortCircuits (cellHandle : Z)
    (g : uCellPrivate_t (uAtClientHandle_t := uAtClientHandle_t))
    (pInstance : uCellPrivateInstance_t) : Prop :=
  let '((status, _), at') :=
    getRadioParamsCsq (uCellPrivateClearRadioParameters (radioParameters pInstance))
                      (atHandle pInstance) in
  status <> 0 ->
  let (errorCode, g') := uCellInfoRefreshRadioParameters cellHandle g in
  errorCode = status /\
  atHandle <$> pUCellPrivateGetInstance cellHandle g' = Some at'.

(** The four integers that the AT+UCGED=2 exchange reads: the EARFCN, the
    cell ID and the codes of the RSRP and of the RSRQ. *)
Definition ucged2Values : M uAtClientHandle_t (Z * Z * Z * Z) :=
  uAtClientLock;;
  uAtClientCommandStart "AT+UCGED?";;
  uAtClientCommandStop;;
  uAtClientResponseStart (Some "+UCGED:");;
  uAtClientSkipParameters 1;;
  uAtClientResponseStart None;;
  uAtClientSkipParameters 4;;
  uAtClientResponseStart None;;
  earfcnRead ← uAtClientReadInt;
  uAtClientSkipParameters 5;;
  cellIdRead ← uAtClientReadInt;
  uAtClientSkipParameters 3;;
  rsrpRead ← uAtClientReadInt;
  rsrqRead ← uAtClientReadInt;
  mret (earfcnRead, cellIdRead, rsrpRead, rsrqRead).

(** The two integers that the AT+UCGED=5 exchange reads first: the cell ID
    and the EARFCN. *)
Definition ucged5Ids : M uAtClientHandle_t (Z * Z) :=
  uAtClientLock;;
  uAtClientCommandStart "AT+UCGED?";;
  uAtClientCommandStop;;
  uAtClientResponseStart (Some "+RSRP:");;
  cellIdRead ← uAtClientReadInt;
  earfcnRead ← uAtClientReadInt;
  mret (cellIdRead, earfcnRead).

(** What [getRadioParamsUcged5] leaves in a field that held [before] once
    [uAtClientReadString] has given [buffer] for it. *)
Definition rsrxStored (buffer : option string) (before : Z) : Z :=
  match buffer with
  | Some b => if 0 <? bytesReadOf buffer then roundRsrx (strtof b) else before
  | None => before
  end.

(** The AT+UCGED=5 query of a refresh stores, for RSRP and for RSRQ, the
    number that the string writes in decimal notation, rounded half away from
    zero to the nearest integer. *)
Definition storesDecimalRounded (cellHandle : Z)
    (g : uCellPrivate_t (uAtClientHandle_t := uAtClientHandle_t))
    (pInstance : uCellPrivateInstance_t) : Prop :=
  let '((_, _), at') :=
    getRadioParamsCsq (uCellPrivateClearRadioParameters (radioParameters pInstance))
                      (atHandle pInstance) in
  let '((rsrp, rsrq), _) := ucged5Strings at' in
  let (_, g') := uCellInfoRefreshRadioParameters cellHandle g in
  (forall b n, rsrp = Some b -> b <> "" ->
               roundsHalfAwayFromZero (Sim.decimalValue b) n ->
               rsrpDbm <$> snapshot cellHandle g' = Some n) /\
  (forall b n, rsrq = Some b -> b <> "" ->
               roundsHalfAwayFromZero (Sim.decimalValue b) n ->
               rsrqDb <$> snapshot cellHandle g' = Some n).


(** One attempt of the IMEI reader: the AT+CGSN exchange read into the
    buffer.  It gives whether the attempt is accepted (the AT client unlocks
    without error, 15 bytes were read and they are all digits) and what the
    buffer holds after it. *)
Definition imeiAttempt (pImei : string) : M uAtClientHandle_t (bool * string) :=
  uAtClientLock;;
  uAtClientCommandStart "AT+CGSN";;
  uAtClientCommandStop;;
  uAtClientResponseStart None;;
  r ← uAtClientReadBytes U_CELL_INFO_IMEI_SIZE;
  uAtClientResponseStop;;
  status ← uAtClientUnlock;
  mret ((status =? 0) && (bytesReadOf r =? U_CELL_INFO_IMEI_SIZE) &&
        uCellPrivateIsNumeric (readInto r pImei) (Z.to_nat U_CELL_INFO_IMEI_SIZE),
        readInto r pImei).

(** The first attempt of the IMEI reader, judged on the bytes alone: whether
    15 bytes were read and all of them are digits, with what the buffer holds
    and the AT client after it. *)
Definition imeiFirstRead (pImei : string) : M uAtClientHandle_t (bool * string) :=
  uAtClientLock;;
  uAtClientCommandStart "AT+CGSN";;
  uAtClientCommandStop;;
  uAtClientResponseStart None;;
  r ← uAtClientReadBytes U_CELL_INFO_IMEI_SIZE;
  uAtClientResponseStop;;
  uAtClientUnlock;;
  mret ((bytesReadOf r =? U_CELL_INFO_IMEI_SIZE) &&
        uCellPrivateIsNumeric (readInto r pImei) (Z.to_nat U_CELL_INFO_IMEI_SIZE),
        readInto r pImei).

(** The IMEI reader succeeds with its first attempt when that attempt read
    15 bytes that are all digits. *)
Definition firstReadSucceeds (cellHandle : Z)
    (g : uCellPrivate_t (uAtClientHandle_t := uAtClientHandle_t))
    (pInstance : uCellPrivateInstance_t) (pImei : string) : Prop :=
  let '((wellFormed, buffer), at') := imeiFirstRead pImei (atHandle pInstance) in
  wellFormed = true ->
  let '((errorCode, pImei'), g') := uCellInfoGetImei cellHandle (Some pImei) g in
  errorCode = U_ERROR_COMMON_SUCCESS /\
  pImei' = Some buffer /\
  atHandle <$> pUCellPrivateGetInstance cellHandle g' = Some at'.

(** The buffer and the AT client once [k] attempts were made in a row. *)
Fixpoint afterAttempts (k : nat) (pImei : string) (at0 : uAtClientHandle_t)
  : string * uAtClientHandle_t :=
  match k with
  | O => (pImei, at0)
  | S k' =>
      let '(buffer, at1) := afterAttempts k' pImei at0 in
      let '((_, buffer'), at2) := imeiAttempt buffer at1 in
      (buffer', at2)
  end.

(** Whether the attempt that follows [k] attempts is accepted. *)
Definition attemptAccepted (k : nat) (pImei : string) (at0 : uAtClientHandle_t) : bool :=
  let '(buffer, at1) := afterAttempts k pImei at0 in
  fst (fst (imeiAttempt buffer at1)).

End Vocabulary.

Section StringVocabulary.

Context {uAtClientHandle_t : Type} `{AtClient uAtClientHandle_t}
        `{AtClientDelimiter uAtClientHandle_t}.

(** What the exchange of [getString] reads and the status on which the AT
    client unlocks. *)
Definition getStringExchange (pCmd : string) (bufferSize : Z)
  : M uAtClientHandle_t (option string * Z) :=
  uAtClientLock;;
  uAtClientCommandStart pCmd;;
  uAtClientCommandStop;;
  delimiter ← uAtClientDelimiterGet;
  uAtClientDelimiterSet NUL;;
  uAtClientResponseStart None;;
  r ← uAtClientReadString bufferSize;
  uAtClientResponseStop;;
  uAtClientDelimiterSet delimiter;;
  status ← uAtClientUnlock;
  mret (r, status).

(** The same of the AT+CCID exchange. *)
Definition iccidExchange (size : Z) : M uAtClientHandle_t (option string * Z) :=
  uAtClientLock;;
  uAtClientCommandStart "AT+CCID";;
  uAtClientCommandStop;;
  uAtClientResponseStart (Some "+CCID:");;
  r ← uAtClientReadString size;
  uAtClientResponseStop;;
  status ← uAtClientUnlock;
  mret (r, status).

End StringVocabulary.

(** What a string getter returns on a buffer when the exchange read [r] and
    the AT client unlocked on [status]: the length of the string when there
    is one and the status is zero, the error of the AT kind otherwise. *)
Definition stringResult `{ErrorCodes} (r : option string) (status : Z) : Z :=
  match r with
  | Some s => if status =? 0 then Z.of_nat (String.length s) else U_CELL_ERROR_AT
  | None => U_CELL_ERROR_AT
  end.

(** An advertising data structure: its length, which counts the tag, the
    tag, then the payload. *)
Definition adStructure (tag : Z) (payload : list Z) : list Z :=
  ([Z.of_nat (length payload) + 1; tag] ++ payload)%list.

Definition adOptional (tag : Z) (payload : option (list Z)) : list Z :=
  match payload with
  | Some bytes => adStructure tag bytes
  | None => []
  end.

(** The value of a decimal digit. *)
Definition digitValue (c : ascii) : Z := Z.of_nat (nat_of_ascii c) - 48.

(** What a string getter may return with the string [r] in the buffer: the
    length of the string, or one of the three error codes of the API. *)
Definition stringOutcome `{ErrorCodes} (errorCodeOrSize : Z) (r : option string) : Prop :=
  (exists s, r = Some s /\ errorCodeOrSize = Z.of_nat (String.length s)) \/
  (errorCodeOrSize < 0 /\
   (errorCodeOrSize = U_CELL_ERROR_AT \/
    errorCodeOrSize = U_ERROR_COMMON_INVALID_PARAMETER \/
    errorCodeOrSize = U_ERROR_COMMON_NOT_INITIALISED)).

(** ** Properties of the unit decoders *)

(** Case analysis on the integer comparisons of a goal. *)
Ltac zcases :=
  repeat rewrite Z.geb_leb in *;
  repeat match goal with
         | |- context [?a <=? ?b] => destruct (Z.leb_spec a b)
         | |- context [?a <? ?b] => destruct (Z.ltb_spec a b)
         | |- context [?a =? ?b] => destruct (Z.eqb_spec a b)
         end;
  simpl.

(** C5: for every code c in 0..97 the RSRP decoder returns c - 141, a value
    of [-141, -44], with decoder(0) = -141 and decoder(97) = -44; for every
    code outside 0..97 it returns the unknown sentinel 0.  The decoder is a
    total function: it has no failure case. *)
Theorem rsrpToDbm_spec (c : Z) :
  (0 <= c <= 97 -> rsrpToDbm c = c - 141 /\ -141 <= rsrpToDbm c <= -44) /\
  (~ 0 <= c <= 97 -> rsrpToDbm c = 0) /\
  rsrpToDbm 0 = -141 /\ rsrpToDbm 97 = -44.
Proof.
  split; [| split; [| split; reflexivity]]; intros Hc;
    unfold rsrpToDbm; zcases; lia.
Qed.

(** The RSRP decoder at the code 28 and at the code 255. *)
Lemma rsrpToDbm_spec_witness :
  (rsrpToDbm 28 = -113 /\ -141 <= rsrpToDbm 28 <= -44) /\ rsrpToDbm 255 = 0.
Proof.
  split.
  - apply (proj1 (rsrpToDbm_spec 28)). lia.
  - apply (proj1 (proj2 (rsrpToDbm_spec 255))). lia.
Defined.

(** C6: for every code c in 0..34 the RSRQ decoder returns (c - 40) / 2 in
    the integer division of C, clamped below at -19, so every result in the
    domain lies in [-19, -3], with decoder(0) = -19 (the raw -20 clamped) and
    decoder(34) = -3; for every code outside 0..34 it returns the sentinel 0. *)
Theorem rsrqToDb_spec (c : Z) :
  (0 <= c <= 34 ->
   rsrqToDb c = Z.max (-19) (Z.quot (c - 40) 2) /\ -19 <= rsrqToDb c <= -3) /\
  (~ 0 <= c <= 34 -> rsrqToDb c = 0) /\
  Z.quot (0 - 40) 2 = -20 /\ rsrqToDb 0 = -19 /\ rsrqToDb 34 = -3.
Proof.
  split; [| split; [| repeat split; reflexivity]]; intros Hc;
    unfold rsrqToDb; zcases; try lia.
  all: change (34 + 6) with 40 in *; Z.quot_rem_to_equations; lia.
Qed.

(** The RSRQ decoder at the code 31 and at the code 255. *)
Lemma rsrqToDb_spec_witness :
  (rsrqToDb 31 = Z.max (-19) (Z.quot (31 - 40) 2) /\ -19 <= rsrqToDb 31 <= -3) /\
  rsrqToDb 255 = 0.
Proof.
  split.
  - apply (proj1 (rsrqToDb_spec 31)). lia.
  - apply (proj1 (proj2 (rsrqToDb_spec 255))). lia.
Defined.

(** ** Properties of the getters and of the refresh *)

Section Properties.

Context `{ErrorCodes} `{CellPrivate} `{CLibrary} `{LibM}.
Context {uAtClientHandle_t : Type} `{AtClient uAtClientHandle_t}.

Implicit Types (g : uCellPrivate_t (uAtClientHandle_t := uAtClientHandle_t)).
Implicit Types (pInstance : uCellPrivateInstance_t (uAtClientHandle_t := uAtClientHandle_t)).
Implicit Types (p old : uCellPrivateRadioParameters_t).

Lemma lookup_storeInstance cellHandle pInstance g :
  pUCellPrivateGetInstance cellHandle (storeInstance cellHandle pInstance g)
  = Some pInstance.
Proof. unfold pUCellPrivateGetInstance, storeInstance. simpl. apply lookup_insert_eq. Qed.

Lemma storeInstance_twice cellHandle pInstance pInstance' g :
  storeInstance cellHandle pInstance (storeInstance cellHandle pInstance' g)
  = storeInstance cellHandle pInstance g.
Proof. unfold storeInstance. simpl. f_equal. apply insert_insert_eq. Qed.

(** C10: the getters do not report a bad handle or an uninitialised API in
    the same way.  RSSI, RSRP and RSRQ return 0 in both cases, which is also
    the value of an unknown reading; RxQual, the cell ID and the EARFCN return
    the error code NotInitialised when the API is not initialised and
    InvalidParameter when the handle is not known, and neither code is 0. *)
Theorem getters_bad_handle_or_uninitialised (cellHandle : Z) g :
  (gUCellPrivateMutex g = false ->
   uCellInfoGetRssiDbm cellHandle g = 0 /\
   uCellInfoGetRsrpDbm cellHandle g = 0 /\
   uCellInfoGetRsrqDb cellHandle g = 0 /\
   uCellInfoGetRxQual cellHandle g = U_ERROR_COMMON_NOT_INITIALISED /\
   uCellInfoGetCellId cellHandle g = U_ERROR_COMMON_NOT_INITIALISED /\
   uCellInfoGetEarfcn cellHandle g = U_ERROR_COMMON_NOT_INITIALISED) /\
  (gUCellPrivateMutex g = true ->
   pUCellPrivateGetInstance cellHandle g = None ->
   uCellInfoGetRssiDbm cellHandle g = 0 /\
   uCellInfoGetRsrpDbm cellHandle g = 0 /\
   uCellInfoGetRsrqDb cellHandle g = 0 /\
   uCellInfoGetRxQual cellHandle g = U_ERROR_COMMON_INVALID_PARAMETER /\
   uCellInfoGetCellId cellHandle g = U_ERROR_COMMON_INVALID_PARAMETER /\
   uCellInfoGetEarfcn cellHandle g = U_ERROR_COMMON_INVALID_PARAMETER) /\
  (forall p,
   rssiDbm (uCellPrivateClearRadioParameters p) = 0 /\
   rsrpDbm (uCellPrivateClearRadioParameters p) = 0 /\
   rsrqDb (uCellPrivateClearRadioParameters p) = 0) /\
  U_ERROR_COMMON_NOT_INITIALISED <> 0 /\
  U_ERROR_COMMON_INVALID_PARAMETER <> 0.
Proof.
  unfold uCellInfoGetRssiDbm, uCellInfoGetRsrpDbm, uCellInfoGetRsrqDb,
    uCellInfoGetRxQual, uCellInfoGetCellId, uCellInfoGetEarfcn.
  split; [| split; [| split; [| split]]].
  - intros ->. repeat split.
  - intros -> ->. repeat split.
  - intros p. repeat split.
  - pose proof U_ERROR_COMMON_NOT_INITIALISED_neg. lia.
  - pose proof U_ERROR_COMMON_INVALID_PARAMETER_neg. lia.
Qed.

(** C8: for a handle whose instance is not registered on the network, the
    refresh returns NotRegistered, and each getter called after it returns the
    unknown sentinel of its field: the radio parameters were cleared before
    the registration was looked at. *)
Theorem refresh_not_registered (cellHandle : Z) g pInstance :
  gUCellPrivateMutex g = true ->
  pUCellPrivateGetInstance cellHandle g = Some pInstance ->
  uCellPrivateIsRegistered pInstance = false ->
  let (errorCode, g') := uCellInfoRefreshRadioParameters cellHandle g in
  errorCode = U_CELL_ERROR_NOT_REGISTERED /\
  uCellInfoGetRssiDbm cellHandle g' = 0 /\
  uCellInfoGetRsrpDbm cellHandle g' = 0 /\
  uCellInfoGetRsrqDb cellHandle g' = 0 /\
  uCellInfoGetRxQual cellHandle g' = -1 /\
  uCellInfoGetCellId cellHandle g' = cellIdUnknown /\
  uCellInfoGetEarfcn cellHandle g' = earfcnUnknown.
Proof.
  intros Hmutex Hget Hreg.
  unfold uCellInfoRefreshRadioParameters.
  rewrite Hmutex, Hget, Hreg.
  unfold uCellInfoGetRssiDbm, uCellInfoGetRsrpDbm, uCellInfoGetRsrqDb,
    uCellInfoGetRxQual, uCellInfoGetCellId, uCellInfoGetEarfcn.
  rewrite lookup_storeInstance. simpl. rewrite Hmutex. repeat split.
Qed.

Lemma updateInstance_twice pInstance at1 at2 p1 p2 :
  updateInstance (updateInstance pInstance at1 p1) at2 p2
  = updateInstance pInstance at2 p2.
Proof. reflexivity. Qed.

(** The refresh of a registered instance, by the family of its module. *)
Lemma refresh_registered (cellHandle : Z) g pInstance :
  gUCellPrivateMutex g = true ->
  pUCellPrivateGetInstance cellHandle g = Some pInstance ->
  uCellPrivateIsRegistered pInstance = true ->
  uCellInfoRefreshRadioParameters cellHandle g =
  let '((errorCode, p), at') :=
    let '((errorCode, p), at') :=
      getRadioParamsCsq (uCellPrivateClearRadioParameters (radioParameters pInstance))
                        (atHandle pInstance) in
    if bool_decide (moduleType pInstance = U_CELL_MODULE_TYPE_SARA_R5) then
      getRadioParamsUcged2 p at'
    else if U_CELL_PRIVATE_MODULE_IS_SARA_R4 (moduleType pInstance) then
      if U_CELL_PRIVATE_RAT_IS_EUTRAN (uCellPrivateGetActiveRat pInstance) then
        getRadioParamsUcged5 p at'
      else ((U_ERROR_COMMON_SUCCESS, p), at')
    else ((errorCode, p), at') in
  (errorCode, storeInstance cellHandle (updateInstance pInstance at' p) g).
Proof.
  intros Hmutex Hget Hreg.
  unfold uCellInfoRefreshRadioParameters.
  rewrite Hmutex, Hget, Hreg. reflexivity.
Qed.

(** The baseline query writes nothing when it fails. *)
Lemma getRadioParamsCsq_failure p (at0 : uAtClientHandle_t) :
  let '((errorCode, p'), _) := getRadioParamsCsq p at0 in
  errorCode <> 0 -> p' = p.
Proof.
  unfold getRadioParamsCsq, mbind, M_bind, mret, M_ret.
  repeat match goal with
         | |- context [let (_, _) := ?op at0 in _] => destruct (op at0) as [? ?]
         | |- context [let (_, _) := ?op ?a in _] => destruct (op a) as [? ?]
         end.
  intros Hne. destruct (Z.eqb_spec z1 0); [contradiction | reflexivity].
Qed.

(** The baseline query leaves the RSRP, the RSRQ, the cell ID and the EARFCN
    as they are. *)
Lemma getRadioParamsCsq_keeps p (at0 : uAtClientHandle_t) :
  let '((_, p'), _) := getRadioParamsCsq p at0 in
  rsrpDbm p' = rsrpDbm p /\ rsrqDb p' = rsrqDb p /\
  cellId p' = cellId p /\ earfcn p' = earfcn p.
Proof.
  unfold getRadioParamsCsq, mbind, M_bind, mret, M_ret.
  repeat match goal with
         | |- context [let (_, _) := ?op at0 in _] => destruct (op at0) as [? ?]
         | |- context [let (_, _) := ?op ?a in _] => destruct (op a) as [? ?]
         end.
  destruct (z1 =? 0); [| tauto].
  destruct ((z >=? 0) && (z <? Z.of_nat (length gRssiConvertLte))); simpl; tauto.
Qed.

(** The AT+UCGED=2 query stores each value as it reads it, whatever status
    the AT client gives at the end. *)
Lemma getRadioParamsUcged2_stores p (at0 : uAtClientHandle_t) :
  let '((_, p'), _) := getRadioParamsUcged2 p at0 in
  let '((((earfcnRead, cellIdRead), rsrpRead), rsrqRead), _) := ucged2Values at0 in
  p' = {| rssiDbm := rssiDbm p; rsrpDbm := rsrpToDbm rsrpRead;
          rsrqDb := rsrqToDb rsrqRead; rxQual := rxQual p;
          cellId := cellIdRead; earfcn := earfcnRead |}.
Proof.
  unfold getRadioParamsUcged2, ucged2Values, mbind, M_bind, mret, M_ret.
  repeat match goal with
         | |- context [let (_, _) := ?op at0 in _] => destruct (op at0) as [? ?]
         | |- context [let (_, _) := ?op ?a in _] => destruct (op a) as [? ?]
         end.
  reflexivity.
Qed.

(** So does the AT+UCGED=5 query. *)
Lemma getRadioParamsUcged5_stores p (at0 : uAtClientHandle_t) :
  let '((_, p'), _) := getRadioParamsUcged5 p at0 in
  let '((cellIdRead, earfcnRead), _) := ucged5Ids at0 in
  let '((rsrp, rsrq), _) := ucged5Strings at0 in
  p' = {| rssiDbm := rssiDbm p; rsrpDbm := rsrxStored rsrp (rsrpDbm p);
          rsrqDb := rsrxStored rsrq (rsrqDb p); rxQual := rxQual p;
          cellId := cellIdRead; earfcn := earfcnRead |}.
Proof.
  unfold getRadioParamsUcged5, ucged5Ids, ucged5Strings, rsrxStored,
    mbind, M_bind, mret, M_ret.
  repeat match goal with
         | |- context [let (_, _) := ?op at0 in _] => destruct (op at0) as [? ?]
         | |- context [let (_, _) := ?op ?a in _] => destruct (op a) as [? ?]
         end.
  repeat match goal with
         | |- context [match ?o with Some _ => _ | None => _ end] => destruct o
         | |- context [if ?b then _ else _] => destruct b
         end; reflexivity.
Qed.

(** C1, amended: after a refresh of a known handle, no field of the radio
    parameters keeps a value from before the call: the status and the state
    that the refresh leaves are the same whatever the parameters held before.
    The parameters are cleared to the unknown sentinels (0 for RSSI, RSRP and
    RSRQ, -1 for RxQual, the unknown cell ID and EARFCN) when the refresh
    fails because the instance is not registered, and when it fails on a
    module that is neither a SARA-R5 nor a SARA-R4, where the baseline query
    is the only step.  When the AT+UCGED=2 query of a SARA-R5 or the
    AT+UCGED=5 query of a SARA-R4 in EUTRAN runs, its status is the result
    and, whether it fails or not, the parameters are left with the RSSI and
    the RxQual that the baseline query gave and with every value that the
    query read: nothing is cleared again on a failure. *)
Theorem refresh_failure_snapshot (cellHandle : Z) g pInstance old :
  gUCellPrivateMutex g = true ->
  pUCellPrivateGetInstance cellHandle g = Some pInstance ->
  uCellInfoRefreshRadioParameters cellHandle
    (storeInstance cellHandle (updateInstance pInstance (atHandle pInstance) old) g)
  = uCellInfoRefreshRadioParameters cellHandle g /\
  let (errorCode, g') := uCellInfoRefreshRadioParameters cellHandle g in
  (uCellPrivateIsRegistered pInstance = false ->
   errorCode <> 0 /\
   snapshot cellHandle g' = Some (uCellPrivateClearRadioParameters old)) /\
  (moduleType pInstance <> U_CELL_MODULE_TYPE_SARA_R5 ->
   U_CELL_PRIVATE_MODULE_IS_SARA_R4 (moduleType pInstance) = false ->
   errorCode <> 0 ->
   snapshot cellHandle g' = Some (uCellPrivateClearRadioParameters old)) /\
  (uCellPrivateIsRegistered pInstance = true ->
   let '((_, p), at') :=
     getRadioParamsCsq (uCellPrivateClearRadioParameters (radioParameters pInstance))
                       (atHandle pInstance) in
   (moduleType pInstance = U_CELL_MODULE_TYPE_SARA_R5 ->
    let '((((earfcnRead, cellIdRead), rsrpRead), rsrqRead), _) := ucged2Values at' in
    errorCode = fst (fst (getRadioParamsUcged2 p at')) /\
    snapshot cellHandle g'
    = Some {| rssiDbm := rssiDbm p; rsrpDbm := rsrpToDbm rsrpRead;
              rsrqDb := rsrqToDb rsrqRead; rxQual := rxQual p;
              cellId := cellIdRead; earfcn := earfcnRead |}) /\
   (moduleType pInstance <> U_CELL_MODULE_TYPE_SARA_R5 ->
    U_CELL_PRIVATE_MODULE_IS_SARA_R4 (moduleType pInstance) = true ->
    U_CELL_PRIVATE_RAT_IS_EUTRAN (uCellPrivateGetActiveRat pInstance) = true ->
    let '((cellIdRead, earfcnRead), _) := ucged5Ids at' in
    let '((rsrp, rsrq), _) := ucged5Strings at' in
    errorCode = fst (fst (getRadioParamsUcged5 p at')) /\
    snapshot cellHandle g'
    = Some {| rssiDbm := rssiDbm p; rsrpDbm := rsrxStored rsrp 0;
              rsrqDb := rsrxStored rsrq 0; rxQual := rxQual p;
              cellId := cellIdRead; earfcn := earfcnRead |})).
Proof.
  intros Hmutex Hget. split.
  - unfold uCellInfoRefreshRadioParameters. simpl.
    rewrite lookup_storeInstance, Hmutex, Hget. simpl.
    unfold uCellPrivateIsRegistered, uCellPrivateGetActiveRat,
      uCellPrivateClearRadioParameters. simpl.
    destruct (netRegistered pInstance); [| by rewrite storeInstance_twice].
    destruct (getRadioParamsCsq _ _) as [[e p] a].
    repeat match goal with
           | |- context [if ?b then _ else _] => destruct b
           end;
      repeat match goal with
             | |- context [let (_, _) := ?X in _] => destruct X as [[? ?] ?]
             end;
      by rewrite storeInstance_twice.
  - destruct (uCellPrivateIsRegistered pInstance) eqn:Hreg.
    + rewrite (refresh_registered _ _ _ Hmutex Hget Hreg).
      pose proof (getRadioParamsCsq_failure
                    (uCellPrivateClearRadioParameters (radioParameters pInstance))
                    (atHandle pInstance)) as Hcsq.
      pose proof (getRadioParamsCsq_keeps
                    (uCellPrivateClearRadioParameters (radioParameters pInstance))
                    (atHandle pInstance)) as Hkeeps.
      destruct (getRadioParamsCsq _ _) as [[e p] a].
      destruct (decide (moduleType pInstance = U_CELL_MODULE_TYPE_SARA_R5)) as [Hr5 | Hr5].
      { rewrite bool_decide_eq_true_2 by assumption.
        pose proof (getRadioParamsUcged2_stores p a) as Hstores.
        destruct (getRadioParamsUcged2 p a) as [[e2 p2] a2].
        split; [discriminate |]. split; [intros; contradiction |].
        intros _. split; [| intros; contradiction].
        intros _.
        destruct (ucged2Values a) as [[[[earfcnRead cellIdRead] rsrpRead] rsrqRead] a'].
        split; [reflexivity |].
        unfold snapshot. rewrite lookup_storeInstance. simpl. by rewrite Hstores. }
      rewrite bool_decide_eq_false_2 by assumption.
      destruct (U_CELL_PRIVATE_MODULE_IS_SARA_R4 (moduleType pInstance)).
      { destruct (U_CELL_PRIVATE_RAT_IS_EUTRAN _).
        - pose proof (getRadioParamsUcged5_stores p a) as Hstores.
          destruct (getRadioParamsUcged5 p a) as [[e5 p5] a5].
          split; [discriminate |]. split; [intros; discriminate |].
          intros _. split; [intros; contradiction |].
          intros _ _ _.
          destruct (ucged5Ids a) as [[cellIdRead earfcnRead] a'].
          destruct (ucged5Strings a) as [[rsrp rsrq] a''].
          split; [reflexivity |].
          unfold snapshot. rewrite lookup_storeInstance. simpl.
          rewrite Hstores.
          destruct Hkeeps as (-> & -> & _). reflexivity.
        - split; [discriminate |]. split; [intros; discriminate |].
          intros _. split; [intros; contradiction | intros; discriminate]. }
      split; [discriminate |]. split.
      * intros _ _ Hne.
        unfold snapshot. rewrite lookup_storeInstance. simpl.
        rewrite (Hcsq Hne). reflexivity.
      * intros _. split; [intros; contradiction | intros; discriminate].
    + unfold uCellInfoRefreshRadioParameters. rewrite Hmutex, Hget, Hreg.
      unfold snapshot. rewrite lookup_storeInstance. simpl.
      pose proof U_CELL_ERROR_NOT_REGISTERED_neg.
      split; [split; [lia | reflexivity] |].
      split; [intros _ _ _; reflexivity | intros; discriminate].
Qed.

(** C2, amended: when the baseline query (AT+CSQ) fails on a module that is
    neither a SARA-R5 nor a SARA-R4, its status is the result of the refresh
    and the AT client is left as the baseline query left it: no other query
    was made.  On a SARA-R5 the AT+UCGED=2 query is made after the baseline
    query whatever its status, and on a SARA-R4 in EUTRAN the AT+UCGED=5
    query; the status of that query is the result.  On a SARA-R4 out of
    EUTRAN no other query is made and the result is success. *)
Theorem refresh_after_csq_failure (cellHandle : Z) g pInstance :
  gUCellPrivateMutex g = true ->
  pUCellPrivateGetInstance cellHandle g = Some pInstance ->
  uCellPrivateIsRegistered pInstance = true ->
  let '((status, p), at') :=
    getRadioParamsCsq (uCellPrivateClearRadioParameters (radioParameters pInstance))
                      (atHandle pInstance) in
  status <> 0 ->
  let (errorCode, g') := uCellInfoRefreshRadioParameters cellHandle g in
  (moduleType pInstance <> U_CELL_MODULE_TYPE_SARA_R5 ->
   U_CELL_PRIVATE_MODULE_IS_SARA_R4 (moduleType pInstance) = false ->
   errorCode = status /\
   atHandle <$> pUCellPrivateGetInstance cellHandle g' = Some at') /\
  (moduleType pInstance = U_CELL_MODULE_TYPE_SARA_R5 ->
   errorCode = fst (fst (getRadioParamsUcged2 p at')) /\
   atHandle <$> pUCellPrivateGetInstance cellHandle g'
   = Some (snd (getRadioParamsUcged2 p at'))) /\
  (moduleType pInstance <> U_CELL_MODULE_TYPE_SARA_R5 ->
   U_CELL_PRIVATE_MODULE_IS_SARA_R4 (moduleType pInstance) = true ->
   if U_CELL_PRIVATE_RAT_IS_EUTRAN (uCellPrivateGetActiveRat pInstance) then
     errorCode = fst (fst (getRadioParamsUcged5 p at')) /\
     atHandle <$> pUCellPrivateGetInstance cellHandle g'
     = Some (snd (getRadioParamsUcged5 p at'))
   else
     errorCode = U_ERROR_COMMON_SUCCESS /\
     atHandle <$> pUCellPrivateGetInstance cellHandle g' = Some at').
Proof.
  intros Hmutex Hget Hreg.
  rewrite (refresh_registered _ _ _ Hmutex Hget Hreg).
  destruct (getRadioParamsCsq _ _) as [[status p] at'].
  intros Hne.
  destruct (decide (moduleType pInstance = U_CELL_MODULE_TYPE_SARA_R5)) as [Hr5 | Hr5].
  - rewrite bool_decide_eq_true_2 by assumption.
    destruct (getRadioParamsUcged2 p at') as [[e2 p2] a2]. simpl.
    rewrite lookup_storeInstance. simpl.
    split; [| split]; [intros; contradiction | intros; split; reflexivity
                       | intros; contradiction].
  - rewrite bool_decide_eq_false_2 by assumption.
    destruct (U_CELL_PRIVATE_MODULE_IS_SARA_R4 (moduleType pInstance)) eqn:Hr4.
    + destruct (U_CELL_PRIVATE_RAT_IS_EUTRAN (uCellPrivateGetActiveRat pInstance)).
      * destruct (getRadioParamsUcged5 p at') as [[e5 p5] a5]. simpl.
        rewrite lookup_storeInstance. simpl.
        split; [| split]; [intros; discriminate | intros; contradiction
                           | intros; split; reflexivity].
      * rewrite lookup_storeInstance. simpl.
        split; [| split]; [intros; discriminate | intros; contradiction
                           | intros; split; reflexivity].
    + rewrite lookup_storeInstance. simpl.
      split; [| split]; [intros; split; reflexivity | intros; contradiction
                         | intros; discriminate].
Qed.

(** Adding a half and truncating, by the sign, rounds half away from
    zero. *)
Lemma truncate_rounds (q : Q) :
  roundsHalfAwayFromZero q
    (if Qle_bool 0 q then Qtruncate (q + (1 # 2)) else Qtruncate (q - (1 # 2))).
Proof.
  destruct q as [a b]. unfold roundsHalfAwayFromZero.
  destruct (Qle_bool 0 (a # b)) eqn:E.
  - apply Qle_bool_iff in E. split.
    + intros _.
      unfold Qtruncate, Qle, Qlt, Qplus, Qminus, Qopp, inject_Z in *. simpl in *.
      Z.quot_rem_to_equations. nia.
    + intros Hlt. exfalso. apply (Qlt_not_le _ _ Hlt E).
  - assert (Hlt : (a # b < 0)%Q).
    { apply Qnot_le_lt. intros Hle. apply Qle_bool_iff in Hle. congruence. }
    split.
    + intros Hle. exfalso. apply (Qlt_not_le _ _ Hlt Hle).
    + intros _.
      unfold Qtruncate, Qle, Qlt, Qplus, Qminus, Qopp, inject_Z in *. simpl in *.
      Z.quot_rem_to_equations. nia.
Qed.

(** There is one such integer. *)
Lemma roundsHalfAwayFromZero_unique (q : Q) (n m : Z) :
  roundsHalfAwayFromZero q n -> roundsHalfAwayFromZero q m -> n = m.
Proof.
  destruct q as [a b]. unfold roundsHalfAwayFromZero.
  intros [Hn1 Hn2] [Hm1 Hm2].
  destruct (Qlt_le_dec (a # b) 0) as [Hlt | Hle].
  - specialize (Hn2 Hlt). specialize (Hm2 Hlt). clear Hn1 Hm1.
    unfold Qle, Qlt, Qplus, Qminus, Qopp, inject_Z in *. simpl in *. nia.
  - specialize (Hn1 Hle). specialize (Hm1 Hle). clear Hn2 Hm2.
    unfold Qle, Qlt, Qplus, Qminus, Qopp, inject_Z in *. simpl in *. nia.
Qed.

(** The conversion that [getRadioParamsUcged5] applies to a finite value
    gives its rounding half away from zero, when an [int32_t] holds it. *)
Lemma roundRsrx_rounds (q : Q) (n : Z) :
  roundsHalfAwayFromZero q n -> - 2 ^ 31 <= n < 2 ^ 31 ->
  roundRsrx (Finite q) = n.
Proof.
  intros Hround Hrange. unfold roundRsrx.
  rewrite (roundsHalfAwayFromZero_unique q _ n (truncate_rounds q) Hround).
  destruct (Z.leb_spec (- 2 ^ 31) n); [| lia].
  destruct (Z.ltb_spec n (2 ^ 31)); [reflexivity | lia].
Qed.

(** What it gives is an [int32_t] in every case. *)
Lemma roundRsrx_range (v : floatValue) : - 2 ^ 31 <= roundRsrx v < 2 ^ 31.
Proof.
  unfold roundRsrx. destruct v as [q | |]; try apply int32_of_undefined_range.
  cbv zeta.
  destruct (Z.leb_spec (- 2 ^ 31)
              (if Qle_bool 0 q then Qtruncate (q + (1 # 2)) else Qtruncate (q - (1 # 2))));
    [| apply int32_of_undefined_range].
  destruct (Z.ltb_spec
              (if Qle_bool 0 q then Qtruncate (q + (1 # 2)) else Qtruncate (q - (1 # 2)))
              (2 ^ 31));
    [simpl; lia | apply int32_of_undefined_range].
Qed.

(** What the AT+UCGED=5 query stores for RSRP and RSRQ: the rounding of the
    value of the string read, when there is a string, it is not empty, its
    value is finite and an [int32_t] holds the rounding. *)
Lemma getRadioParamsUcged5_rounds p (at0 : uAtClientHandle_t) :
  let '((_, p5), _) := getRadioParamsUcged5 p at0 in
  let '((rsrp, rsrq), _) := ucged5Strings at0 in
  (forall b q n, rsrp = Some b -> b <> "" -> strtof b = Finite q ->
                 roundsHalfAwayFromZero q n -> - 2 ^ 31 <= n < 2 ^ 31 ->
                 rsrpDbm p5 = n) /\
  (forall b q n, rsrq = Some b -> b <> "" -> strtof b = Finite q ->
                 roundsHalfAwayFromZero q n -> - 2 ^ 31 <= n < 2 ^ 31 ->
                 rsrqDb p5 = n).
Proof.
  unfold getRadioParamsUcged5, ucged5Strings, mbind, M_bind, mret, M_ret.
  repeat match goal with
         | |- context [let (_, _) := ?op at0 in _] => destruct (op at0) as [? ?]
         | |- context [let (_, _) := ?op ?a in _] => destruct (op a) as [? ?]
         end.
  assert (Hlen : forall b : string, b <> "" -> (0 <? bytesReadOf (Some b)) = true).
  { intros [| c b] Hb; [contradiction | reflexivity]. }
  split; intros b q n -> Hb Hq Hround Hrange; rewrite (Hlen b Hb), Hq.
  - destruct o0 as [b' |]; [destruct (0 <? bytesReadOf (Some b')) |];
      simpl; apply roundRsrx_rounds; assumption.
  - simpl; apply roundRsrx_rounds; assumption.
Qed.

(** C9, amended: on a module of the SARA-R4 family, which has the AT+UCGED=5
    query only, a refresh outside EUTRAN skips that query and still returns
    success, the radio parameters being what the baseline query gave; in
    EUTRAN the query is made and its status is the result.  The RSRP and the
    RSRQ that it reads as strings are stored as the [float] that [strtof]
    gives for the string, rounded half away from zero to the nearest integer,
    when that [float] is finite and an [int32_t] holds the rounding; the
    [float] of a string need not be the number that the string writes. *)
Theorem refresh_sara_r4 (cellHandle : Z) g pInstance :
  gUCellPrivateMutex g = true ->
  pUCellPrivateGetInstance cellHandle g = Some pInstance ->
  uCellPrivateIsRegistered pInstance = true ->
  moduleType pInstance <> U_CELL_MODULE_TYPE_SARA_R5 ->
  U_CELL_PRIVATE_MODULE_IS_SARA_R4 (moduleType pInstance) = true ->
  let '((_, p), at') :=
    getRadioParamsCsq (uCellPrivateClearRadioParameters (radioParameters pInstance))
                      (atHandle pInstance) in
  let (errorCode, g') := uCellInfoRefreshRadioParameters cellHandle g in
  if U_CELL_PRIVATE_RAT_IS_EUTRAN (uCellPrivateGetActiveRat pInstance) then
    let '((status5, p5), at5) := getRadioParamsUcged5 p at' in
    let '((rsrp, rsrq), _) := ucged5Strings at' in
    errorCode = status5 /\
    pUCellPrivateGetInstance cellHandle g' = Some (updateInstance pInstance at5 p5) /\
    (forall b q n, rsrp = Some b -> b <> "" -> strtof b = Finite q ->
                   roundsHalfAwayFromZero q n -> - 2 ^ 31 <= n < 2 ^ 31 ->
                   rsrpDbm p5 = n) /\
    (forall b q n, rsrq = Some b -> b <> "" -> strtof b = Finite q ->
                   roundsHalfAwayFromZero q n -> - 2 ^ 31 <= n < 2 ^ 31 ->
                   rsrqDb p5 = n)
  else
    errorCode = U_ERROR_COMMON_SUCCESS /\
    pUCellPrivateGetInstance cellHandle g' = Some (updateInstance pInstance at' p).
Proof.
  intros Hmutex Hget Hreg Hr5 Hr4.
  rewrite (refresh_registered _ _ _ Hmutex Hget Hreg).
  destruct (getRadioParamsCsq _ _) as [[status p] at'].
  rewrite bool_decide_eq_false_2, Hr4 by assumption.
  destruct (U_CELL_PRIVATE_RAT_IS_EUTRAN (uCellPrivateGetActiveRat pInstance)).
  - pose proof (getRadioParamsUcged5_rounds p at') as Hround.
    destruct (getRadioParamsUcged5 p at') as [[status5 p5] at5].
    destruct (ucged5Strings at') as [[rsrp rsrq] at''].
    rewrite lookup_storeInstance. tauto.
  - rewrite lookup_storeInstance. split; reflexivity.
Qed.

(** ** Properties of the IMEI reader *)

Lemma imeiLoop_done (x : nat) (pImei : string) (at0 : uAtClientHandle_t) :
  imeiLoop x 0 pImei at0 = ((0, pImei), at0).
Proof. destruct x; reflexivity. Qed.

Lemma imeiLoop_step (x : nat) (errorCode : Z) (pImei : string) (at0 : uAtClientHandle_t) :
  errorCode <> 0 ->
  imeiLoop (S x) errorCode pImei at0 =
  let '((accepted, buffer), at1) := imeiAttempt pImei at0 in
  imeiLoop x (if accepted then U_ERROR_COMMON_SUCCESS else errorCode) buffer at1.
Proof.
  intros Hne. simpl. destruct (Z.eqb_spec errorCode 0) as [| _]; [contradiction |].
  unfold imeiAttempt, mbind, M_bind, mret, M_ret.
  repeat match goal with
         | |- context [let (_, _) := ?op at0 in _] => destruct (op at0) as [? ?]
         | |- context [let (_, _) := ?op ?a in _] => destruct (op a) as [? ?]
         end.
  reflexivity.
Qed.

(** The attempts after the first one are attempts on the state that the
    first one leaves. *)
Lemma afterAttempts_shift (k : nat) (pImei : string) (at0 : uAtClientHandle_t) :
  afterAttempts (S k) pImei at0 =
  let '((_, buffer), at1) := imeiAttempt pImei at0 in
  afterAttempts k buffer at1.
Proof.
  induction k as [| k IH].
  - simpl. destruct (imeiAttempt pImei at0) as [[? ?] ?]. reflexivity.
  - change (afterAttempts (S (S k)) pImei at0)
      with (let '(buffer, at1) := afterAttempts (S k) pImei at0 in
            let '((_, buffer'), at2) := imeiAttempt buffer at1 in
            (buffer', at2)).
    rewrite IH. destruct (imeiAttempt pImei at0) as [[? ?] ?]. reflexivity.
Qed.

Lemma attemptAccepted_shift (k : nat) (pImei : string) (at0 : uAtClientHandle_t) :
  attemptAccepted (S k) pImei at0 =
  let '((_, buffer), at1) := imeiAttempt pImei at0 in
  attemptAccepted k buffer at1.
Proof.
  unfold attemptAccepted. rewrite afterAttempts_shift.
  destruct (imeiAttempt pImei at0) as [[? ?] ?]. reflexivity.
Qed.

(** The loop stops at the first accepted attempt, if one comes in time. *)
Lemma imeiLoop_first_accepted (k x : nat) (errorCode : Z) (pImei : string)
    (at0 : uAtClientHandle_t) :
  errorCode <> 0 ->
  (k < x)%nat ->
  (forall j, (j < k)%nat -> attemptAccepted j pImei at0 = false) ->
  attemptAccepted k pImei at0 = true ->
  imeiLoop x errorCode pImei at0 =
  let '(buffer, at1) := afterAttempts (S k) pImei at0 in
  ((U_ERROR_COMMON_SUCCESS, buffer), at1).
Proof.
  intros Hne. revert x pImei at0.
  induction k as [| k IH]; intros x pImei at0 Hlt Hbefore Hk;
    (destruct x as [| x]; [lia |]);
    rewrite imeiLoop_step by assumption.
  - unfold attemptAccepted in Hk. simpl in *.
    destruct (imeiAttempt pImei at0) as [[accepted buffer] at1]. simpl in Hk.
    subst accepted. apply imeiLoop_done.
  - pose proof (Hbefore O ltac:(lia)) as Hfirst.
    assert (Hrest : forall j, (j < k)%nat -> attemptAccepted (S j) pImei at0 = false)
      by (intros j Hj; apply Hbefore; lia).
    unfold attemptAccepted in Hfirst. simpl in Hfirst.
    rewrite attemptAccepted_shift in Hk.
    rewrite afterAttempts_shift.
    assert (Hrest' : forall j, (j < k)%nat ->
                               let '((_, buffer), at1) := imeiAttempt pImei at0 in
                               attemptAccepted j buffer at1 = false).
    { intros j Hj. pose proof (Hrest j Hj) as E.
      rewrite attemptAccepted_shift in E.
      destruct (imeiAttempt pImei at0) as [[? ?] ?]. exact E. }
    destruct (imeiAttempt pImei at0) as [[accepted buffer] at1]. simpl in Hfirst.
    subst accepted.
    apply IH; [lia | exact Hrest' | exact Hk].
Qed.

(** The loop ends after [x] attempts with the error code it started from
    when none of them is accepted. *)
Lemma imeiLoop_none_accepted (x : nat) (errorCode : Z) (pImei : string)
    (at0 : uAtClientHandle_t) :
  errorCode <> 0 ->
  (forall j, (j < x)%nat -> attemptAccepted j pImei at0 = false) ->
  imeiLoop x errorCode pImei at0 =
  let '(buffer, at1) := afterAttempts x pImei at0 in
  ((errorCode, buffer), at1).
Proof.
  intros Hne. revert pImei at0.
  induction x as [| x IH]; intros pImei at0 Hnone; [reflexivity |].
  rewrite imeiLoop_step by assumption.
  pose proof (Hnone O ltac:(lia)) as Hfirst.
  unfold attemptAccepted in Hfirst. simpl in Hfirst.
  rewrite afterAttempts_shift.
  assert (Hrest : forall j, (j < x)%nat ->
                            let '((_, buffer), at1) := imeiAttempt pImei at0 in
                            attemptAccepted j buffer at1 = false).
  { intros j Hj. pose proof (Hnone (S j) ltac:(lia)) as E.
    rewrite attemptAccepted_shift in E.
    destruct (imeiAttempt pImei at0) as [[? ?] ?]. exact E. }
  destruct (imeiAttempt pImei at0) as [[accepted buffer] at1]. simpl in Hfirst.
  subst accepted. apply IH, Hrest.
Qed.

(** C7, amended: the IMEI reader makes at most 10 attempts.  It succeeds at
    the first attempt for which the AT client unlocks without error, 15 bytes
    were read and all of them are decimal digits, leaving in the buffer what
    that attempt read and making no further attempt; when none of the 10
    attempts is so, it returns the error of the AT kind.  So a response that
    is not accepted followed by a valid one gives success at the second
    attempt. *)
Theorem uCellInfoGetImei_attempts (cellHandle : Z) g pInstance (pImei : string) :
  gUCellPrivateMutex g = true ->
  pUCellPrivateGetInstance cellHandle g = Some pInstance ->
  let '((errorCode, pImei'), g') := uCellInfoGetImei cellHandle (Some pImei) g in
  (forall k, (k < 10)%nat ->
     (forall j, (j < k)%nat -> attemptAccepted j pImei (atHandle pInstance) = false) ->
     attemptAccepted k pImei (atHandle pInstance) = true ->
     let '(buffer, at') := afterAttempts (S k) pImei (atHandle pInstance) in
     errorCode = U_ERROR_COMMON_SUCCESS /\
     pImei' = Some buffer /\
     uCellPrivateIsNumeric buffer (Z.to_nat U_CELL_INFO_IMEI_SIZE) = true /\
     atHandle <$> pUCellPrivateGetInstance cellHandle g' = Some at') /\
  ((forall j, (j < 10)%nat -> attemptAccepted j pImei (atHandle pInstance) = false) ->
     let '(buffer, at') := afterAttempts 10 pImei (atHandle pInstance) in
     errorCode = U_CELL_ERROR_AT /\
     errorCode <> 0 /\
     pImei' = Some buffer /\
     atHandle <$> pUCellPrivateGetInstance cellHandle g' = Some at').
Proof.
  intros Hmutex Hget.
  unfold uCellInfoGetImei. rewrite Hmutex, Hget.
  pose proof U_CELL_ERROR_AT_neg as Hneg.
  assert (Hne : U_CELL_ERROR_AT <> 0) by lia.
  pose proof (fun k => imeiLoop_first_accepted k 10 U_CELL_ERROR_AT pImei
                         (atHandle pInstance) Hne) as Hfirst.
  pose proof (imeiLoop_none_accepted 10 U_CELL_ERROR_AT pImei
                (atHandle pInstance) Hne) as Hnone.
  destruct (imeiLoop 10 U_CELL_ERROR_AT pImei (atHandle pInstance))
    as [[errorCode buffer] at'].
  rewrite lookup_storeInstance. simpl atHandle. split.
  - intros k Hk Hbefore Hacc. specialize (Hfirst k Hk Hbefore Hacc).
    assert (Hnum : let '(b, a) := afterAttempts (S k) pImei (atHandle pInstance) in
                   uCellPrivateIsNumeric b (Z.to_nat U_CELL_INFO_IMEI_SIZE) = true).
    { unfold attemptAccepted in Hacc. simpl.
      destruct (afterAttempts k pImei (atHandle pInstance)) as [b a].
      revert Hacc. unfold imeiAttempt, mbind, M_bind, mret, M_ret.
      repeat match goal with
             | |- context [let (_, _) := ?op a in _] => destruct (op a) as [? ?]
             | |- context [let (_, _) := ?op ?a' in _] => destruct (op a') as [? ?]
             end.
      simpl. intros Hacc. apply andb_prop in Hacc. apply Hacc. }
    destruct (afterAttempts (S k) pImei (atHandle pInstance)) as [b a].
    inversion Hfirst; subst. repeat split; assumption.
  - intros Hall. specialize (Hnone Hall).
    destruct (afterAttempts 10 pImei (atHandle pInstance)) as [b a].
    inversion Hnone; subst. repeat split; assumption.
Qed.

(** ** Properties of the SNR getter and of the UTC-time reader *)

(** The SNR is out of range when the RSSI or the RSRP is unknown. *)
Lemma uCellInfoGetSnrDb_unknown (cellHandle : Z) g pInstance (snrDb : Z) :
  gUCellPrivateMutex g = true ->
  pUCellPrivateGetInstance cellHandle g = Some pInstance ->
  rssiDbm (radioParameters pInstance) = 0 \/ rsrpDbm (radioParameters pInstance) = 0 ->
  uCellInfoGetSnrDb cellHandle (Some snrDb) g
  = (U_CELL_ERROR_VALUE_OUT_OF_RANGE, Some snrDb).
Proof.
  intros Hmutex Hget Hzero. unfold uCellInfoGetSnrDb. rewrite Hmutex, Hget.
  destruct Hzero as [-> | Hrsrp]; [reflexivity |].
  rewrite Hrsrp.
  destruct (Z.eqb_spec (rssiDbm (radioParameters pInstance)) 0) as [| Hne];
    reflexivity.
Qed.

(** The SNR is [INT_MAX] when the RSSI is known and equal to the RSRP. *)
Lemma uCellInfoGetSnrDb_equal (cellHandle : Z) g pInstance (snrDb : Z) :
  gUCellPrivateMutex g = true ->
  pUCellPrivateGetInstance cellHandle g = Some pInstance ->
  rssiDbm (radioParameters pInstance) <> 0 ->
  rssiDbm (radioParameters pInstance) = rsrpDbm (radioParameters pInstance) ->
  uCellInfoGetSnrDb cellHandle (Some snrDb) g = (U_ERROR_COMMON_SUCCESS, Some INT_MAX).
Proof.
  intros Hmutex Hget Hne Heq. unfold uCellInfoGetSnrDb. rewrite Hmutex, Hget.
  rewrite <- Heq, Z.eqb_refl.
  destruct (Z.eqb_spec (rssiDbm (radioParameters pInstance)) 0);
    [contradiction | reflexivity].
Qed.


(** What [uCellInfoGetTimeUtc] returns is never a time: it is zero or an
    error code. *)
Lemma uCellInfoGetTimeUtc_no_time (cellHandle : Z) g :
  fst (uCellInfoGetTimeUtc cellHandle g) <= 0.
Proof.
  unfold uCellInfoGetTimeUtc.
  pose proof U_ERROR_COMMON_NOT_INITIALISED_neg.
  pose proof U_ERROR_COMMON_INVALID_PARAMETER_neg.
  pose proof U_ERROR_COMMON_UNKNOWN_neg.
  pose proof U_CELL_ERROR_AT_neg.
  destruct (gUCellPrivateMutex g); [| simpl; lia].
  destruct (pUCellPrivateGetInstance cellHandle g) as [pInstance |]; [| simpl; lia].
  match goal with
  | |- context [let (_, _) := ?X in _] => destruct X as [[r status] at']
  end.
  simpl. destruct r as [s |]; [| lia].
  destruct ((bytesReadOf (Some s) >=? 17) && (status =? 0)); [| lia].
  destruct (decodeTimeUtc _ _ >=? 0); unfold U_ERROR_COMMON_SUCCESS; lia.
Qed.

End Properties.

(** ** Runs on the simulated session *)

Section Runs.

Import Sim.

(** The getters before the API is initialised, and on a handle that no
    instance has. *)
Lemma getters_bad_handle_or_uninitialised_witness :
  (uCellInfoGetRssiDbm 7 uninitialised = 0 /\
   uCellInfoGetRsrpDbm 7 uninitialised = 0 /\
   uCellInfoGetRsrqDb 7 uninitialised = 0 /\
   uCellInfoGetRxQual 7 uninitialised = U_ERROR_COMMON_NOT_INITIALISED /\
   uCellInfoGetCellId 7 uninitialised = U_ERROR_COMMON_NOT_INITIALISED /\
   uCellInfoGetEarfcn 7 uninitialised = U_ERROR_COMMON_NOT_INITIALISED) /\
  (let g := world (instance SARA_R5 true CATM1 stale []) in
   uCellInfoGetRssiDbm 7 g = 0 /\
   uCellInfoGetRsrpDbm 7 g = 0 /\
   uCellInfoGetRsrqDb 7 g = 0 /\
   uCellInfoGetRxQual 7 g = U_ERROR_COMMON_INVALID_PARAMETER /\
   uCellInfoGetCellId 7 g = U_ERROR_COMMON_INVALID_PARAMETER /\
   uCellInfoGetEarfcn 7 g = U_ERROR_COMMON_INVALID_PARAMETER).
Proof.
  split.
  - apply (proj1 (getters_bad_handle_or_uninitialised 7 uninitialised)).
    reflexivity.
  - apply (proj1 (proj2 (getters_bad_handle_or_uninitialised 7
                           (world (instance SARA_R5 true CATM1 stale []))))).
    + reflexivity.
    + vm_compute. reflexivity.
Defined.

(** A refresh of a SARA-R4 that is not registered, over stale parameters. *)
Lemma refresh_not_registered_witness :
  let (errorCode, g') :=
    uCellInfoRefreshRadioParameters 0
      (world (instance SARA_R412M_02B false CATM1 stale [csqOk; ucged5Ok])) in
  errorCode = U_CELL_ERROR_NOT_REGISTERED /\
  uCellInfoGetRssiDbm 0 g' = 0 /\
  uCellInfoGetRsrpDbm 0 g' = 0 /\
  uCellInfoGetRsrqDb 0 g' = 0 /\
  uCellInfoGetRxQual 0 g' = -1 /\
  uCellInfoGetCellId 0 g' = cellIdUnknown /\
  uCellInfoGetEarfcn 0 g' = earfcnUnknown.
Proof.
  apply (refresh_not_registered 0
           (world (instance SARA_R412M_02B false CATM1 stale [csqOk; ucged5Ok]))
           (instance SARA_R412M_02B false CATM1 stale [csqOk; ucged5Ok]));
    vm_compute; reflexivity.
Defined.

(** C1 as it is stated fails: on a SARA-R5 whose baseline query succeeds and
    whose AT+UCGED=2 answer is cut after the EARFCN, the refresh fails and the
    radio parameters hold the RSSI and the RxQual of the baseline query and
    the EARFCN of the query that failed. *)
Lemma refresh_failure_snapshot_counterexample :
  let g := world (instance SARA_R5 true CATM1 stale [csqOk; ucged2Cut]) in
  ~ failureLeavesCleared 0 g /\
  fst (uCellInfoRefreshRadioParameters 0 g) = atFailure /\
  snapshot 0 (snd (uCellInfoRefreshRadioParameters 0 g))
  = Some {| rssiDbm := -93; rsrpDbm := 0; rsrqDb := 0; rxQual := 3;
            cellId := -1; earfcn := 2525 |}.
Proof.
  split; [| split; vm_compute; reflexivity].
  intros Hclaim. unfold failureLeavesCleared in Hclaim.
  assert (Hrun : uCellInfoRefreshRadioParameters 0
                   (world (instance SARA_R5 true CATM1 stale [csqOk; ucged2Cut]))
                 = (atFailure,
                    world {| atHandle := {| pending := []; sent := ["AT+CSQ"; "AT+UCGED?"] |};
                             moduleType := SARA_R5; netRegistered := true;
                             netActiveRat := CATM1;
                             radioParameters :=
                               {| rssiDbm := -93; rsrpDbm := 0; rsrqDb := 0; rxQual := 3;
                                  cellId := -1; earfcn := 2525 |} |}))
    by (vm_compute; reflexivity).
  rewrite Hrun in Hclaim.
  specialize (Hclaim ltac:(discriminate) _ eq_refl).
  vm_compute in Hclaim. discriminate Hclaim.
Defined.

(** A refresh of a SARA-U201 whose baseline query fails: the parameters are
    cleared, whatever they held.  A refresh of a SARA-R5 whose AT+UCGED=2
    answer is cut after the EARFCN: the RSSI and the RxQual of the baseline
    query and the EARFCN that was read are left. *)
Lemma refresh_failure_snapshot_witness :
  (let g := world (instance SARA_U201 true UTRAN stale [csqFails]) in
   let pInstance := instance SARA_U201 true UTRAN stale [csqFails] in
   uCellInfoRefreshRadioParameters 0
     (storeInstance 0 (updateInstance pInstance (atHandle pInstance)
                         (uCellPrivateClearRadioParameters stale)) g)
   = uCellInfoRefreshRadioParameters 0 g /\
   fst (uCellInfoRefreshRadioParameters 0 g) = atFailure /\
   snapshot 0 (snd (uCellInfoRefreshRadioParameters 0 g))
   = Some (uCellPrivateClearRadioParameters stale)) /\
  (let g := world (instance SARA_R5 true CATM1 stale [csqOk; ucged2Cut]) in
   fst (uCellInfoRefreshRadioParameters 0 g) = atFailure /\
   snapshot 0 (snd (uCellInfoRefreshRadioParameters 0 g))
   = Some {| rssiDbm := -93; rsrpDbm := 0; rsrqDb := 0; rxQual := 3;
             cellId := -1; earfcn := 2525 |}).
Proof.
  split.
  - pose proof (refresh_failure_snapshot 0
                  (world (instance SARA_U201 true UTRAN stale [csqFails]))
                  (instance SARA_U201 true UTRAN stale [csqFails])
                  (uCellPrivateClearRadioParameters stale)
                  eq_refl ltac:(vm_compute; reflexivity)) as [Hfresh Hcleared].
    split; [exact Hfresh |].
    split; [vm_compute; reflexivity |].
    destruct (uCellInfoRefreshRadioParameters 0
                (world (instance SARA_U201 true UTRAN stale [csqFails])))
      as [errorCode g'] eqn:Hrun.
    assert (HerrorCode : errorCode = atFailure)
      by (apply (f_equal fst) in Hrun; vm_compute in Hrun; symmetry; exact Hrun).
    apply (proj1 (proj2 Hcleared)); [discriminate | reflexivity |].
    rewrite HerrorCode. discriminate.
  - pose proof (refresh_failure_snapshot 0
                  (world (instance SARA_R5 true CATM1 stale [csqOk; ucged2Cut]))
                  (instance SARA_R5 true CATM1 stale [csqOk; ucged2Cut])
                  stale
                  eq_refl ltac:(vm_compute; reflexivity)) as [_ Hthm].
    cbv zeta.
    destruct (uCellInfoRefreshRadioParameters 0 _) as [errorCode g'] eqn:Hrun in Hthm.
    rewrite Hrun. simpl fst. simpl snd.
    destruct Hthm as (_ & _ & Hkept). specialize (Hkept eq_refl).
    destruct (getRadioParamsCsq _ _) as [[status p] at'] eqn:Hcsq in Hkept.
    vm_compute in Hcsq. injection Hcsq as <- <- <-.
    destruct Hkept as [Hkept _]. specialize (Hkept eq_refl).
    destruct (ucged2Values _) as [[[[earfcnRead cellIdRead] rsrpRead] rsrqRead] a']
      eqn:Hvalues in Hkept.
    vm_compute in Hvalues. injection Hvalues as <- <- <- <- <-.
    destruct Hkept as [HerrorCode Hsnapshot].
    split; [rewrite HerrorCode; vm_compute; reflexivity | exact Hsnapshot].
Defined.

(** C2 as it is stated fails: on a SARA-R5 whose baseline query fails, the
    AT+UCGED=2 query is made all the same, and the refresh returns the success
    of that query. *)
Lemma refresh_after_csq_failure_counterexample :
  let pInstance := instance SARA_R5 true CATM1 stale [csqFails; ucged2Ok] in
  let g := world pInstance in
  ~ csqFailureShortCircuits 0 g pInstance /\
  fst (fst (getRadioParamsCsq (uCellPrivateClearRadioParameters stale)
                              (atHandle pInstance))) = atFailure /\
  fst (uCellInfoRefreshRadioParameters 0 g) = U_ERROR_COMMON_SUCCESS /\
  sent ∘ atHandle <$> pUCellPrivateGetInstance 0 (snd (uCellInfoRefreshRadioParameters 0 g))
  = Some ["AT+CSQ"; "AT+UCGED?"].
Proof.
  split; [| repeat split; vm_compute; reflexivity].
  intros Hclaim. vm_compute in Hclaim.
  destruct (Hclaim ltac:(discriminate)) as [Hstatus _]. discriminate Hstatus.
Defined.

(** A refresh of a SARA-U201 whose baseline query fails: its status is
    returned and AT+CSQ is the only command sent. *)
Lemma refresh_after_csq_failure_witness :
  let pInstance := instance SARA_U201 true UTRAN stale [csqFails] in
  let g := world pInstance in
  fst (fst (getRadioParamsCsq (uCellPrivateClearRadioParameters stale)
                              (atHandle pInstance))) = atFailure /\
  fst (uCellInfoRefreshRadioParameters 0 g) = atFailure /\
  atHandle <$> pUCellPrivateGetInstance 0 (snd (uCellInfoRefreshRadioParameters 0 g))
  = Some {| pending := []; sent := ["AT+CSQ"] |}.
Proof.
  pose proof (refresh_after_csq_failure 0
                (world (instance SARA_U201 true UTRAN stale [csqFails]))
                (instance SARA_U201 true UTRAN stale [csqFails])
                eq_refl ltac:(vm_compute; reflexivity) eq_refl) as Hthm.
  destruct (getRadioParamsCsq _ _) as [[status p] at'] eqn:Hcsq in Hthm.
  assert (Hstatus : status = atFailure)
    by (apply (f_equal (fun r => fst (fst r))) in Hcsq; vm_compute in Hcsq;
        symmetry; exact Hcsq).
  assert (Hat : at' = {| pending := []; sent := ["AT+CSQ"] |})
    by (apply (f_equal snd) in Hcsq; vm_compute in Hcsq; symmetry; exact Hcsq).
  specialize (Hthm ltac:(rewrite Hstatus; discriminate)).
  destruct (uCellInfoRefreshRadioParameters 0 _) as [errorCode g'] eqn:Hrun in Hthm.
  destruct Hthm as [Hverbatim _].
  destruct (Hverbatim ltac:(discriminate) eq_refl) as [HerrorCode Hclient].
  split; [vm_compute; reflexivity |].
  simpl. rewrite Hrun. simpl. split.
  - rewrite HerrorCode. exact Hstatus.
  - rewrite Hclient, Hat. reflexivity.
Defined.

(** A refresh of a SARA-R412M out of EUTRAN, where AT+UCGED? is not sent, and
    in EUTRAN, where -90.5 and -10.49 are stored as -91 and -10. *)
Lemma refresh_sara_r4_witness :
  (let g := world (instance SARA_R412M_02B true GSM_GPRS_EGPRS stale [csqOk; ucged5Ok]) in
   fst (uCellInfoRefreshRadioParameters 0 g) = U_ERROR_COMMON_SUCCESS /\
   pUCellPrivateGetInstance 0 (snd (uCellInfoRefreshRadioParameters 0 g))
   = Some {| atHandle := {| pending := [ucged5Ok]; sent := ["AT+CSQ"] |};
             moduleType := SARA_R412M_02B; netRegistered := true;
             netActiveRat := GSM_GPRS_EGPRS;
             radioParameters :=
               {| rssiDbm := -93; rsrpDbm := 0; rsrqDb := 0; rxQual := 3;
                  cellId := -1; earfcn := -1 |} |}) /\
  (let g := world (instance SARA_R412M_02B true CATM1 stale [csqOk; ucged5Ok]) in
   fst (uCellInfoRefreshRadioParameters 0 g) = 0 /\
   pUCellPrivateGetInstance 0 (snd (uCellInfoRefreshRadioParameters 0 g))
   = Some {| atHandle := {| pending := []; sent := ["AT+CSQ"; "AT+UCGED?"] |};
             moduleType := SARA_R412M_02B; netRegistered := true;
             netActiveRat := CATM1;
             radioParameters :=
               {| rssiDbm := -93; rsrpDbm := -91; rsrqDb := -10; rxQual := 3;
                  cellId := 5; earfcn := 2525 |} |} /\
   strtof "-90.5" = Finite (-181 # 2) /\
   roundsHalfAwayFromZero (-181 # 2) (-91) /\
   strtof "-10.49" = Finite (-5499781 # 524288) /\
   roundsHalfAwayFromZero (-5499781 # 524288) (-10)).
Proof.
  assert (Hrsrp0 : roundsHalfAwayFromZero (-181 # 2) (-91))
    by exact (truncate_rounds (-181 # 2)).
  assert (Hrsrq0 : roundsHalfAwayFromZero (-5499781 # 524288) (-10))
    by exact (truncate_rounds (-5499781 # 524288)).
  split.
  - pose proof (refresh_sara_r4 0
                  (world (instance SARA_R412M_02B true GSM_GPRS_EGPRS stale [csqOk; ucged5Ok]))
                  (instance SARA_R412M_02B true GSM_GPRS_EGPRS stale [csqOk; ucged5Ok])
                  eq_refl ltac:(vm_compute; reflexivity) eq_refl
                  ltac:(discriminate) eq_refl) as Hthm.
    vm_compute in Hthm. destruct Hthm as [HerrorCode Hinstance].
    split; [exact HerrorCode | exact Hinstance].
  - pose proof (refresh_sara_r4 0
                  (world (instance SARA_R412M_02B true CATM1 stale [csqOk; ucged5Ok]))
                  (instance SARA_R412M_02B true CATM1 stale [csqOk; ucged5Ok])
                  eq_refl ltac:(vm_compute; reflexivity) eq_refl
                  ltac:(discriminate) eq_refl) as Hthm.
    cbv zeta.
    destruct (getRadioParamsCsq _ _) as [[status p] at'] eqn:Hcsq in Hthm.
    vm_compute in Hcsq. injection Hcsq as <- <- <-.
    destruct (uCellInfoRefreshRadioParameters 0 _) as [errorCode g'] eqn:Hrun in Hthm.
    rewrite Hrun. simpl fst. simpl snd.
    change (U_CELL_PRIVATE_RAT_IS_EUTRAN _) with true in Hthm. cbv iota in Hthm.
    destruct (getRadioParamsUcged5 _ _) as [[status5 p5] at5] eqn:H5 in Hthm.
    destruct (ucged5Strings _) as [[rsrp rsrq] at6] eqn:Hstrings in Hthm.
    vm_compute in Hstrings. injection Hstrings as <- <- <-.
    destruct Hthm as (HerrorCode & Hinstance & Hrsrp & Hrsrq).
    specialize (Hrsrp "-90.5" (-181 # 2)%Q (-91) eq_refl ltac:(discriminate)
                  ltac:(vm_compute; reflexivity) Hrsrp0 ltac:(lia)).
    specialize (Hrsrq "-10.49" (-5499781 # 524288)%Q (-10) eq_refl ltac:(discriminate)
                  ltac:(vm_compute; reflexivity) Hrsrq0 ltac:(lia)).
    vm_compute in H5. injection H5 as <- <- <-.
    split; [exact HerrorCode |]. split; [exact Hinstance |].
    split; [vm_compute; reflexivity |]. split; [exact Hrsrp0 |].
    split; [vm_compute; reflexivity | exact Hrsrq0].
Defined.

(** C9 as it is stated fails: -90.49999999 is nearer to -90 than to -91, and
    the refresh stores -91, because the [float] nearest to -90.49999999
    is -90.5. *)
Lemma refresh_sara_r4_counterexample :
  let pInstance := instance SARA_R412M_02B true CATM1 stale [csqOk; ucged5Close] in
  let g := world pInstance in
  ~ storesDecimalRounded 0 g pInstance /\
  roundsHalfAwayFromZero (decimalValue "-90.49999999") (-90) /\
  strtof "-90.49999999" = Finite (-181 # 2) /\
  fst (uCellInfoRefreshRadioParameters 0 g) = U_ERROR_COMMON_SUCCESS /\
  rsrpDbm <$> snapshot 0 (snd (uCellInfoRefreshRadioParameters 0 g)) = Some (-91).
Proof.
  assert (Hround : roundsHalfAwayFromZero (decimalValue "-90.49999999") (-90))
    by exact (truncate_rounds (decimalValue "-90.49999999")).
  split; [| split; [exact Hround | repeat split; vm_compute; reflexivity]].
  intros Hclaim. unfold storesDecimalRounded in Hclaim.
  destruct (getRadioParamsCsq _ _) as [[status p] at'] eqn:Hcsq in Hclaim.
  vm_compute in Hcsq. injection Hcsq as <- <- <-.
  destruct (ucged5Strings _) as [[rsrp rsrq] at6] eqn:Hstrings in Hclaim.
  vm_compute in Hstrings. injection Hstrings as <- <- <-.
  destruct (uCellInfoRefreshRadioParameters 0 _) as [errorCode g'] eqn:Hrun in Hclaim.
  apply (f_equal snd) in Hrun. simpl in Hrun. subst g'.
  destruct Hclaim as [Hrsrp _].
  specialize (Hrsrp "-90.49999999" (-90) eq_refl ltac:(discriminate) Hround).
  vm_compute in Hrsrp. discriminate Hrsrp.
Defined.



(** C7 as it is stated fails: when the first attempt reads 15 digits and the
    AT client then reports a failure, the reader does not succeed with that
    attempt; it makes a second one and reports what that one read.  When each
    of the 10 attempts is so, the reader fails with the error of the AT
    kind. *)
Lemma uCellInfoGetImei_attempts_counterexample :
  let pInstance := instance SARA_R5 true CATM1 stale [imeiThenFailure; imeiOk] in
  let g := world pInstance in
  ~ firstReadSucceeds 0 g pInstance "" /\
  fst (imeiFirstRead "" (atHandle pInstance)) = (true, "123456789012345") /\
  fst (uCellInfoGetImei 0 (Some "") g) = (U_ERROR_COMMON_SUCCESS, Some "490154203237518") /\
  sent ∘ atHandle <$> pUCellPrivateGetInstance 0 (snd (uCellInfoGetImei 0 (Some "") g))
  = Some ["AT+CGSN"; "AT+CGSN"] /\
  fst (uCellInfoGetImei 0 (Some "")
         (world (instance SARA_R5 true CATM1 stale (replicate 10 imeiThenFailure))))
  = (U_CELL_ERROR_AT, Some "123456789012345").
Proof.
  split; [| repeat split; vm_compute; reflexivity].
  intros Hclaim. vm_compute in Hclaim.
  destruct (Hclaim eq_refl) as (_ & Hbuffer & _). discriminate Hbuffer.
Defined.

(** The IMEI reader on an unsolicited line followed by an IMEI, and on ten
    unsolicited lines. *)
Lemma uCellInfoGetImei_attempts_witness :
  (let g := world (instance SARA_R5 true CATM1 stale [imeiUrc; imeiOk]) in
   fst (uCellInfoGetImei 0 (Some "") g) = (U_ERROR_COMMON_SUCCESS, Some "490154203237518") /\
   atHandle <$> pUCellPrivateGetInstance 0 (snd (uCellInfoGetImei 0 (Some "") g))
   = Some {| pending := []; sent := ["AT+CGSN"; "AT+CGSN"] |}) /\
  (let g := world (instance SARA_R5 true CATM1 stale (replicate 10 imeiUrc)) in
   fst (uCellInfoGetImei 0 (Some "") g) = (U_CELL_ERROR_AT, Some "+CREG: 1") /\
   atHandle <$> pUCellPrivateGetInstance 0 (snd (uCellInfoGetImei 0 (Some "") g))
   = Some {| pending := []; sent := replicate 10 "AT+CGSN" |}).
Proof.
  split.
  - pose proof (uCellInfoGetImei_attempts 0
                  (world (instance SARA_R5 true CATM1 stale [imeiUrc; imeiOk]))
                  (instance SARA_R5 true CATM1 stale [imeiUrc; imeiOk]) ""
                  eq_refl ltac:(vm_compute; reflexivity)) as Hthm.
    cbv zeta.
    destruct (uCellInfoGetImei 0 _ _) as [[errorCode pImei'] g'] in Hthm |- *.
    destruct Hthm as [Hfirst _].
    assert (Hbefore : forall j, (j < 1)%nat ->
              attemptAccepted j "" (atHandle (instance SARA_R5 true CATM1 stale
                                                [imeiUrc; imeiOk])) = false).
    { intros j Hj. destruct j as [| j]; [vm_compute; reflexivity | lia]. }
    specialize (Hfirst 1%nat ltac:(lia) Hbefore ltac:(vm_compute; reflexivity)).
    destruct (afterAttempts 2 _ _) as [buffer at'] eqn:Hafter in Hfirst.
    vm_compute in Hafter. injection Hafter as <- <-.
    destruct Hfirst as (-> & -> & _ & Hclient).
    split; [reflexivity | exact Hclient].
  - pose proof (uCellInfoGetImei_attempts 0
                  (world (instance SARA_R5 true CATM1 stale (replicate 10 imeiUrc)))
                  (instance SARA_R5 true CATM1 stale (replicate 10 imeiUrc)) ""
                  eq_refl ltac:(vm_compute; reflexivity)) as Hthm.
    cbv zeta.
    destruct (uCellInfoGetImei 0 _ _) as [[errorCode pImei'] g'] in Hthm |- *.
    destruct Hthm as [_ Hnone].
    assert (Hall : forall j, (j < 10)%nat ->
              attemptAccepted j "" (atHandle (instance SARA_R5 true CATM1 stale
                                                (replicate 10 imeiUrc))) = false).
    { intros j Hj.
      do 10 (destruct j as [| j]; [vm_compute; reflexivity |]). lia. }
    specialize (Hnone Hall).
    destruct (afterAttempts 10 _ _) as [buffer at'] eqn:Hafter in Hnone.
    vm_compute in Hafter. injection Hafter as <- <-.
    destruct Hnone as (-> & _ & -> & Hclient).
    split; [reflexivity | exact Hclient].
Defined.

(** C4 on the example of the specification: the time computed for
    21/08/05,12:30:00+04 is that of 2021-08-05T12:30:00Z less 3600 seconds,
    and [uCellInfoGetTimeUtc] returns zero, the code of success, in its
    place.  The sign before the time zone, at offset 17, is not read: a zone
    of -04 gives the same time as +04. *)
Theorem uCellInfoGetTimeUtc_example :
  let g := world (instance SARA_R5 true CATM1 stale [cclk "21/08/05,12:30:00+04"]) in
  mktime {| tm_sec := 0; tm_min := 30; tm_hour := 12;
            tm_mday := 5; tm_mon := 7; tm_year := 121 |} = 1628166600 /\
  decodeTimeUtc (stringBuffer 32 "21/08/05,12:30:00") 17 = 1628166600 /\
  decodeTimeUtc (stringBuffer 32 "21/08/05,12:30:00+04") 20 = 1628166600 - 3600 /\
  decodeTimeUtc (stringBuffer 32 "21/08/05,12:30:00-04") 20 = 1628166600 - 3600 /\
  fst (uCellInfoGetTimeUtc 0 g) = U_ERROR_COMMON_SUCCESS /\
  fst (uCellInfoGetTimeUtc 0 g) <> 1628166600 - 3600 /\
  fst (uCellInfoGetTimeUtc 0
         (world (instance SARA_R5 true CATM1 stale [cclk "21/08/05,12:30:00-04"])))
  = U_ERROR_COMMON_SUCCESS.
Proof.
  cbv zeta.
  repeat split; try (vm_compute; reflexivity).
  pose proof (uCellInfoGetTimeUtc_no_time 0
                (world (instance SARA_R5 true CATM1 stale
                          [cclk "21/08/05,12:30:00+04"]))) as Hle.
  intros Heq. rewrite Heq in Hle. vm_compute in Hle. apply Hle. reflexivity.
Qed.

End Runs.

(** ** Further properties of the decoders and of the query strategies *)

(** The sentinel 0 of the decoders stands for no reading only: a code of the
    domain never decodes to 0. *)
Theorem decoders_sentinel_unambiguous (c : Z) :
  (rsrpToDbm c = 0 <-> ~ 0 <= c <= 97) /\
  (rsrqToDb c = 0 <-> ~ 0 <= c <= 34).
Proof.
  unfold rsrpToDbm, rsrqToDb. split; split; intros Hc.
  - revert Hc. zcases; lia.
  - zcases; lia.
  - revert Hc. zcases; try lia;
      change (34 + 6) with 40 in *; intros; Z.quot_rem_to_equations; lia.
  - zcases; lia.
Qed.

(** The decoders at the codes 50 and 120 (RSRP) and 20 and 35 (RSRQ). *)
Lemma decoders_sentinel_unambiguous_witness :
  rsrpToDbm 50 <> 0 /\ rsrpToDbm 120 = 0 /\ rsrqToDb 20 <> 0 /\ rsrqToDb 35 = 0.
Proof.
  split; [| split; [| split]].
  - intros Hzero. apply (proj1 (proj1 (decoders_sentinel_unambiguous 50)) Hzero). lia.
  - apply (proj2 (proj1 (decoders_sentinel_unambiguous 120))). lia.
  - intros Hzero. apply (proj1 (proj2 (decoders_sentinel_unambiguous 20)) Hzero). lia.
  - apply (proj2 (proj2 (decoders_sentinel_unambiguous 35))). lia.
Defined.

(** The decoders keep the order of the codes of their domain: a larger RSRP
    code is a larger power, strictly, and a larger RSRQ code is a quality at
    least as large, two codes being at most one dB apart. *)
Theorem decoders_monotone (c c' : Z) :
  (0 <= c -> c < c' -> c' <= 97 -> rsrpToDbm c < rsrpToDbm c') /\
  (0 <= c -> c <= c' -> c' <= 34 -> rsrqToDb c <= rsrqToDb c') /\
  (0 <= c -> c' = c + 1 -> c' <= 34 -> rsrqToDb c' - rsrqToDb c <= 1).
Proof.
  unfold rsrpToDbm, rsrqToDb.
  split; [| split]; intros H0 Hlt Hmax; zcases; try lia;
    change (34 + 6) with 40 in *; Z.quot_rem_to_equations; lia.
Qed.

(** The decoders on the codes 10 and 11. *)
Lemma decoders_monotone_witness :
  rsrpToDbm 10 < rsrpToDbm 11 /\ rsrqToDb 10 <= rsrqToDb 11 /\
  rsrqToDb 11 - rsrqToDb 10 <= 1.
Proof.
  pose proof (decoders_monotone 10 11) as (Hrsrp & Hrsrq & Hstep).
  split; [apply Hrsrp; lia | split; [apply Hrsrq; lia | apply Hstep; lia]].
Defined.

(** The table of AT+CSQ is increasing and stays between -118 and -48 dBm:
    a larger index is a stronger signal. *)
Theorem gRssiConvertLte_increasing (i j : nat) :
  (i < j)%nat -> (j < length gRssiConvertLte)%nat ->
  nth i gRssiConvertLte 0 < nth j gRssiConvertLte 0 /\
  -118 <= nth i gRssiConvertLte 0 /\ nth j gRssiConvertLte 0 <= -48.
Proof.
  intros Hij Hj.
  assert (Hall : forallb (fun i => forallb (fun j =>
                   implb (Nat.ltb i j)
                         ((nth i gRssiConvertLte 0 <? nth j gRssiConvertLte 0)
                          && (-118 <=? nth i gRssiConvertLte 0)
                          && (nth j gRssiConvertLte 0 <=? -48)))
                   (seq 0 32)) (seq 0 32) = true) by (vm_compute; reflexivity).
  change (length gRssiConvertLte) with 32%nat in Hj.
  rewrite forallb_forall in Hall.
  specialize (Hall i ltac:(apply in_seq; lia)).
  rewrite forallb_forall in Hall.
  specialize (Hall j ltac:(apply in_seq; lia)).
  apply Nat.ltb_lt in Hij. rewrite Hij in Hall. cbn [implb] in Hall.
  apply andb_prop in Hall as [Hall Hmax]. apply andb_prop in Hall as [Hlt Hmin].
  apply Z.ltb_lt in Hlt. apply Z.leb_le in Hmin, Hmax. lia.
Qed.

(** The table at the indices 3 and 20. *)
Lemma gRssiConvertLte_increasing_witness :
  nth 3 gRssiConvertLte 0 < nth 20 gRssiConvertLte 0 /\
  -118 <= nth 3 gRssiConvertLte 0 /\ nth 20 gRssiConvertLte 0 <= -48.
Proof. apply (gRssiConvertLte_increasing 3 20); simpl; lia. Defined.

(** The ranges of the decoders, in and out of their domain. *)
Lemma rsrpToDbm_range (c : Z) :
  (0 <= c <= 97 -> -141 <= rsrpToDbm c <= -44) /\ (~ 0 <= c <= 97 -> rsrpToDbm c = 0).
Proof. unfold rsrpToDbm. split; intros Hc; zcases; lia. Qed.

Lemma rsrqToDb_range (c : Z) :
  (0 <= c <= 34 -> -19 <= rsrqToDb c <= -3) /\ (~ 0 <= c <= 34 -> rsrqToDb c = 0).
Proof.
  unfold rsrqToDb. split; intros Hc; zcases; try lia;
    change (34 + 6) with 40 in *; Z.quot_rem_to_equations; lia.
Qed.

Section StrategyProperties.

Context `{ErrorCodes} `{CellPrivate} `{CLibrary} `{LibM}.
Context {uAtClientHandle_t : Type} `{AtClient uAtClientHandle_t}.

Implicit Types (g : uCellPrivate_t (uAtClientHandle_t := uAtClientHandle_t)).
Implicit Types (pInstance : uCellPrivateInstance_t (uAtClientHandle_t := uAtClientHandle_t)).
Implicit Types (p : uCellPrivateRadioParameters_t).

(** Every step of a strategy on the AT client, taken apart. *)
Ltac at_steps at0 :=
  unfold mbind, M_bind, mret, M_ret;
  repeat match goal with
         | |- context [let (_, _) := ?op at0 in _] => destruct (op at0) as [? ?]
         | |- context [let (_, _) := ?op ?a in _] => destruct (op a) as [? ?]
         end.

(** An entry of the table of AT+CSQ lies between -118 and -48. *)
Lemma gRssiConvertLte_bounds (x : Z) :
  0 <= x < Z.of_nat (length gRssiConvertLte) ->
  -118 <= nth (Z.to_nat x) gRssiConvertLte 0 <= -48.
Proof.
  intros Hx.
  assert (Hall : Forall (fun v => -118 <= v <= -48) gRssiConvertLte)
    by (repeat constructor; lia).
  rewrite Forall_forall in Hall. apply Hall.
  apply list_elem_of_In, nth_In. lia.
Qed.

(** What the AT+CSQ strategy may change. *)
Lemma getRadioParamsCsq_effect p (at0 : uAtClientHandle_t) :
  let '((_, p'), _) := getRadioParamsCsq p at0 in
  rsrpDbm p' = rsrpDbm p /\ rsrqDb p' = rsrqDb p /\
  cellId p' = cellId p /\ earfcn p' = earfcn p /\
  (rssiDbm p' = rssiDbm p \/ -118 <= rssiDbm p' <= -48) /\
  (rxQual p' = rxQual p \/ rxQual p' <> 99).
Proof.
  unfold getRadioParamsCsq. at_steps at0.
  destruct (z1 =? 0); [| tauto].
  destruct (Z.geb_spec z 0 ); destruct (Z.ltb_spec z (Z.of_nat (length gRssiConvertLte)));
    simpl; repeat split; try tauto.
  - right. apply gRssiConvertLte_bounds. lia.
  - right. destruct (Z.eqb_spec z0 99); lia.
  - right. destruct (Z.eqb_spec z0 99); lia.
  - right. destruct (Z.eqb_spec z0 99); lia.
  - right. destruct (Z.eqb_spec z0 99); lia.
Qed.

(** What the AT+UCGED=2 strategy may change. *)
Lemma getRadioParamsUcged2_effect p (at0 : uAtClientHandle_t) :
  let '((_, p'), _) := getRadioParamsUcged2 p at0 in
  rssiDbm p' = rssiDbm p /\ rxQual p' = rxQual p /\
  (rsrpDbm p' = 0 \/ -141 <= rsrpDbm p' <= -44) /\
  (rsrqDb p' = 0 \/ -19 <= rsrqDb p' <= -3).
Proof.
  unfold getRadioParamsUcged2. at_steps at0. simpl.
  repeat split.
  - destruct (decide (0 <= z1 <= 97)) as [Hin | Hout].
    + right. apply (proj1 (rsrpToDbm_range z1) Hin).
    + left. apply (proj2 (rsrpToDbm_range z1) Hout).
  - destruct (decide (0 <= z2 <= 34)) as [Hin | Hout].
    + right. apply (proj1 (rsrqToDb_range z2) Hin).
    + left. apply (proj2 (rsrqToDb_range z2) Hout).
Qed.

(** What the AT+UCGED=5 strategy may change. *)
Lemma getRadioParamsUcged5_effect p (at0 : uAtClientHandle_t) :
  let '((_, p'), _) := getRadioParamsUcged5 p at0 in
  rssiDbm p' = rssiDbm p /\ rxQual p' = rxQual p.
Proof.
  unfold getRadioParamsUcged5. at_steps at0.
  repeat match goal with
         | |- context [match ?o with Some _ => _ | None => _ end] => destruct o
         | |- context [if ?b then _ else _] => destruct b
         end; split; reflexivity.
Qed.


(** The AT+UCGED=2 strategy leaves the RSSI and the RxQual as they are, and
    the RSRP and RSRQ it stores are 0 or in the ranges of TS 36.133,
    [-141, -44] dBm and [-19, -3] dB, whatever the module answered and
    whether or not the query failed. *)
Theorem getRadioParamsUcged2_writes p (at0 : uAtClientHandle_t) :
  let '((_, p'), _) := getRadioParamsUcged2 p at0 in
  rssiDbm p' = rssiDbm p /\ rxQual p' = rxQual p /\
  (rsrpDbm p' = 0 \/ -141 <= rsrpDbm p' <= -44) /\
  (rsrqDb p' = 0 \/ -19 <= rsrqDb p' <= -3).
Proof.
  unfold getRadioParamsUcged2. at_steps at0. simpl.
  repeat split.
  - destruct (decide (0 <= z1 <= 97)) as [Hin | Hout].
    + right. apply (proj1 (rsrpToDbm_range z1) Hin).
    + left. apply (proj2 (rsrpToDbm_range z1) Hout).
  - destruct (decide (0 <= z2 <= 34)) as [Hin | Hout].
    + right. apply (proj1 (rsrqToDb_range z2) Hin).
    + left. apply (proj2 (rsrqToDb_range z2) Hout).
Qed.

(** The AT+UCGED=5 strategy leaves the RSSI and the RxQual as they are,
    whatever the module answered. *)
Theorem getRadioParamsUcged5_writes p (at0 : uAtClientHandle_t) :
  let '((_, p'), _) := getRadioParamsUcged5 p at0 in
  rssiDbm p' = rssiDbm p /\ rxQual p' = rxQual p.
Proof.
  unfold getRadioParamsUcged5. at_steps at0.
  repeat match goal with
         | |- context [match ?o with Some _ => _ | None => _ end] => destruct o
         | |- context [if ?b then _ else _] => destruct b
         end; split; reflexivity.
Qed.

End StrategyProperties.

(** ** Further properties of the public functions *)

Section PublicProperties.

Context `{ErrorCodes} `{CellPrivate} `{CLibrary} `{LibM}.
Context {uAtClientHandle_t : Type} `{AtClient uAtClientHandle_t}.

Implicit Types (g : uCellPrivate_t (uAtClientHandle_t := uAtClientHandle_t)).
Implicit Types (pInstance : uCellPrivateInstance_t (uAtClientHandle_t := uAtClientHandle_t)).
Implicit Types (p : uCellPrivateRadioParameters_t).

Lemma lookup_storeInstance_other (cellHandle other : Z) pInstance g :
  other <> cellHandle ->
  pUCellPrivateGetInstance other (storeInstance cellHandle pInstance g)
  = pUCellPrivateGetInstance other g.
Proof.
  intros Hne. unfold pUCellPrivateGetInstance, storeInstance. simpl.
  apply lookup_insert_ne. congruence.
Qed.

(** Storing an instance with the radio parameters it had changes the radio
    parameters of no handle. *)
Lemma snapshot_storeInstance (cellHandle other : Z) pInstance
    (at' : uAtClientHandle_t) g :
  pUCellPrivateGetInstance cellHandle g = Some pInstance ->
  snapshot other
    (storeInstance cellHandle
       (updateInstance pInstance at' (radioParameters pInstance)) g)
  = snapshot other g.
Proof.
  intros Hget. unfold snapshot.
  destruct (decide (other = cellHandle)) as [-> | Hne].
  - rewrite lookup_storeInstance, Hget. reflexivity.
  - rewrite lookup_storeInstance_other by assumption. reflexivity.
Qed.

(** The radio parameters that the strategies of a refresh leave, whatever
    the module and its answers. *)
Lemma refresh_snapshot_ranges (cellHandle : Z) g pInstance :
  gUCellPrivateMutex g = true ->
  pUCellPrivateGetInstance cellHandle g = Some pInstance ->
  exists pInstance',
    pUCellPrivateGetInstance cellHandle (snd (uCellInfoRefreshRadioParameters cellHandle g))
    = Some pInstance' /\
    moduleType pInstance' = moduleType pInstance /\
    (rssiDbm (radioParameters pInstance') = 0 \/
     -118 <= rssiDbm (radioParameters pInstance') <= -48) /\
    rxQual (radioParameters pInstance') <> 99 /\
    (U_CELL_PRIVATE_MODULE_IS_SARA_R4 (moduleType pInstance) = false \/
     moduleType pInstance = U_CELL_MODULE_TYPE_SARA_R5 ->
     (rsrpDbm (radioParameters pInstance') = 0 \/
      -141 <= rsrpDbm (radioParameters pInstance') <= -44) /\
     (rsrqDb (radioParameters pInstance') = 0 \/
      -19 <= rsrqDb (radioParameters pInstance') <= -3)) /\
    (U_CELL_PRIVATE_MODULE_IS_SARA_R4 (moduleType pInstance) = false ->
     moduleType pInstance <> U_CELL_MODULE_TYPE_SARA_R5 ->
     rsrpDbm (radioParameters pInstance') = 0 /\
     rsrqDb (radioParameters pInstance') = 0 /\
     cellId (radioParameters pInstance') = cellIdUnknown /\
     earfcn (radioParameters pInstance') = earfcnUnknown).
Proof.
  intros Hmutex Hget.
  destruct (uCellPrivateIsRegistered pInstance) eqn:Hreg.
  - rewrite (refresh_registered _ _ _ Hmutex Hget Hreg).
    pose proof (getRadioParamsCsq_effect
                  (uCellPrivateClearRadioParameters (radioParameters pInstance))
                  (atHandle pInstance)) as Hcsq.
    destruct (getRadioParamsCsq _ _) as [[e p] a].
    simpl in Hcsq. destruct Hcsq as (Hrsrp & Hrsrq & Hcell & Hearfcn & Hrssi & Hqual).
    assert (Hqual' : rxQual p <> 99) by (destruct Hqual as [-> | ?]; [lia | assumption]).
    assert (Hrssi' : rssiDbm p = 0 \/ -118 <= rssiDbm p <= -48) by tauto.
    destruct (decide (moduleType pInstance = U_CELL_MODULE_TYPE_SARA_R5)) as [Hr5 | Hr5].
    + rewrite bool_decide_eq_true_2 by assumption.
      pose proof (getRadioParamsUcged2_effect p a) as Hucged2.
      destruct (getRadioParamsUcged2 p a) as [[e2 p2] a2].
      destruct Hucged2 as (Hrssi2 & Hqual2 & Hrsrp2 & Hrsrq2).
      eexists. simpl. rewrite lookup_storeInstance. split; [reflexivity |].
      simpl. rewrite Hrssi2, Hqual2. intuition congruence.
    + rewrite bool_decide_eq_false_2 by assumption.
      destruct (U_CELL_PRIVATE_MODULE_IS_SARA_R4 (moduleType pInstance)) eqn:Hr4.
      * destruct (U_CELL_PRIVATE_RAT_IS_EUTRAN (uCellPrivateGetActiveRat pInstance)).
        -- pose proof (getRadioParamsUcged5_effect p a) as Hucged5.
           destruct (getRadioParamsUcged5 p a) as [[e5 p5] a5].
           destruct Hucged5 as (Hrssi5 & Hqual5).
           eexists. simpl. rewrite lookup_storeInstance. split; [reflexivity |].
           simpl. rewrite Hrssi5, Hqual5. intuition congruence.
        -- eexists. simpl. rewrite lookup_storeInstance. split; [reflexivity |].
           simpl. intuition congruence.
      * eexists. simpl. rewrite lookup_storeInstance. split; [reflexivity |].
        simpl. rewrite Hrsrp, Hrsrq, Hcell, Hearfcn. simpl. intuition congruence.
  - unfold uCellInfoRefreshRadioParameters. rewrite Hmutex, Hget, Hreg.
    eexists. simpl. rewrite lookup_storeInstance. split; [reflexivity |].
    simpl. intuition (try congruence; lia).
Qed.

(** After a refresh, whatever it returned, the RSSI getter gives 0 or a value
    between -118 and -48 dBm and the RxQual getter never gives 99; on a module
    that is not of the SARA-R4 family the RSRP and RSRQ getters give 0 or a
    value of [-141, -44] dBm and of [-19, -3] dB. *)
Theorem refresh_then_getters_in_range (cellHandle : Z) g :
  let g' := snd (uCellInfoRefreshRadioParameters cellHandle g) in
  (uCellInfoGetRssiDbm cellHandle g' = 0 \/
   -118 <= uCellInfoGetRssiDbm cellHandle g' <= -48) /\
  uCellInfoGetRxQual cellHandle g' <> 99 /\
  forall pInstance,
    pUCellPrivateGetInstance cellHandle g = Some pInstance ->
    U_CELL_PRIVATE_MODULE_IS_SARA_R4 (moduleType pInstance) = false \/
    moduleType pInstance = U_CELL_MODULE_TYPE_SARA_R5 ->
    (uCellInfoGetRsrpDbm cellHandle g' = 0 \/
     -141 <= uCellInfoGetRsrpDbm cellHandle g' <= -44) /\
    (uCellInfoGetRsrqDb cellHandle g' = 0 \/
     -19 <= uCellInfoGetRsrqDb cellHandle g' <= -3).
Proof.
  cbv zeta.
  pose proof U_ERROR_COMMON_NOT_INITIALISED_neg.
  pose proof U_ERROR_COMMON_INVALID_PARAMETER_neg.
  destruct (gUCellPrivateMutex g) eqn:Hmutex.
  - destruct (pUCellPrivateGetInstance cellHandle g) as [pInstance |] eqn:Hget.
    + destruct (refresh_snapshot_ranges cellHandle g pInstance Hmutex Hget)
        as (pInstance' & Hget' & _ & Hrssi & Hqual & Hlte & _).
      assert (Hmutex' : gUCellPrivateMutex
                          (snd (uCellInfoRefreshRadioParameters cellHandle g)) = true).
      { unfold uCellInfoRefreshRadioParameters. rewrite Hmutex, Hget.
        destruct (if uCellPrivateIsRegistered pInstance then _ else _) as [[? ?] ?].
        exact Hmutex. }
      unfold uCellInfoGetRssiDbm, uCellInfoGetRxQual, uCellInfoGetRsrpDbm,
        uCellInfoGetRsrqDb.
      rewrite Hmutex', Hget'.
      split; [exact Hrssi | split; [exact Hqual |]].
      intros pInstance0 [= <-] Hmodule. apply Hlte, Hmodule.
    + unfold uCellInfoRefreshRadioParameters. rewrite Hmutex, Hget. simpl.
      unfold uCellInfoGetRssiDbm, uCellInfoGetRxQual. rewrite Hmutex, Hget.
      split; [left; reflexivity | split; [lia | intros ? [=]]].
  - unfold uCellInfoRefreshRadioParameters. rewrite Hmutex. simpl.
    unfold uCellInfoGetRssiDbm, uCellInfoGetRxQual, uCellInfoGetRsrpDbm,
      uCellInfoGetRsrqDb. rewrite Hmutex.
    split; [left; reflexivity | split; [lia | intros; split; left; reflexivity]].
Qed.

(** On a module that has no AT+UCGED query (neither a SARA-R5 nor a SARA-R4),
    a refresh never gives an RSRP, an RSRQ, a cell ID or an EARFCN: their
    getters return the unknown values after it. *)
Theorem refresh_without_ucged (cellHandle : Z) g pInstance :
  gUCellPrivateMutex g = true ->
  pUCellPrivateGetInstance cellHandle g = Some pInstance ->
  U_CELL_PRIVATE_MODULE_IS_SARA_R4 (moduleType pInstance) = false ->
  moduleType pInstance <> U_CELL_MODULE_TYPE_SARA_R5 ->
  let g' := snd (uCellInfoRefreshRadioParameters cellHandle g) in
  uCellInfoGetRsrpDbm cellHandle g' = 0 /\
  uCellInfoGetRsrqDb cellHandle g' = 0 /\
  uCellInfoGetCellId cellHandle g' = cellIdUnknown /\
  uCellInfoGetEarfcn cellHandle g' = earfcnUnknown.
Proof.
  intros Hmutex Hget Hr4 Hr5. cbv zeta.
  destruct (refresh_snapshot_ranges cellHandle g pInstance Hmutex Hget)
    as (pInstance' & Hget' & _ & _ & _ & _ & Hnone).
  assert (Hmutex' : gUCellPrivateMutex
                      (snd (uCellInfoRefreshRadioParameters cellHandle g)) = true).
  { unfold uCellInfoRefreshRadioParameters. rewrite Hmutex, Hget.
    destruct (if uCellPrivateIsRegistered pInstance then _ else _) as [[? ?] ?].
    exact Hmutex. }
  unfold uCellInfoGetRsrpDbm, uCellInfoGetRsrqDb, uCellInfoGetCellId, uCellInfoGetEarfcn.
  rewrite Hmutex', Hget'. apply Hnone; assumption.
Qed.

(** A call for one handle leaves the instances of the other handles, and the
    mutex, as they are. *)
Theorem calls_leave_other_instances (cellHandle other : Z) (pImei : option string) g :
  other <> cellHandle ->
  (pUCellPrivateGetInstance other (snd (uCellInfoRefreshRadioParameters cellHandle g))
   = pUCellPrivateGetInstance other g /\
   gUCellPrivateMutex (snd (uCellInfoRefreshRadioParameters cellHandle g))
   = gUCellPrivateMutex g) /\
  (pUCellPrivateGetInstance other (snd (uCellInfoGetImei cellHandle pImei g))
   = pUCellPrivateGetInstance other g /\
   gUCellPrivateMutex (snd (uCellInfoGetImei cellHandle pImei g))
   = gUCellPrivateMutex g) /\
  (pUCellPrivateGetInstance other (snd (uCellInfoGetTimeUtc cellHandle g))
   = pUCellPrivateGetInstance other g /\
   gUCellPrivateMutex (snd (uCellInfoGetTimeUtc cellHandle g))
   = gUCellPrivateMutex g).
Proof.
  intros Hne.
  unfold uCellInfoRefreshRadioParameters, uCellInfoGetImei, uCellInfoGetTimeUtc.
  destruct (gUCellPrivateMutex g) eqn:Hmutex;
    [| repeat split; simpl; try reflexivity; exact Hmutex].
  destruct (pUCellPrivateGetInstance cellHandle g) as [pInstance |];
    [| repeat split; simpl; try reflexivity; exact Hmutex].
  split; [| split].
  - destruct (if uCellPrivateIsRegistered pInstance then _ else _) as [[? ?] ?].
    simpl. split; [apply lookup_storeInstance_other, Hne | exact Hmutex].
  - destruct pImei as [buffer |]; [| split; [reflexivity | exact Hmutex]].
    destruct (imeiLoop _ _ _ _) as [[? ?] ?].
    simpl. split; [apply lookup_storeInstance_other, Hne | exact Hmutex].
  - match goal with
    | |- context [let (_, _) := ?X in _] => destruct X as [[? ?] ?]
    end.
    simpl. split; [apply lookup_storeInstance_other, Hne | exact Hmutex].
Qed.

(** Reading the IMEI or the time changes the radio parameters of no
    instance: what the getters return is what the last refresh left. *)
Theorem reads_keep_radio_parameters (cellHandle other : Z) (pImei : option string) g :
  snapshot other (snd (uCellInfoGetImei cellHandle pImei g)) = snapshot other g /\
  snapshot other (snd (uCellInfoGetTimeUtc cellHandle g)) = snapshot other g.
Proof.
  unfold uCellInfoGetImei, uCellInfoGetTimeUtc.
  destruct (gUCellPrivateMutex g); [| split; reflexivity].
  destruct (pUCellPrivateGetInstance cellHandle g) as [pInstance |] eqn:Hget;
    [| split; reflexivity].
  split.
  - destruct pImei as [buffer |]; [| reflexivity].
    destruct (imeiLoop _ _ _ _) as [[? ?] ?].
    apply snapshot_storeInstance, Hget.
  - match goal with
    | |- context [let (_, _) := ?X in _] => destruct X as [[? ?] ?]
    end.
    apply snapshot_storeInstance, Hget.
Qed.

(** When the API is not initialised or the handle is not known, the refresh,
    the IMEI reader and the time reader return NotInitialised or
    InvalidParameter and leave everything as it is: no command is sent. *)
Theorem uninitialised_or_unknown_handle (cellHandle : Z) (pImei : option string) g :
  gUCellPrivateMutex g = false \/ pUCellPrivateGetInstance cellHandle g = None ->
  let errorCode :=
    if gUCellPrivateMutex g then U_ERROR_COMMON_INVALID_PARAMETER
    else U_ERROR_COMMON_NOT_INITIALISED in
  uCellInfoRefreshRadioParameters cellHandle g = (errorCode, g) /\
  uCellInfoGetImei cellHandle pImei g = ((errorCode, pImei), g) /\
  uCellInfoGetTimeUtc cellHandle g = (errorCode, g) /\
  errorCode < 0.
Proof.
  pose proof U_ERROR_COMMON_NOT_INITIALISED_neg.
  pose proof U_ERROR_COMMON_INVALID_PARAMETER_neg.
  unfold uCellInfoRefreshRadioParameters, uCellInfoGetImei, uCellInfoGetTimeUtc.
  intros [Hmutex | Hget].
  - rewrite Hmutex. repeat split. assumption.
  - rewrite Hget. destruct (gUCellPrivateMutex g); repeat split; assumption.
Qed.

Lemma string_length_app (s t : string) :
  String.length (s ++ t) = (String.length s + String.length t)%nat.
Proof. induction s as [| c s IH]; simpl; [reflexivity | rewrite IH; reflexivity]. Qed.

(** An accepted attempt leaves 15 digits at the start of the buffer. *)
Lemma imeiAttempt_accepted (pImei : string) (at0 : uAtClientHandle_t) :
  let '((accepted, buffer), _) := imeiAttempt pImei at0 in
  accepted = true ->
  (15 <= String.length buffer)%nat /\
  uCellPrivateIsNumeric buffer (Z.to_nat U_CELL_INFO_IMEI_SIZE) = true.
Proof.
  unfold imeiAttempt, mbind, M_bind, mret, M_ret.
  repeat match goal with
         | |- context [let (_, _) := ?op at0 in _] => destruct (op at0) as [? ?]
         | |- context [let (_, _) := ?op ?a in _] => destruct (op a) as [? ?]
         end.
  intros Hacc. apply andb_prop in Hacc as [Hacc Hnum].
  apply andb_prop in Hacc as [_ Hlen]. split; [| exact Hnum].
  apply Z.eqb_eq in Hlen. unfold U_CELL_INFO_IMEI_SIZE in Hlen.
  destruct o as [b |]; simpl in Hlen; [| lia].
  simpl. rewrite string_length_app.
  assert (Hb : String.length b = 15%nat) by (apply Nat2Z.inj; exact Hlen).
  rewrite Hb. apply Nat.le_add_r.
Qed.

(** The loop of the IMEI reader ends with success or with the error code it
    started from, and with 15 digits in the buffer when it ends with
    success. *)
Lemma imeiLoop_outcome (x : nat) (errorCode : Z) (pImei : string)
    (at0 : uAtClientHandle_t) :
  errorCode <> 0 ->
  let '((errorCode', buffer), _) := imeiLoop x errorCode pImei at0 in
  (errorCode' = U_ERROR_COMMON_SUCCESS /\
   (15 <= String.length buffer)%nat /\
   uCellPrivateIsNumeric buffer (Z.to_nat U_CELL_INFO_IMEI_SIZE) = true) \/
  errorCode' = errorCode.
Proof.
  intros Hne. revert pImei at0.
  induction x as [| x IH]; intros pImei at0; [right; reflexivity |].
  rewrite imeiLoop_step by assumption.
  pose proof (imeiAttempt_accepted pImei at0) as Hacc.
  destruct (imeiAttempt pImei at0) as [[accepted buffer] at1].
  destruct accepted.
  - rewrite imeiLoop_done. left. split; [reflexivity | apply Hacc; reflexivity].
  - apply IH.
Qed.

(** When the IMEI reader returns success the buffer starts with 15 decimal
    digits; it returns nothing but success, the error of the AT kind,
    InvalidParameter and NotInitialised, and never a status of the AT
    client. *)
Theorem uCellInfoGetImei_success_is_numeric (cellHandle : Z) (pImei : option string) g :
  let '((errorCode, pImei'), _) := uCellInfoGetImei cellHandle pImei g in
  (errorCode = U_ERROR_COMMON_SUCCESS ->
   exists buffer, pImei' = Some buffer /\
                  (15 <= String.length buffer)%nat /\
                  uCellPrivateIsNumeric buffer (Z.to_nat U_CELL_INFO_IMEI_SIZE) = true) /\
  (errorCode = U_ERROR_COMMON_SUCCESS \/ errorCode = U_CELL_ERROR_AT \/
   errorCode = U_ERROR_COMMON_INVALID_PARAMETER \/
   errorCode = U_ERROR_COMMON_NOT_INITIALISED).
Proof.
  pose proof U_ERROR_COMMON_NOT_INITIALISED_neg.
  pose proof U_ERROR_COMMON_INVALID_PARAMETER_neg.
  pose proof U_CELL_ERROR_AT_neg as Hneg.
  unfold uCellInfoGetImei, U_ERROR_COMMON_SUCCESS.
  destruct (gUCellPrivateMutex g); [| split; [lia | tauto]].
  destruct (pUCellPrivateGetInstance cellHandle g) as [pInstance |];
    [| split; [lia | tauto]].
  destruct pImei as [buffer |]; [| split; [lia | tauto]].
  assert (Hne : U_CELL_ERROR_AT <> 0) by lia.
  pose proof (imeiLoop_outcome 10 U_CELL_ERROR_AT buffer (atHandle pInstance) Hne)
    as Hloop.
  destruct (imeiLoop _ _ _ _) as [[errorCode buffer'] at'].
  destruct Hloop as [(-> & Hlen & Hnum) | ->].
  - split; [intros _; exists buffer'; tauto | left; reflexivity].
  - split; [lia | tauto].
Qed.

(** The SNR getter writes through [pSnrDb] when it returns success and only
    then; it returns nothing but success, ValueOutOfRange, InvalidParameter
    and NotInitialised. *)
Theorem uCellInfoGetSnrDb_outcomes (cellHandle : Z) (pSnrDb : option Z) g :
  let '(errorCode, pSnrDb') := uCellInfoGetSnrDb cellHandle pSnrDb g in
  (errorCode <> U_ERROR_COMMON_SUCCESS -> pSnrDb' = pSnrDb) /\
  (errorCode = U_ERROR_COMMON_SUCCESS ->
   is_Some pSnrDb /\ is_Some pSnrDb' /\
   exists pInstance, pUCellPrivateGetInstance cellHandle g = Some pInstance /\
                     rssiDbm (radioParameters pInstance) <> 0 /\
                     rsrpDbm (radioParameters pInstance) <> 0) /\
  (errorCode = U_ERROR_COMMON_SUCCESS \/ errorCode = U_CELL_ERROR_VALUE_OUT_OF_RANGE \/
   errorCode = U_ERROR_COMMON_INVALID_PARAMETER \/
   errorCode = U_ERROR_COMMON_NOT_INITIALISED).
Proof.
  pose proof U_ERROR_COMMON_NOT_INITIALISED_neg.
  pose proof U_ERROR_COMMON_INVALID_PARAMETER_neg.
  pose proof U_CELL_ERROR_VALUE_OUT_OF_RANGE_neg.
  unfold uCellInfoGetSnrDb, U_ERROR_COMMON_SUCCESS.
  destruct (gUCellPrivateMutex g); [| split; [reflexivity | split; [lia | tauto]]].
  destruct (pUCellPrivateGetInstance cellHandle g) as [pInstance |];
    [| split; [reflexivity | split; [lia | tauto]]].
  destruct pSnrDb as [old |]; [| split; [reflexivity | split; [lia | tauto]]].
  destruct (Z.eqb_spec (rssiDbm (radioParameters pInstance)) 0) as [Hrssi | Hrssi];
    simpl; [split; [reflexivity | split; [lia | tauto]] |].
  destruct (Z.eqb_spec (rssiDbm (radioParameters pInstance))
                       (rsrpDbm (radioParameters pInstance))) as [Heq | Hneq].
  - split; [intros Hne; contradiction | split; [| tauto]].
    intros _. split; [eexists; reflexivity | split; [eexists; reflexivity |]].
    exists pInstance. split; [reflexivity | split; [assumption | congruence]].
  - destruct (Z.eqb_spec (rsrpDbm (radioParameters pInstance)) 0) as [Hrsrp | Hrsrp];
      simpl; [split; [reflexivity | split; [lia | tauto]] |].
    destruct (pow _ _) as [rssi errno1]. destruct (pow _ _) as [rsrp errno2].
    destruct (errno1 || errno2); simpl; [split; [reflexivity | split; [lia | tauto]] |].
    destruct (log10 _) as [l errno3].
    destruct errno3; simpl; [split; [reflexivity | split; [lia | tauto]] |].
    split; [intros Hne; contradiction | split; [| tauto]].
    intros _. split; [eexists; reflexivity | split; [eexists; reflexivity |]].
    exists pInstance. split; [reflexivity | split; assumption].
Qed.

End PublicProperties.

(** ** Properties of the identification strings *)

Section StringProperties.

Context `{ErrorCodes} `{CellPrivate}.
Context {uAtClientHandle_t : Type} `{AtClient uAtClientHandle_t}
        `{AtClientDelimiter uAtClientHandle_t}.

Implicit Types (g : uCellPrivate_t (uAtClientHandle_t := uAtClientHandle_t)).

Lemma readString_outcome (r : option string) (status : Z) :
  stringOutcome (if (bytesReadOf r >=? 0) && (status =? 0) then bytesReadOf r
                 else U_CELL_ERROR_AT) r.
Proof.
  pose proof U_CELL_ERROR_AT_neg.
  destruct r as [s |]; simpl.
  - destruct ((Z.of_nat (String.length s) >=? 0) && (status =? 0)).
    + left. exists s. split; reflexivity.
    + right. split; [assumption | left; reflexivity].
  - right. split; [assumption | left; reflexivity].
Qed.

Lemma getString_outcome (pCmd : string) (bufferSize : Z) (at0 : uAtClientHandle_t) :
  let '((errorCodeOrSize, r), _) := getString pCmd bufferSize at0 in
  stringOutcome errorCodeOrSize r.
Proof.
  unfold getString, mbind, M_bind, mret, M_ret.
  repeat match goal with
         | |- context [let (_, _) := ?op at0 in _] => destruct (op at0) as [? ?]
         | |- context [let (_, _) := ?op ?a in _] => destruct (op a) as [? ?]
         end.
  apply readString_outcome.
Qed.

Lemma getStringOfInstance_outcome (pCmd : string) (cellHandle : Z) (pStr : bool)
    (size : Z) g :
  let '((errorCodeOrSize, r), _) := getStringOfInstance pCmd cellHandle pStr size g in
  stringOutcome errorCodeOrSize r.
Proof.
  pose proof U_ERROR_COMMON_NOT_INITIALISED_neg.
  pose proof U_ERROR_COMMON_INVALID_PARAMETER_neg.
  unfold getStringOfInstance.
  destruct (gUCellPrivateMutex g); [| right; tauto].
  destruct (pUCellPrivateGetInstance cellHandle g) as [pInstance |]; [| right; tauto].
  destruct (pStr && (size >? 0)); [| right; tauto].
  pose proof (getString_outcome pCmd size (atHandle pInstance)) as Hout.
  destruct (getString pCmd size (atHandle pInstance)) as [[? ?] ?]. exact Hout.
Qed.

(** The test of [getString] on what was read and on the status. *)
Lemma readString_result (r : option string) (status : Z) :
  (if (bytesReadOf r >=? 0) && (status =? 0) then bytesReadOf r else U_CELL_ERROR_AT)
  = stringResult r status.
Proof.
  destruct r as [s |]; simpl; [| reflexivity].
  rewrite Z.geb_leb. destruct (Z.leb_spec 0 (Z.of_nat (String.length s))); [| lia].
  reflexivity.
Qed.

(** [getString] in terms of its exchange. *)
Lemma getString_result (pCmd : string) (bufferSize : Z) (at0 : uAtClientHandle_t) :
  let '((r, status), _) := getStringExchange pCmd bufferSize at0 in
  fst (getString pCmd bufferSize at0) = (stringResult r status, r).
Proof.
  unfold getString, getStringExchange, mbind, M_bind, mret, M_ret.
  repeat match goal with
         | |- context [let (_, _) := ?op at0 in _] => destruct (op at0) as [? ?]
         | |- context [let (_, _) := ?op ?a in _] => destruct (op a) as [? ?]
         end.
  simpl. rewrite readString_result. reflexivity.
Qed.

(** The three getters that share a body, in terms of the exchange. *)
Lemma getStringOfInstance_result (pCmd : string) (cellHandle : Z) (size : Z) g pInstance :
  gUCellPrivateMutex g = true ->
  pUCellPrivateGetInstance cellHandle g = Some pInstance ->
  0 < size ->
  let '((r, status), _) := getStringExchange pCmd size (atHandle pInstance) in
  fst (getStringOfInstance pCmd cellHandle true size g) = (stringResult r status, r).
Proof.
  intros Hmutex Hget Hsize. unfold getStringOfInstance. rewrite Hmutex, Hget.
  rewrite Z.gtb_ltb. destruct (Z.ltb_spec 0 size); [| lia]. simpl.
  pose proof (getString_result pCmd size (atHandle pInstance)) as Hresult.
  destruct (getStringExchange pCmd size (atHandle pInstance)) as [[r status] at'].
  destruct (getString pCmd size (atHandle pInstance)) as [[? ?] ?]. exact Hresult.
Qed.

(** The getters of the manufacturer, model, firmware version and ICCID
    strings return the length of the string that was read, or else the
    error of the AT kind, InvalidParameter or NotInitialised, all negative.
    On a known handle with a buffer, the result is the length of the string
    when a string was read and the AT client unlocked without error, and the
    error of the AT kind in every other case: a status of the AT client that
    is not zero is replaced by it, also when a string was read. *)
Theorem string_getters_outcomes (cellHandle : Z) (pStr : bool) (size : Z) g :
  ((let '((errorCodeOrSize, r), _) :=
      uCellInfoGetManufacturerStr cellHandle pStr size g in
    stringOutcome errorCodeOrSize r) /\
   (let '((errorCodeOrSize, r), _) := uCellInfoGetModelStr cellHandle pStr size g in
    stringOutcome errorCodeOrSize r) /\
   (let '((errorCodeOrSize, r), _) :=
      uCellInfoGetFirmwareVersionStr cellHandle pStr size g in
    stringOutcome errorCodeOrSize r) /\
   (let '((errorCodeOrSize, r), _) := uCellInfoGetIccidStr cellHandle pStr size g in
    stringOutcome errorCodeOrSize r)) /\
  (forall pInstance,
     gUCellPrivateMutex g = true ->
     pUCellPrivateGetInstance cellHandle g = Some pInstance ->
     0 < size ->
     (let '((r, status), _) := getStringExchange "AT+CGMI" size (atHandle pInstance) in
      fst (uCellInfoGetManufacturerStr cellHandle true size g)
      = (stringResult r status, r)) /\
     (let '((r, status), _) := getStringExchange "AT+CGMM" size (atHandle pInstance) in
      fst (uCellInfoGetModelStr cellHandle true size g) = (stringResult r status, r)) /\
     (let '((r, status), _) := getStringExchange "AT+CGMR" size (atHandle pInstance) in
      fst (uCellInfoGetFirmwareVersionStr cellHandle true size g)
      = (stringResult r status, r)) /\
     (let '((r, status), _) := iccidExchange size (atHandle pInstance) in
      fst (uCellInfoGetIccidStr cellHandle true size g) = (stringResult r status, r))) /\
  (forall r status, status <> 0 -> stringResult r status = U_CELL_ERROR_AT) /\
  (forall status, stringResult None status = U_CELL_ERROR_AT) /\
  (forall s, stringResult (Some s) 0 = Z.of_nat (String.length s)).
Proof.
  split; [| split; [| split; [| split]]].
  - split; [| split; [| split]];
      try apply getStringOfInstance_outcome.
    pose proof U_ERROR_COMMON_NOT_INITIALISED_neg.
    pose proof U_ERROR_COMMON_INVALID_PARAMETER_neg.
    unfold uCellInfoGetIccidStr.
    destruct (gUCellPrivateMutex g); [| right; tauto].
    destruct (pUCellPrivateGetInstance cellHandle g) as [pInstance |]; [| right; tauto].
    destruct (pStr && (size >? 0)); [| right; tauto].
    unfold mbind, M_bind, mret, M_ret.
    repeat match goal with
           | |- context [let (_, _) := ?op (atHandle pInstance) in _] =>
               destruct (op (atHandle pInstance)) as [? ?]
           | |- context [let (_, _) := ?op ?a in _] => destruct (op a) as [? ?]
           end.
    apply readString_outcome.
  - intros pInstance Hmutex Hget Hsize.
    split; [| split; [| split]];
      try (apply getStringOfInstance_result; assumption).
    unfold uCellInfoGetIccidStr, iccidExchange. rewrite Hmutex, Hget.
    rewrite Z.gtb_ltb. destruct (Z.ltb_spec 0 size); [| lia]. simpl.
    unfold mbind, M_bind, mret, M_ret.
    repeat match goal with
           | |- context [let (_, _) := ?op (atHandle pInstance) in _] =>
               destruct (op (atHandle pInstance)) as [? ?]
           | |- context [let (_, _) := ?op ?a in _] => destruct (op a) as [? ?]
           end.
    simpl. rewrite readString_result. reflexivity.
  - intros r status Hne. unfold stringResult.
    destruct r; [| reflexivity].
    destruct (Z.eqb_spec status 0); [contradiction | reflexivity].
  - reflexivity.
  - reflexivity.
Qed.

(** With a NULL buffer or a buffer of no size, the string getters return
    InvalidParameter (NotInitialised when the API is not initialised) and
    send nothing to the module. *)
Theorem string_getters_no_buffer (cellHandle : Z) (pStr : bool) (size : Z) g :
  pStr = false \/ size <= 0 ->
  let errorCode :=
    if gUCellPrivateMutex g then U_ERROR_COMMON_INVALID_PARAMETER
    else U_ERROR_COMMON_NOT_INITIALISED in
  uCellInfoGetManufacturerStr cellHandle pStr size g = ((errorCode, None), g) /\
  uCellInfoGetModelStr cellHandle pStr size g = ((errorCode, None), g) /\
  uCellInfoGetFirmwareVersionStr cellHandle pStr size g = ((errorCode, None), g) /\
  uCellInfoGetIccidStr cellHandle pStr size g = ((errorCode, None), g).
Proof.
  intros Hbuffer.
  assert (Htest : pStr && (size >? 0) = false).
  { destruct Hbuffer as [-> | Hsize]; [reflexivity |].
    rewrite Z.gtb_ltb. destruct (Z.ltb_spec 0 size); [lia |].
    apply andb_false_r. }
  unfold uCellInfoGetManufacturerStr, uCellInfoGetModelStr,
    uCellInfoGetFirmwareVersionStr, getStringOfInstance, uCellInfoGetIccidStr.
  rewrite Htest.
  destruct (gUCellPrivateMutex g); [| repeat split].
  destruct (pUCellPrivateGetInstance cellHandle g); repeat split.
Qed.

(** Reading an identification string changes the radio parameters of no
    instance. *)
Theorem string_getters_keep_radio_parameters (cellHandle other : Z) (pStr : bool)
    (size : Z) g :
  snapshot other (snd (uCellInfoGetManufacturerStr cellHandle pStr size g))
  = snapshot other g /\
  snapshot other (snd (uCellInfoGetModelStr cellHandle pStr size g))
  = snapshot other g /\
  snapshot other (snd (uCellInfoGetFirmwareVersionStr cellHandle pStr size g))
  = snapshot other g /\
  snapshot other (snd (uCellInfoGetIccidStr cellHandle pStr size g))
  = snapshot other g.
Proof.
  assert (Hstore : forall pInstance at',
            pUCellPrivateGetInstance cellHandle g = Some pInstance ->
            snapshot other
              (storeInstance cellHandle
                 (updateInstance pInstance at' (radioParameters pInstance)) g)
            = snapshot other g).
  { intros pInstance at' Hget. unfold snapshot.
    destruct (decide (other = cellHandle)) as [-> | Hne].
    - rewrite Hget. unfold pUCellPrivateGetInstance, storeInstance. simpl.
      rewrite lookup_insert_eq. reflexivity.
    - unfold pUCellPrivateGetInstance, storeInstance. simpl.
      rewrite lookup_insert_ne by congruence. reflexivity. }
  assert (Hgeneric : forall pCmd,
            snapshot other (snd (getStringOfInstance pCmd cellHandle pStr size g))
            = snapshot other g).
  { intros pCmd. unfold getStringOfInstance.
    destruct (gUCellPrivateMutex g); [| reflexivity].
    destruct (pUCellPrivateGetInstance cellHandle g) as [pInstance |] eqn:Hget;
      [| reflexivity].
    destruct (pStr && (size >? 0)); [| reflexivity].
    destruct (getString pCmd size (atHandle pInstance)) as [[? ?] ?].
    apply Hstore; reflexivity. }
  split; [apply Hgeneric | split; [apply Hgeneric | split; [apply Hgeneric |]]].
  unfold uCellInfoGetIccidStr.
  destruct (gUCellPrivateMutex g); [| reflexivity].
  destruct (pUCellPrivateGetInstance cellHandle g) as [pInstance |] eqn:Hget;
    [| reflexivity].
  destruct (pStr && (size >? 0)); [| reflexivity].
  match goal with
  | |- context [let (_, _) := ?X in _] => destruct X as [[? ?] ?]
  end.
  apply Hstore; reflexivity.
Qed.

End StringProperties.

(** ** Properties of the decoding of the time *)

Lemma int32_range (z : Z) : - 2 ^ 31 <= int32 z < 2 ^ 31.
Proof. unfold int32. pose proof (Z.mod_pos_bound (z + 2 ^ 31) (2 ^ 32)). lia. Qed.

Lemma int32_small (z : Z) : - 2 ^ 31 <= z < 2 ^ 31 -> int32 z = z.
Proof. intros Hz. unfold int32. rewrite Z.mod_small; lia. Qed.

Lemma digit_facts (a : ascii) :
  isdigit a = true ->
  Ascii.eqb a NUL = false /\ isspace a = false /\
  Ascii.eqb a "-" = false /\ Ascii.eqb a "+" = false /\
  0 <= digitValue a <= 9.
Proof.
  destruct a as [[] [] [] [] [] [] [] []]; intros Ha; vm_compute in Ha;
    try discriminate Ha; vm_compute; repeat split; congruence.
Qed.

(** [atoi] on a field of two digits closed by a NUL. *)
Lemma atoi_two_digits (a b : ascii) (l : list ascii) :
  isdigit a = true -> isdigit b = true ->
  atoi (untilNul (a :: b :: NUL :: l)) = 10 * digitValue a + digitValue b.
Proof.
  intros Ha Hb.
  destruct (digit_facts a Ha) as (Ha0 & Has & Ham & Hap & _).
  destruct (digit_facts b Hb) as (Hb0 & _).
  simpl untilNul. rewrite Ha0, Hb0.
  change (Ascii.eqb NUL NUL) with true. cbv iota.
  unfold atoi. simpl skipSpace. rewrite Has, Ham, Hap.
  simpl atoiDigits. rewrite Ha, Hb. unfold digitValue. lia.
Qed.

(** What follows the NUL that closes a field is not read. *)
Lemma untilNul_two (a b : ascii) (l l' : list ascii) :
  untilNul (a :: b :: NUL :: l) = untilNul (a :: b :: NUL :: l').
Proof. simpl. reflexivity. Qed.

(** The time that [uCellInfoGetTimeUtc] computes depends on the characters
    at offsets 0-1, 3-4, 6-7, 9-10, 12-13, 15-16 and 18-19 only: the
    separators, the character at offset 17 where the sign of the time zone
    stands, and what follows offset 19 are never read. *)
Theorem decodeTimeUtc_reads_fields_only
    (c0 c1 c3 c4 c6 c7 c9 c10 c12 c13 c15 c16 c18 c19 : ascii)
    (s2 s5 s8 s11 s14 s17 s20 : ascii) (rest : list ascii) (bytesRead : Z) :
  decodeTimeUtc ([c0; c1; s2; c3; c4; s5; c6; c7; s8; c9; c10; s11;
                  c12; c13; s14; c15; c16; s17; c18; c19; s20] ++ rest) bytesRead
  = decodeTimeUtc [c0; c1; NUL; c3; c4; NUL; c6; c7; NUL; c9; c10; NUL;
                   c12; c13; NUL; c15; c16; NUL; c18; c19; NUL] bytesRead.
Proof.
  unfold decodeTimeUtc, cString.
  cbn [app insert list_insert drop].
  rewrite !(untilNul_two _ _ _ []).
  reflexivity.
Qed.

(** On a string whose date and time fields are digits, the time computed is
    [mktime] of year 2000 + YY, month MM - 1, day, hour, minute and second,
    as an [int32_t].  When it is not negative and at least 20 characters
    were read, the two digits of the time zone, counted in quarters of an
    hour, are subtracted from it, whatever the character before them: so
    the result is never after the time without its zone. *)
Theorem decodeTimeUtc_digits
    (c0 c1 c3 c4 c6 c7 c9 c10 c12 c13 c15 c16 c18 c19 : ascii)
    (s2 s5 s8 s11 s14 s17 s20 : ascii) (rest : list ascii) (bytesRead : Z) :
  Forall (fun c => isdigit c = true)
         [c0; c1; c3; c4; c6; c7; c9; c10; c12; c13; c15; c16] ->
  let buffer := ([c0; c1; s2; c3; c4; s5; c6; c7; s8; c9; c10; s11;
                  c12; c13; s14; c15; c16; s17; c18; c19; s20] ++ rest)%list in
  let local :=
    int32 (mktime {| tm_sec := 10 * digitValue c15 + digitValue c16;
                     tm_min := 10 * digitValue c12 + digitValue c13;
                     tm_hour := 10 * digitValue c9 + digitValue c10;
                     tm_mday := 10 * digitValue c6 + digitValue c7;
                     tm_mon := 10 * digitValue c3 + digitValue c4 - 1;
                     tm_year := 10 * digitValue c0 + digitValue c1 + 2000 - 1900 |}) in
  (bytesRead < 20 \/ local < 0 -> decodeTimeUtc buffer bytesRead = local) /\
  (20 <= bytesRead -> 0 <= local ->
   isdigit c18 = true -> isdigit c19 = true ->
   decodeTimeUtc buffer bytesRead
   = int32 (local - (10 * digitValue c18 + digitValue c19) * 15 * 60) /\
   decodeTimeUtc buffer bytesRead <= local).
Proof.
  intros Hdigits. cbv zeta.
  repeat match goal with
         | Hd : Forall _ (_ :: _) |- _ => apply Forall_cons in Hd as [? Hd]
         end.
  unfold decodeTimeUtc, cString.
  cbn [app insert list_insert drop].
  rewrite !atoi_two_digits by assumption.
  match goal with
  | |- context [int32 (mktime ?t)] =>
      pose proof (int32_range (mktime t)) as Hrange;
      generalize dependent (int32 (mktime t))
  end.
  intros local Hrange. split.
  - intros [Hshort | Hneg].
    + destruct (Z.geb_spec bytesRead 20); [lia |]. rewrite andb_false_r. reflexivity.
    + destruct (Z.geb_spec local 0); [lia | reflexivity].
  - intros Hlong Hpos H18 H19.
    destruct (Z.geb_spec local 0); [| lia].
    destruct (Z.geb_spec bytesRead 20); [| lia]. simpl andb. cbv iota.
    rewrite atoi_two_digits by assumption.
    split; [reflexivity |].
    destruct (digit_facts c18 H18) as (_ & _ & _ & _ & ?).
    destruct (digit_facts c19 H19) as (_ & _ & _ & _ & ?).
    rewrite int32_small; lia.
Qed.

(** ** Properties of the advertising data *)

Section BleGapProperties.

Context `{ErrorCodes}.
Variables (U_BT_DATA_NAME_COMPLETE U_BT_DATA_MANUFACTURER_DATA : Z).

(** A value of the range of [uint8_t] is kept. *)
Lemma uint8_small (z : Z) : 0 <= z < 256 -> uint8 z = z.
Proof. intros Hz. unfold uint8. apply Z.mod_small. lia. Qed.

(** The name structure that [uBleGapSetAdvData] stores for a name of at most
    253 characters. *)
Lemma name_structure (name : list Z) :
  (length name <= 253)%nat ->
  let nameSize := uint8 (Z.of_nat (length name) + 2) in
  nameSize = Z.of_nat (length name) + 2 /\
  ([uint8 (nameSize - 1); U_BT_DATA_NAME_COMPLETE]
     ++ take (Z.to_nat (uint8 (uint8 (nameSize - 1) - 1))) name)%list
  = adStructure U_BT_DATA_NAME_COMPLETE name.
Proof.
  intros Hlen. cbv zeta.
  rewrite (uint8_small (Z.of_nat (length name) + 2)) by lia.
  rewrite (uint8_small (Z.of_nat (length name) + 2 - 1)) by lia.
  rewrite (uint8_small (Z.of_nat (length name) + 2 - 1 - 1)) by lia.
  split; [reflexivity |].
  unfold adStructure. rewrite take_ge by lia.
  replace (Z.of_nat (length name) + 2 - 1) with (Z.of_nat (length name) + 1) by lia.
  reflexivity.
Qed.

(** The structure that it stores for at most 253 bytes of manufacturer
    data. *)
Lemma manuf_structure (data : list Z) (manufDataSize : Z) :
  0 <= manufDataSize <= 253 -> manufDataSize <= Z.of_nat (length data) ->
  let size := uint8 (manufDataSize + 2) in
  size = manufDataSize + 2 /\
  ([uint8 (size - 1); U_BT_DATA_MANUFACTURER_DATA]
     ++ take (Z.to_nat (uint8 (uint8 (size - 1) - 1))) data)%list
  = adStructure U_BT_DATA_MANUFACTURER_DATA (take (Z.to_nat manufDataSize) data) /\
  Z.of_nat (length (take (Z.to_nat manufDataSize) data)) = manufDataSize.
Proof.
  intros Hsize Hdata. cbv zeta.
  rewrite (uint8_small (manufDataSize + 2)) by lia.
  rewrite (uint8_small (manufDataSize + 2 - 1)) by lia.
  rewrite (uint8_small (manufDataSize + 2 - 1 - 1)) by lia.
  assert (Hlen : Z.of_nat (length (take (Z.to_nat manufDataSize) data)) = manufDataSize)
    by (rewrite length_take; lia).
  split; [reflexivity | split; [| exact Hlen]].
  unfold adStructure. rewrite Hlen.
  replace (manufDataSize + 2 - 1 - 1) with manufDataSize by lia.
  replace (manufDataSize + 2 - 1) with (manufDataSize + 1) by lia.
  reflexivity.
Qed.

(** With a name of at most 253 characters and at most 253 bytes of
    manufacturer data, [uBleGapSetAdvData] stores the name and the data as
    advertising structures (length, tag, payload), in that order, and
    returns the number of bytes stored, which is at most the size of the
    buffer; when the structures do not fit it stores nothing and returns
    InvalidParameter. *)
Theorem uBleGapSetAdvData_fits (pName pManufData : option (list Z))
    (manufDataSize advDataSize : Z) :
  is_Some pName \/ is_Some pManufData ->
  (forall name, pName = Some name -> (length name <= 253)%nat) ->
  (forall data, pManufData = Some data ->
                0 <= manufDataSize <= 253 /\ manufDataSize <= Z.of_nat (length data)) ->
  let expected :=
    (adOptional U_BT_DATA_NAME_COMPLETE pName
     ++ adOptional U_BT_DATA_MANUFACTURER_DATA
          (take (Z.to_nat manufDataSize) <$> pManufData))%list in
  uBleGapSetAdvData U_BT_DATA_NAME_COMPLETE U_BT_DATA_MANUFACTURER_DATA
                    pName pManufData manufDataSize advDataSize
  = if Z.of_nat (length expected) >? advDataSize
    then (U_ERROR_COMMON_INVALID_PARAMETER, [])
    else (Z.of_nat (length expected), expected).
Proof.
  intros Hsome Hname Hmanuf. cbv zeta. unfold uBleGapSetAdvData.
  destruct pName as [name |], pManufData as [data |]; simpl adOptional; simpl fmap.
  - destruct (name_structure name (Hname _ eq_refl)) as [-> ->].
    destruct (Hmanuf _ eq_refl) as [Hsize Hdata].
    destruct (manuf_structure data manufDataSize Hsize Hdata) as (-> & -> & Hlen).
    replace (Z.of_nat (length (adStructure U_BT_DATA_NAME_COMPLETE name ++
               adStructure U_BT_DATA_MANUFACTURER_DATA (take (Z.to_nat manufDataSize) data))))
      with (Z.of_nat (length name) + 2 + (manufDataSize + 2)); [reflexivity |].
    rewrite length_app. unfold adStructure. simpl length. lia.
  - destruct (name_structure name (Hname _ eq_refl)) as [-> ->].
    rewrite app_nil_r.
    replace (Z.of_nat (length (adStructure U_BT_DATA_NAME_COMPLETE name)))
      with (Z.of_nat (length name) + 2 + 0); [reflexivity |].
    unfold adStructure. simpl length. lia.
  - destruct (Hmanuf _ eq_refl) as [Hsize Hdata].
    destruct (manuf_structure data manufDataSize Hsize Hdata) as (-> & -> & Hlen).
    replace (Z.of_nat (length ([] ++ adStructure U_BT_DATA_MANUFACTURER_DATA
                                       (take (Z.to_nat manufDataSize) data))))
      with (0 + (manufDataSize + 2)); [reflexivity |].
    unfold adStructure. simpl length. lia.
  - destruct Hsome as [[? [=]] | [? [=]]].
Qed.

(** A name of 254 or 255 characters, or 254 or 255 bytes of manufacturer
    data, pass the test of [uBleGapSetAdvData] on the size, their length plus
    two being reduced to a [uint8_t]: the call returns 0 or 1 and stores the
    whole field and two bytes before it, more than any buffer whose size a
    [uint8_t] can give. *)
Theorem uBleGapSetAdvData_wraps (name data : list Z) (manufDataSize advDataSize : Z) :
  1 <= advDataSize <= 255 ->
  ((254 <= length name <= 255)%nat ->
   let '(totSize, stored) :=
     uBleGapSetAdvData U_BT_DATA_NAME_COMPLETE U_BT_DATA_MANUFACTURER_DATA
                       (Some name) None manufDataSize advDataSize in
   totSize = Z.of_nat (length name) - 254 /\
   Z.of_nat (length stored) = Z.of_nat (length name) + 2 /\
   advDataSize < Z.of_nat (length stored)) /\
  (254 <= manufDataSize <= 255 -> manufDataSize <= Z.of_nat (length data) ->
   let '(totSize, stored) :=
     uBleGapSetAdvData U_BT_DATA_NAME_COMPLETE U_BT_DATA_MANUFACTURER_DATA
                       None (Some data) manufDataSize advDataSize in
   totSize = manufDataSize - 254 /\
   Z.of_nat (length stored) = manufDataSize + 2 /\
   advDataSize < Z.of_nat (length stored)).
Proof.
  intros Hadv. unfold uBleGapSetAdvData. split.
  - intros Hlen.
    assert (Hcases : length name = 254%nat \/ length name = 255%nat) by lia.
    destruct Hcases as [Hl | Hl]; rewrite Hl.
    + change (uint8 (Z.of_nat 254 + 2)) with 0.
      change (uint8 (0 - 1)) with 255. change (uint8 (255 - 1)) with 254.
      destruct (Z.gtb_spec (0 + 0) advDataSize); [lia |].
      rewrite app_nil_r, length_app, length_take. simpl length. lia.
    + change (uint8 (Z.of_nat 255 + 2)) with 1.
      change (uint8 (1 - 1)) with 0. change (uint8 (0 - 1)) with 255.
      destruct (Z.gtb_spec (1 + 0) advDataSize); [lia |].
      rewrite app_nil_r, length_app, length_take. simpl length. lia.
  - intros Hsize Hdata.
    assert (Hcases : manufDataSize = 254 \/ manufDataSize = 255) by lia.
    destruct Hcases as [-> | ->].
    + change (uint8 (254 + 2)) with 0.
      change (uint8 (0 - 1)) with 255. change (uint8 (255 - 1)) with 254.
      destruct (Z.gtb_spec (0 + 0) advDataSize); [lia |].
      simpl app. simpl length. rewrite length_take. lia.
    + change (uint8 (255 + 2)) with 1.
      change (uint8 (1 - 1)) with 0. change (uint8 (0 - 1)) with 255.
      destruct (Z.gtb_spec (0 + 1) advDataSize); [lia |].
      simpl app. simpl length. rewrite length_take. lia.
Qed.

End BleGapProperties.

(** ** Further runs on the simulated session *)

Section MoreRuns.

Import Sim.

(** A refresh of a SARA-R5 with all its answers, then the getters. *)
Lemma refresh_then_getters_in_range_witness :
  let g' := snd (uCellInfoRefreshRadioParameters 0
                   (world (instance SARA_R5 true CATM1 stale [csqOk; ucged2Ok]))) in
  uCellInfoGetRssiDbm 0 g' = -93 /\
  -118 <= uCellInfoGetRssiDbm 0 g' <= -48 /\
  uCellInfoGetRxQual 0 g' <> 99 /\
  uCellInfoGetRsrpDbm 0 g' = -113 /\
  -141 <= uCellInfoGetRsrpDbm 0 g' <= -44 /\
  -19 <= uCellInfoGetRsrqDb 0 g' <= -3.
Proof.
  cbv zeta.
  pose proof (refresh_then_getters_in_range 0
                (world (instance SARA_R5 true CATM1 stale [csqOk; ucged2Ok])))
    as (Hrssi & Hqual & Hlte).
  specialize (Hlte (instance SARA_R5 true CATM1 stale [csqOk; ucged2Ok])
                ltac:(vm_compute; reflexivity) ltac:(right; reflexivity)).
  destruct Hlte as [Hrsrp Hrsrq].
  assert (Hv : uCellInfoGetRssiDbm 0
                 (snd (uCellInfoRefreshRadioParameters 0
                   (world (instance SARA_R5 true CATM1 stale [csqOk; ucged2Ok])))) = -93)
    by (vm_compute; reflexivity).
  assert (Hp : uCellInfoGetRsrpDbm 0
                 (snd (uCellInfoRefreshRadioParameters 0
                   (world (instance SARA_R5 true CATM1 stale [csqOk; ucged2Ok])))) = -113)
    by (vm_compute; reflexivity).
  assert (Hq : uCellInfoGetRsrqDb 0
                 (snd (uCellInfoRefreshRadioParameters 0
                   (world (instance SARA_R5 true CATM1 stale [csqOk; ucged2Ok])))) = -4)
    by (vm_compute; reflexivity).
  split; [exact Hv |].
  split; [destruct Hrssi as [Hz | Hr]; [rewrite Hv in Hz; discriminate | exact Hr] |].
  split; [exact Hqual |].
  split; [exact Hp |].
  split; [destruct Hrsrp as [Hz | Hr]; [rewrite Hp in Hz; discriminate | exact Hr] |].
  destruct Hrsrq as [Hz | Hr]; [rewrite Hq in Hz; discriminate | exact Hr].
Defined.

(** A refresh of a SARA-U201, which has no AT+UCGED query. *)
Lemma refresh_without_ucged_witness :
  let g' := snd (uCellInfoRefreshRadioParameters 0
                   (world (instance SARA_U201 true UTRAN stale [csqOk]))) in
  uCellInfoGetRsrpDbm 0 g' = 0 /\
  uCellInfoGetRsrqDb 0 g' = 0 /\
  uCellInfoGetCellId 0 g' = cellIdUnknown /\
  uCellInfoGetEarfcn 0 g' = earfcnUnknown.
Proof.
  apply (refresh_without_ucged 0 (world (instance SARA_U201 true UTRAN stale [csqOk]))
           (instance SARA_U201 true UTRAN stale [csqOk]));
    [reflexivity | vm_compute; reflexivity | reflexivity | discriminate].
Defined.

(** A refresh, an IMEI read and a time read for the handle 0 seen from the
    handle 1, whose instance holds its own radio parameters and answers. *)
Lemma calls_leave_other_instances_witness :
  let other := instance SARA_R412M_02B true CATM1 (measured (-70) (-75)) [csqOk] in
  let g := world2 (instance SARA_R5 true CATM1 stale [csqOk; ucged2Ok]) other in
  (pUCellPrivateGetInstance 1 (snd (uCellInfoRefreshRadioParameters 0 g)) = Some other /\
   gUCellPrivateMutex (snd (uCellInfoRefreshRadioParameters 0 g)) = true) /\
  (pUCellPrivateGetInstance 1 (snd (uCellInfoGetImei 0 (Some "") g)) = Some other /\
   gUCellPrivateMutex (snd (uCellInfoGetImei 0 (Some "") g)) = true) /\
  (pUCellPrivateGetInstance 1 (snd (uCellInfoGetTimeUtc 0 g)) = Some other /\
   gUCellPrivateMutex (snd (uCellInfoGetTimeUtc 0 g)) = true) /\
  snapshot 0 (snd (uCellInfoRefreshRadioParameters 0 g)) <> snapshot 0 g.
Proof.
  cbv zeta.
  assert (Hother : pUCellPrivateGetInstance 1
                     (world2 (instance SARA_R5 true CATM1 stale [csqOk; ucged2Ok])
                        (instance SARA_R412M_02B true CATM1 (measured (-70) (-75)) [csqOk]))
                   = Some (instance SARA_R412M_02B true CATM1 (measured (-70) (-75)) [csqOk]))
    by (vm_compute; reflexivity).
  pose proof (calls_leave_other_instances 0 1 (Some "")
                (world2 (instance SARA_R5 true CATM1 stale [csqOk; ucged2Ok])
                   (instance SARA_R412M_02B true CATM1 (measured (-70) (-75)) [csqOk]))
                ltac:(discriminate)) as (Hrefresh & Himei & Htime).
  rewrite Hother in Hrefresh, Himei, Htime.
  split; [exact Hrefresh |]. split; [exact Himei |]. split; [exact Htime |].
  vm_compute. discriminate.
Defined.

(** The three calls before the API is initialised. *)
Lemma uninitialised_or_unknown_handle_witness :
  uCellInfoRefreshRadioParameters 0 uninitialised
  = (U_ERROR_COMMON_NOT_INITIALISED, uninitialised) /\
  uCellInfoGetImei 0 (Some "") uninitialised
  = ((U_ERROR_COMMON_NOT_INITIALISED, Some ""), uninitialised) /\
  uCellInfoGetTimeUtc 0 uninitialised
  = (U_ERROR_COMMON_NOT_INITIALISED, uninitialised) /\
  U_ERROR_COMMON_NOT_INITIALISED < 0.
Proof.
  apply (uninitialised_or_unknown_handle 0 (Some "") uninitialised).
  left. reflexivity.
Defined.

(** The IMEI reader on an IMEI. *)
Lemma uCellInfoGetImei_success_is_numeric_witness :
  exists buffer,
    fst (uCellInfoGetImei 0 (Some "")
           (world (instance SARA_R5 true CATM1 stale [imeiUrc; imeiOk])))
    = (U_ERROR_COMMON_SUCCESS, Some buffer) /\
    (15 <= String.length buffer)%nat /\
    uCellPrivateIsNumeric buffer (Z.to_nat U_CELL_INFO_IMEI_SIZE) = true.
Proof.
  pose proof (uCellInfoGetImei_success_is_numeric 0 (Some "")
                (world (instance SARA_R5 true CATM1 stale [imeiUrc; imeiOk]))) as Hthm.
  destruct (uCellInfoGetImei 0 _ _) as [[errorCode pImei'] g'] eqn:Hrun in Hthm.
  assert (HerrorCode : errorCode = U_ERROR_COMMON_SUCCESS)
    by (apply (f_equal (fun r => fst (fst r))) in Hrun; vm_compute in Hrun;
        symmetry; exact Hrun).
  destruct Hthm as [Hsuccess _].
  destruct (Hsuccess HerrorCode) as (buffer & -> & Hlen & Hnum).
  exists buffer. rewrite Hrun, HerrorCode. simpl. tauto.
Defined.

(** The SNR getter on parameters with RSSI -80 and RSRP -80, with RSSI
    unknown, and without a pointer. *)
Lemma uCellInfoGetSnrDb_outcomes_witness :
  uCellInfoGetSnrDb 0 (Some 5)
    (world (instance SARA_R5 true CATM1 (measured (-80) (-80)) []))
  = (U_ERROR_COMMON_SUCCESS, Some INT_MAX) /\
  snd (uCellInfoGetSnrDb 0 (Some 5)
         (world (instance SARA_R5 true CATM1 (measured 0 (-80)) []))) = Some 5 /\
  snd (uCellInfoGetSnrDb 0 None
         (world (instance SARA_R5 true CATM1 (measured (-80) (-80)) []))) = None.
Proof.
  split; [vm_compute; reflexivity |]. split.
  - pose proof (uCellInfoGetSnrDb_outcomes 0 (Some 5)
                  (world (instance SARA_R5 true CATM1 (measured 0 (-80)) []))) as Hthm.
    destruct (uCellInfoGetSnrDb 0 _ _) as [errorCode pSnrDb'] eqn:Hrun in Hthm |- *.
    apply Hthm. apply (f_equal fst) in Hrun. vm_compute in Hrun. subst errorCode.
    discriminate.
  - pose proof (uCellInfoGetSnrDb_outcomes 0 None
                  (world (instance SARA_R5 true CATM1 (measured (-80) (-80)) []))) as Hthm.
    destruct (uCellInfoGetSnrDb 0 _ _) as [errorCode pSnrDb'] eqn:Hrun in Hthm |- *.
    apply Hthm. apply (f_equal fst) in Hrun. vm_compute in Hrun. subst errorCode.
    discriminate.
Defined.

(** The SNR getter with the RSRP unknown. *)
Lemma uCellInfoGetSnrDb_unknown_witness :
  uCellInfoGetSnrDb 0 (Some 5)
    (world (instance SARA_R5 true CATM1 (measured (-80) 0) []))
  = (U_CELL_ERROR_VALUE_OUT_OF_RANGE, Some 5).
Proof.
  apply (uCellInfoGetSnrDb_unknown 0
           (world (instance SARA_R5 true CATM1 (measured (-80) 0) []))
           (instance SARA_R5 true CATM1 (measured (-80) 0) []) 5);
    [reflexivity | vm_compute; reflexivity | right; reflexivity].
Defined.

(** The SNR getter with the RSSI equal to the RSRP. *)
Lemma uCellInfoGetSnrDb_equal_witness :
  uCellInfoGetSnrDb 0 (Some 5)
    (world (instance SARA_R5 true CATM1 (measured (-80) (-80)) []))
  = (U_ERROR_COMMON_SUCCESS, Some INT_MAX).
Proof.
  apply (uCellInfoGetSnrDb_equal 0
           (world (instance SARA_R5 true CATM1 (measured (-80) (-80)) []))
           (instance SARA_R5 true CATM1 (measured (-80) (-80)) []) 5);
    [reflexivity | vm_compute; reflexivity | discriminate | reflexivity].
Defined.

(** The manufacturer string when the AT client reports a failure after a
    string of 16 characters was read, and when it does not. *)
Lemma string_getters_outcomes_witness :
  fst (uCellInfoGetManufacturerStr 0 true 32
         (world (instance SARA_R5 true CATM1 stale [cgmiThenFailure])))
  = (U_CELL_ERROR_AT, Some "u-blox AG 012345") /\
  fst (uCellInfoGetManufacturerStr 0 true 32
         (world (instance SARA_R5 true CATM1 stale [cgmiOk])))
  = (6, Some "u-blox") /\
  fst (uCellInfoGetIccidStr 0 true 32
         (world (instance SARA_R5 true CATM1 stale [ccidOk])))
  = (19, Some "8944501104169548380").
Proof.
  split; [| split].
  - pose proof (proj1 (proj1 (proj2 (string_getters_outcomes 0 true 32
                  (world (instance SARA_R5 true CATM1 stale [cgmiThenFailure]))))
                  (instance SARA_R5 true CATM1 stale [cgmiThenFailure])
                  eq_refl ltac:(vm_compute; reflexivity) ltac:(lia))) as Hthm.
    etransitivity; [exact Hthm | vm_compute; reflexivity].
  - pose proof (proj1 (proj1 (proj2 (string_getters_outcomes 0 true 32
                  (world (instance SARA_R5 true CATM1 stale [cgmiOk]))))
                  (instance SARA_R5 true CATM1 stale [cgmiOk])
                  eq_refl ltac:(vm_compute; reflexivity) ltac:(lia))) as Hthm.
    etransitivity; [exact Hthm | vm_compute; reflexivity].
  - pose proof (proj2 (proj2 (proj2 (proj1 (proj2 (string_getters_outcomes 0 true 32
                  (world (instance SARA_R5 true CATM1 stale [ccidOk]))))
                  (instance SARA_R5 true CATM1 stale [ccidOk])
                  eq_refl ltac:(vm_compute; reflexivity) ltac:(lia))))) as Hthm.
    etransitivity; [exact Hthm | vm_compute; reflexivity].
Defined.

(** The string getters without a buffer. *)
Lemma string_getters_no_buffer_witness :
  let g := world (instance SARA_R5 true CATM1 stale [cgmiOk]) in
  uCellInfoGetManufacturerStr 0 false 32 g = ((U_ERROR_COMMON_INVALID_PARAMETER, None), g) /\
  uCellInfoGetModelStr 0 false 32 g = ((U_ERROR_COMMON_INVALID_PARAMETER, None), g) /\
  uCellInfoGetFirmwareVersionStr 0 false 32 g
  = ((U_ERROR_COMMON_INVALID_PARAMETER, None), g) /\
  uCellInfoGetIccidStr 0 false 32 g = ((U_ERROR_COMMON_INVALID_PARAMETER, None), g).
Proof.
  apply (string_getters_no_buffer 0 false 32
           (world (instance SARA_R5 true CATM1 stale [cgmiOk]))).
  left. reflexivity.
Defined.

(** The time of 21/08/05,12:30:00+04 and of the same string with -04. *)
Lemma decodeTimeUtc_digits_witness :
  decodeTimeUtc (stringBuffer 32 "21/08/05,12:30:00+04") 20 = 1628166600 - 3600 /\
  decodeTimeUtc (stringBuffer 32 "21/08/05,12:30:00-04") 20 <= 1628166600 /\
  decodeTimeUtc (stringBuffer 32 "21/08/05,12:30:00") 17 = 1628166600.
Proof.
  assert (Hdigits : Forall (fun c => isdigit c = true)
                      ["2"; "1"; "0"; "8"; "0"; "5"; "1"; "2"; "3"; "0"; "0"; "0"]%char)
    by (repeat constructor).
  split; [| split].
  - pose proof (decodeTimeUtc_digits "2" "1" "0" "8" "0" "5" "1" "2" "3" "0" "0" "0" "0" "4"
                  "/" "/" "," ":" ":" "+" NUL (replicate 11 NUL) 20 Hdigits) as [_ Hzone].
    destruct (Hzone ltac:(lia) ltac:(vm_compute; discriminate) eq_refl eq_refl) as [Heq _].
    etransitivity; [exact Heq |]. vm_compute. reflexivity.
  - pose proof (decodeTimeUtc_digits "2" "1" "0" "8" "0" "5" "1" "2" "3" "0" "0" "0" "0" "4"
                  "/" "/" "," ":" ":" "-" NUL (replicate 11 NUL) 20 Hdigits) as [_ Hzone].
    destruct (Hzone ltac:(lia) ltac:(vm_compute; discriminate) eq_refl eq_refl) as [_ Hle].
    etransitivity; [exact Hle |]. vm_compute. discriminate.
  - pose proof (decodeTimeUtc_digits "2" "1" "0" "8" "0" "5" "1" "2" "3" "0" "0" "0" NUL NUL
                  "/" "/" "," ":" ":" NUL NUL (replicate 11 NUL) 17 Hdigits) as [Hshort _].
    etransitivity; [exact (Hshort ltac:(left; lia)) |]. vm_compute. reflexivity.
Defined.

(** The advertising data of the name "ub" with two bytes of manufacturer
    data, in a buffer of 31 bytes and in a buffer of 7. *)
Lemma uBleGapSetAdvData_fits_witness :
  uBleGapSetAdvData nameComplete manufacturerData (Some [117; 98]) (Some [1; 2]) 2 31
  = (8, [3; 9; 117; 98; 3; 255; 1; 2]) /\
  uBleGapSetAdvData nameComplete manufacturerData (Some [117; 98]) (Some [1; 2]) 2 7
  = (U_ERROR_COMMON_INVALID_PARAMETER, []).
Proof.
  split.
  - rewrite (uBleGapSetAdvData_fits nameComplete manufacturerData
               (Some [117; 98]) (Some [1; 2]) 2 31).
    + reflexivity.
    + left. eexists. reflexivity.
    + intros name [= <-]. simpl. lia.
    + intros data [= <-]. simpl. lia.
  - rewrite (uBleGapSetAdvData_fits nameComplete manufacturerData
               (Some [117; 98]) (Some [1; 2]) 2 7).
    + reflexivity.
    + left. eexists. reflexivity.
    + intros name [= <-]. simpl. lia.
    + intros data [= <-]. simpl. lia.
Defined.

(** A name of 254 characters, and 255 bytes of manufacturer data, in a
    buffer of 31 bytes. *)
Lemma uBleGapSetAdvData_wraps_witness :
  (let '(totSize, stored) :=
     uBleGapSetAdvData nameComplete manufacturerData (Some (replicate 254 65)) None 0 31 in
   totSize = Z.of_nat (length (replicate 254 65)) - 254 /\
   Z.of_nat (length stored) = Z.of_nat (length (replicate 254 65)) + 2 /\
   31 < Z.of_nat (length stored)) /\
  (let '(totSize, stored) :=
     uBleGapSetAdvData nameComplete manufacturerData None (Some (replicate 255 7)) 255 31 in
   totSize = 255 - 254 /\
   Z.of_nat (length stored) = 255 + 2 /\
   31 < Z.of_nat (length stored)).
Proof.
  pose proof (uBleGapSetAdvData_wraps nameComplete manufacturerData
                (replicate 254 65) (replicate 255 7) 0 31 ltac:(lia)) as [Hname _].
  pose proof (uBleGapSetAdvData_wraps nameComplete manufacturerData
                (replicate 254 65) (replicate 255 7) 255 31 ltac:(lia)) as [_ Hdata].
  split.
  - apply Hname. rewrite length_replicate. lia.
  - apply Hdata; [lia | rewrite length_replicate; lia].
Defined.

End MoreRuns.
